(** * AICodeReviewer: rate limiter, navigation tools, tool-calling loop
    and session store

  A shallow embedding of the orchestration core of the reviewer:
  - [reviewer/rate_limiter.py]   : [RateLimiter], [ModelRateLimits],
                                   [RateLimitManager];
  - [reviewer/navigation_tools.py]: [NavigationTools.read_file],
                                   [NavigationTools.get_imports];
  - [reviewer/gemini_client.py]  : [GeminiClient._execute_function],
                                   [GeminiClient.review_code];
  - [reviewer/service.py]        : [ReviewerService.handle_review],
                                   [ReviewerService.create_new_session].

  Conventions.  Python [float] quantities (token counts of the bucket,
  clock readings) are exact rationals [Q]; Python [int] is [Z]; [str] is
  [string] (a sequence of bytes); a [dict] keyed by strings is a
  [gmap string _].  Everything the code obtains from outside (the clock,
  the file system, the reasoning agent, the tools' subprocesses) is an
  explicit argument or a component of the state that is threaded
  through. *)

From Stdlib Require Import ZArith QArith Qminmax Qround Lqa Lia String Ascii
  List DecimalString.
From stdpp Require Import gmap strings list.

Local Open Scope string_scope.

(** ** Python helpers *)

Module Py.

(** [a.startswith(b)]. *)
Definition startswith (a b : string) : bool := String.prefix b a.

(** [str.lower()] on the ASCII range (bytes above 127 are left alone). *)
Definition lower_ascii (c : ascii) : ascii :=
  let n := nat_of_ascii c in
  if (Nat.leb 65 n && Nat.leb n 90)%bool then ascii_of_nat (n + 32) else c.

Fixpoint lower (s : string) : string :=
  match s with
  | EmptyString => EmptyString
  | String c r => String (lower_ascii c) (lower r)
  end.

(** An attribute that an object may or may not have ([hasattr]). *)
Inductive attr (A : Type) : Type :=
| Missing : attr A
| Has (a : A) : attr A.
Arguments Missing {A}.
Arguments Has {A} a.

(** The exceptions the modelled code raises or lets through. *)
Inductive exn : Type :=
| ValueError (msg : string)
| RuntimeError (msg : string)
| OtherError (msg : string).

(** [str(e)]. *)
Definition exn_str (e : exn) : string :=
  match e with
  | ValueError m | RuntimeError m | OtherError m => m
  end.

(** [getattr(obj, name, 0) or 0] for an integer field that may be
    missing, [None] or an integer. *)
Definition getattr_or_0 (f : attr (option Z)) : Z :=
  match f with
  | Has (Some n) => n
  | _ => 0%Z
  end.

(** [s.count(sub)]: the number of non-overlapping occurrences of [sub],
    scanning from the left.  [skip] is the number of characters of the
    last match that are still to be jumped over. *)
Fixpoint count_from (skip : nat) (sub s : string) : nat :=
  match s with
  | EmptyString => 0
  | String _ r =>
      match skip with
      | S k => count_from k sub r
      | O =>
          if String.prefix sub s
          then S (count_from (String.length sub - 1) sub r)
          else count_from 0 sub r
      end
  end.

Definition count (s sub : string) : nat :=
  match sub with
  | EmptyString => S (String.length s)
  | _ => count_from 0 sub s
  end.

(** [int(q)]: the integer part, towards zero. *)
Definition int_of_Q (q : Q) : Z :=
  if Qle_bool 0 q then Qfloor q else (- Qfloor (- q))%Z.

(** [c.isdigit()] and [c.isspace()] on the ASCII range. *)
Definition is_digit (c : ascii) : bool :=
  let n := nat_of_ascii c in
  (Nat.leb 48 n && Nat.leb n 57)%bool.

Definition is_space (c : ascii) : bool :=
  let n := nat_of_ascii c in
  ((Nat.leb 9 n && Nat.leb n 13) || (Nat.leb 28 n && Nat.leb n 32))%bool.

(** [s.lstrip()], [s.rstrip()] and [s.strip()], for ASCII white space. *)
Fixpoint lstrip (s : string) : string :=
  match s with
  | EmptyString => EmptyString
  | String c r => if is_space c then lstrip r else s
  end.

Fixpoint rstrip (s : string) : string :=
  match s with
  | EmptyString => EmptyString
  | String c r =>
      match rstrip r with
      | EmptyString => if is_space c then EmptyString else String c EmptyString
      | r' => String c r'
      end
  end.

Definition strip (s : string) : string := rstrip (lstrip s).

(** [int(s)] for a string of ASCII digits. *)
Fixpoint int_of_digits (acc : Z) (s : string) : Z :=
  match s with
  | EmptyString => acc
  | String c r =>
      int_of_digits (10 * acc + Z.of_nat (nat_of_ascii c - 48))%Z r
  end.

(** [str(n)] for an integer. *)
Definition str_of_int (n : Z) : string :=
  NilZero.string_of_int (Z.to_int n).

(** [re.escape] (Python 3.7 and later): a backslash goes before each of
    the characters that are special in a pattern. *)
Definition backslash : ascii := ascii_of_nat 92.

Definition re_special (c : ascii) : bool :=
  (List.existsb (Ascii.eqb c)
     (backslash :: list_ascii_of_string "()[]{}?*+-|^$.&~# ")
   || (let n := nat_of_ascii c in Nat.leb 9 n && Nat.leb n 13))%bool.

Fixpoint re_escape (s : string) : string :=
  match s with
  | EmptyString => EmptyString
  | String c r =>
      if re_special c then String backslash (String c (re_escape r))
      else String c (re_escape r)
  end.

(** [all(p(c) for c in s)]. *)
Fixpoint all_chars (p : ascii -> bool) (s : string) : bool :=
  match s with
  | EmptyString => true
  | String c r => (p c && all_chars p r)%bool
  end.

End Py.

(** ** [reviewer/rate_limiter.py]: the token bucket *)

(** The monotonic clock.  [clock_now] is the last reading; [ticks] are the
  amounts of time that pass before each of the next readings (once the
  list is used up, no more time passes). *)
Record Clock : Type := mkClock { clock_now : Q; ticks : list Q }.

(** [time.monotonic()]. *)
Definition monotonic (c : Clock) : Q * Clock :=
  match ticks c with
  | [] => (clock_now c, c)
  | d :: ds => ((clock_now c + d)%Q, mkClock (clock_now c + d)%Q ds)
  end.

(** [time.sleep(w)]: at least [w] passes; what passes on top of it is
  part of the next tick. *)
Definition sleep (w : Q) (c : Clock) : Clock :=
  mkClock (clock_now c + w)%Q (ticks c).

Module RateLimiter.

Record t : Type := mk
  { rpm : Z;            (* requests per minute *)
    burst : Z;          (* capacity *)
    tokens : Q;         (* available tokens *)
    last_update : Q }.  (* clock reading of the last refill *)

(** [__init__]: [self.burst = burst or rpm], a full bucket. *)
Definition init (rpm0 : Z) (burst0 : option Z) (now : Q) : t :=
  let b := match burst0 with
           | Some b => if Z.eqb b 0 then rpm0 else b
           | None => rpm0
           end in
  {| rpm := rpm0; burst := b; tokens := inject_Z b; last_update := now |}.

(** [min(self.burst, self.tokens + (elapsed * self.rpm / 60.0))]. *)
Definition refilled (l : t) (now : Q) : Q :=
  Qmin (inject_Z (burst l))
       (tokens l + ((now - last_update l) * inject_Z (rpm l) / 60))%Q.

Definition set_tokens (l : t) (tk now : Q) : t :=
  {| rpm := rpm l; burst := burst l; tokens := tk; last_update := now |}.

(** The section under the lock that [acquire] and [try_acquire] share:
    refill, then take one token if there is one. *)
Definition refill_and_take (l : t) (now : Q) : bool * t :=
  let tk := refilled l now in
  if Qle_bool 1 tk then (true, set_tokens l (tk - 1)%Q now)
  else (false, set_tokens l tk now).

(** [try_acquire]. *)
Definition try_acquire (l : t) (c : Clock) : bool * t * Clock :=
  let '(now, c1) := monotonic c in
  let '(ok, l1) := refill_and_take l now in
  (ok, l1, c1).

(** [available_tokens]: reads the clock, changes nothing. *)
Definition available_tokens (l : t) (c : Clock) : Q * Clock :=
  let '(now, c1) := monotonic c in
  (refilled l now, c1).

Inductive acquire_result : Type :=
| Acquired              (* returns True *)
| TimedOut              (* returns False *)
| ZeroDivisionError     (* [.. / self.rpm] with [rpm = 0] *)
| StillWaiting.         (* the [while True] loop has not ended yet *)

(** The [while True] loop of [acquire], [fuel] rounds of it.  The list is
    the state of the bucket after each pass through the lock, oldest
    first. *)
Fixpoint acquire_loop (fuel : nat) (timeout start_time : Q) (l : t)
    (c : Clock) : acquire_result * list t * Clock :=
  match fuel with
  | O => (StillWaiting, [], c)
  | S fuel' =>
      let '(now, c1) := monotonic c in
      let '(ok, l1) := refill_and_take l now in
      if ok then (Acquired, [l1], c1)
      else if Z.eqb (rpm l1) 0 then (ZeroDivisionError, [l1], c1)
      else
        let tokens_needed := (1 - tokens l1)%Q in
        let wait_time := (tokens_needed * 60 / inject_Z (rpm l1))%Q in
        let '(t2, c2) := monotonic c1 in
        if negb (Qle_bool (t2 - start_time + wait_time) timeout)
        then (TimedOut, [l1], c2)
        else
          let '(r, tr, c3) :=
            acquire_loop fuel' timeout start_time l1 (sleep wait_time c2) in
          (r, l1 :: tr, c3)
  end.

(** [acquire(timeout)]. *)
Definition acquire (fuel : nat) (timeout : Q) (l : t) (c : Clock)
    : acquire_result * list t * Clock :=
  let '(start_time, c0) := monotonic c in
  acquire_loop fuel timeout start_time l c0.

(** The bucket after a call: the last state of its trace. *)
Definition final (l : t) (tr : list t) : t := List.last tr l.

(** A sequence of calls on one limiter. *)
Inductive call : Type :=
| Acquire (timeout : Q)
| TryAcquire
| AvailableTokens.

(** What a call shows: the states of the bucket it went through and the
    number it returned, if it returns one. *)
Record observation : Type := mkObs
  { obs_states : list t;
    obs_value : option Q }.

Definition do_call (fuel : nat) (k : call) (l : t) (c : Clock)
    : observation * t * Clock :=
  match k with
  | Acquire timeout =>
      let '(_, tr, c1) := acquire fuel timeout l c in
      (mkObs tr None, final l tr, c1)
  | TryAcquire =>
      let '(_, l1, c1) := try_acquire l c in
      (mkObs [l1] None, l1, c1)
  | AvailableTokens =>
      let '(v, c1) := available_tokens l c in
      (mkObs [l] (Some v), l, c1)
  end.

Fixpoint run (fuel : nat) (ks : list call) (l : t) (c : Clock)
    : list observation :=
  match ks with
  | [] => []
  | k :: ks' =>
      let '(o, l1, c1) := do_call fuel k l c in
      o :: run fuel ks' l1 c1
  end.

(** The invariant of the data model. *)
Definition in_range (l : t) (x : Q) : Prop :=
  (0 <= x)%Q /\ (x <= inject_Z (burst l))%Q.

Definition inv (l : t) : Prop := in_range l (tokens l).


(** [n] calls of [try_acquire] in a row, and what each returned. *)
Fixpoint try_acquire_n (n : nat) (l : t) (c : Clock) : list bool * t * Clock :=
  match n with
  | O => ([], l, c)
  | S k =>
      let '(ok, l1, c1) := try_acquire l c in
      let '(oks, l2, c2) := try_acquire_n k l1 c1 in
      (ok :: oks, l2, c2)
  end.

(** The clock only moves forward. *)
Definition clock_ok (c : Clock) : Prop :=
  Forall (fun d => (0 <= d)%Q) (ticks c).

(** A bucket in its range, with a rate that is not negative, last
    refilled no later than the clock's last reading. *)
Definition good (l : t) (c : Clock) : Prop :=
  inv l /\ (0 <= rpm l)%Z /\ (last_update l <= clock_now c)%Q /\ clock_ok c.


End RateLimiter.

(** ** [reviewer/rate_limiter.py]: limits per model and the registry *)

Module ModelRateLimits.

(** [TIER_1_LIMITS], in the order the dict literal lists its items. *)
Definition TIER_1_LIMITS : list (string * Z) :=
  [ ("gemini-2.5-pro", 150%Z);
    ("gemini-2.5-flash", 1000%Z);
    ("gemini-2.0-flash", 2000%Z);
    ("gemini-2.0-flash-lite", 4000%Z) ].

Definition DEFAULT_LIMIT : Z := 100.
Definition DEFAULT_CANONICAL_KEY : string := "default_unknown_model".

(** [d[k]] / [k in d] on the items of a dict. *)
Fixpoint dict_get (k : string) (d : list (string * Z)) : option Z :=
  match d with
  | [] => None
  | (k', v) :: r => if String.eqb k k' then Some v else dict_get k r
  end.

(** [sorted(items, key=lambda item: len(item[0]), reverse=True)]: Python's
    sort is stable also with [reverse=True], so items of equal length keep
    the order of the dict. *)
Fixpoint insert_by_len (x : string * Z) (l : list (string * Z))
    : list (string * Z) :=
  match l with
  | [] => [x]
  | y :: r =>
      if Nat.ltb (String.length (fst x)) (String.length (fst y))
      then y :: insert_by_len x r
      else x :: l
  end.

Definition sorted_prefixes (d : list (string * Z)) : list (string * Z) :=
  foldr insert_by_len [] d.

(** The [for model_prefix, limit in sorted_prefixes] loop. *)
Fixpoint first_prefix (model_lower : string) (ps : list (string * Z))
    : option (Z * string) :=
  match ps with
  | [] => None
  | (model_prefix, limit) :: r =>
      if Py.startswith model_lower model_prefix
      then Some (limit, model_prefix)
      else first_prefix model_lower r
  end.

(** [get_rpm_and_prefix]. *)
Definition get_rpm_and_prefix (model_name tier : string)
    : Py.exn + (Z * string) :=
  if negb (String.eqb tier "tier1")
  then inl (Py.ValueError ("Unsupported tier: " ++ tier))
  else
    let model_lower := Py.lower model_name in
    match dict_get model_lower TIER_1_LIMITS with
    | Some limit => inr (limit, model_lower)
    | None =>
        match first_prefix model_lower (sorted_prefixes TIER_1_LIMITS) with
        | Some r => inr r
        | None => inr (DEFAULT_LIMIT, DEFAULT_CANONICAL_KEY)
        end
    end.

(** [get_rpm_limit]. *)
Definition get_rpm_limit (model_name tier : string) : Py.exn + Z :=
  match get_rpm_and_prefix model_name tier with
  | inl e => inl e
  | inr (rpm, _) => inr rpm
  end.

End ModelRateLimits.

Module RateLimitManager.

(** The manager and the limiter objects it has created.  A limiter is an
    object with an identity: [objects] is the store of the limiter
    objects, a reference is a position in it, and [limiters] is the dict
    [self._limiters] from key to reference. *)
Record t : Type := mk
  { limiters : gmap string nat;
    objects : list RateLimiter.t }.

(** [__init__]. *)
Definition init : t := {| limiters := ∅; objects := [] |}.

(** [get_limiter]; [now] is the clock reading the constructor of a new
    limiter takes. *)
Definition get_limiter (model_name tier : string) (now : Q) (m : t)
    : (Py.exn + nat) * t :=
  match ModelRateLimits.get_rpm_and_prefix model_name tier with
  | inl e => (inl e, m)
  | inr (rpm, canonical_model) =>
      let key := tier ++ ":" ++ canonical_model in
      match limiters m !! key with
      | Some ref => (inr ref, m)
      | None =>
          let ref := length (objects m) in
          (inr ref,
           {| limiters := <[key := ref]> (limiters m);
              objects := objects m ++ [RateLimiter.init rpm None now] |})
      end
  end.

(** What happens to a manager during its life: a [get_limiter] call, or
    a caller using a limiter it holds, which changes that object in
    place. *)
Inductive step : t -> t -> Prop :=
| step_get model_name tier now m :
    step m (snd (get_limiter model_name tier now m))
| step_use ref l m :
    ref < length (objects m) ->
    step m {| limiters := limiters m; objects := <[ref := l]> (objects m) |}.

(** Every reference of the dict points into the store, and two keys never
    share an object. *)
Definition wf (m : t) : Prop :=
  (forall k ref, limiters m !! k = Some ref -> ref < length (objects m))
  /\ (forall k1 k2 ref,
        limiters m !! k1 = Some ref -> limiters m !! k2 = Some ref -> k1 = k2).

End RateLimitManager.

(** ** Paths and the file system ([pathlib], [os.path.realpath]) *)

Module PosixPath.

(** A [pathlib.Path]: whether it starts at the root, and its components.
    Empty components and [.] are dropped when a path is built, [..] is
    kept. *)
Record t : Type := mk { absolute : bool; parts : list string }.

Fixpoint split_slash (s : string) : list string :=
  match s with
  | EmptyString => [EmptyString]
  | String c r =>
      if Ascii.eqb c "/" then EmptyString :: split_slash r
      else match split_slash r with
           | [] => [String c EmptyString]
           | h :: tl => String c h :: tl
           end
  end.

Definition keep_part (p : string) : bool :=
  negb (String.eqb p EmptyString) && negb (String.eqb p ".").

(** [Path(s)]. *)
Definition parse (s : string) : t :=
  {| absolute := Py.startswith s "/";
     parts := List.filter keep_part (split_slash s) |}.

Fixpoint join_parts (ps : list string) : string :=
  match ps with
  | [] => EmptyString
  | [p] => p
  | p :: r => p ++ "/" ++ join_parts r
  end.

(** [str(p)]. *)
Definition str (p : t) : string :=
  if absolute p then "/" ++ join_parts (parts p)
  else match parts p with
       | [] => "."
       | ps => join_parts ps
       end.

(** [p / s]: an absolute right operand replaces the left one. *)
Definition div (p : t) (s : string) : t :=
  let q := parse s in
  if absolute q then q
  else {| absolute := absolute p; parts := parts p ++ parts q |}.

(** The components a path has after those of [other], when it starts
    with them. *)
Fixpoint strip_parts (other ps : list string) : option (list string) :=
  match other, ps with
  | [], _ => Some ps
  | o :: other', p :: ps' =>
      if String.eqb o p then strip_parts other' ps' else None
  | _ :: _, [] => None
  end.

(** [p.relative_to(other)]: both paths absolute or both relative, and the
    components of [other] leading those of [p]; [None] is the
    [ValueError]. *)
Definition relative_to (p other : t) : option t :=
  if Bool.eqb (absolute p) (absolute other) then
    match strip_parts (parts other) (parts p) with
    | Some rest => Some {| absolute := false; parts := rest |}
    | None => None
    end
  else None.

End PosixPath.

Module FileSystem.

(** What reading a regular file as UTF-8 text gives. *)
Inductive file_content : Type :=
| Text (s : string)         (* [f.read()] returns [s] *)
| Binary                    (* [UnicodeDecodeError] *)
| Unreadable (err : string) (* any other exception, [str(e) = err] *).

Inductive node : Type :=
| Dir
| File (content : file_content)
| Symlink (target : string).

(** The file system: what is at each absolute path (the key is the path
    written out, [/a/b/c]), and the working directory of the process,
    given by its components. *)
Record t : Type := mk
  { nodes : gmap string node;
    cwd : list string }.

Definition abs_str (ps : list string) : string :=
  PosixPath.str (PosixPath.mk true ps).

Definition node_at (fs : t) (ps : list string) : option node :=
  nodes fs !! abs_str ps.

(** How walking a path ends. *)
Inductive walked : Type :=
| Walked (ps : list string)   (* the resolved components *)
| TooManyLinks                (* a loop of symbolic links *)
| NotFound                    (* strict only: [FileNotFoundError] *)
| NotADirectory.              (* strict only: [NotADirectoryError] *)

(** [os.path.realpath]: the components are walked from the left over an
    already resolved prefix [seen]; [..] drops the last component of the
    prefix and a symbolic link is replaced by its target.  What does not
    exist is kept as it is, unless the walk is [strict], which then ends
    with an error.  [fuel] bounds the number of links followed; running
    out of it is the error a loop of links gives. *)
Fixpoint realpath (strict : bool) (fuel : nat) (fs : t)
    : list string -> list string -> walked :=
  fix walk (seen rest : list string) {struct rest} : walked :=
    match rest with
    | [] => Walked seen
    | name :: rest' =>
        if String.eqb name ".." then walk (removelast seen) rest'
        else
          match node_at fs (seen ++ [name])%list with
          | Some (Symlink target) =>
              match fuel with
              | O => TooManyLinks
              | S fuel' =>
                  let q := PosixPath.parse target in
                  realpath strict fuel' fs
                    (if PosixPath.absolute q then [] else seen)
                    (PosixPath.parts q ++ rest')%list
              end
          | Some _ => walk (seen ++ [name])%list rest'
          | None =>
              if strict then
                match node_at fs seen with
                | Some (File _) => NotADirectory
                | _ => NotFound
                end
              else walk (seen ++ [name])%list rest'
          end
    end.

(** The number of links a walk follows before it gives up. *)
Definition MAXLINKS : nat := 40.

Definition resolve_with (strict : bool) (fs : t) (p : PosixPath.t) : walked :=
  if PosixPath.absolute p
  then realpath strict MAXLINKS fs [] (PosixPath.parts p)
  else realpath strict MAXLINKS fs (cwd fs) (PosixPath.parts p).

(** [p.resolve()]: an absolute path without links or [..], or an
    exception ([None]). *)
Definition resolve (fs : t) (p : PosixPath.t) : option PosixPath.t :=
  match resolve_with false fs p with
  | Walked ps => Some (PosixPath.mk true ps)
  | _ => None
  end.

(** [p.resolve(strict=True)]. *)
Definition resolve_strict (fs : t) (p : PosixPath.t) : walked :=
  resolve_with true fs p.

(** [p.exists()], [p.is_file()], [p.is_dir()] on a resolved path. *)
Definition exists_ (fs : t) (p : PosixPath.t) : bool :=
  match node_at fs (PosixPath.parts p) with Some _ => true | None => false end.

Definition is_file (fs : t) (p : PosixPath.t) : bool :=
  match node_at fs (PosixPath.parts p) with
  | Some (File _) => true
  | _ => false
  end.

Definition is_dir (fs : t) (p : PosixPath.t) : bool :=
  match PosixPath.parts p, node_at fs (PosixPath.parts p) with
  | [], _ => true
  | _, Some Dir => true
  | _, _ => false
  end.

(** A path lies under a root when the root's components are a prefix of
    its components: the path is the root or a descendant of it. *)
Fixpoint parts_prefix (root ps : list string) : bool :=
  match root, ps with
  | [], _ => true
  | r :: root', p :: ps' => String.eqb r p && parts_prefix root' ps'
  | _ :: _, [] => false
  end.

Definition is_within (root p : PosixPath.t) : bool :=
  parts_prefix (PosixPath.parts root) (PosixPath.parts p).

End FileSystem.

(** ** [reviewer/codebase_indexer.py]: the data the navigation tools read *)

Module CodebaseIndexer.

(** [Symbol]. *)
Record Symbol : Type := mkSymbol
  { sym_name : string;
    sym_type : string;
    sym_file_path : string;
    sym_line_number : Z;
    sym_parent : option string }.

(** [FileNode]. *)
#[warnings="-register-all"] Inductive FileNode : Type :=
| mkNode (name path : string) (is_dir : bool) (children : list FileNode)
         (size : option Z).

Definition node_name (n : FileNode) : string :=
  match n with mkNode name _ _ _ _ => name end.

Definition node_children (n : FileNode) : list FileNode :=
  match n with mkNode _ _ _ children _ => children end.

End CodebaseIndexer.

(** ** [reviewer/navigation_tools.py] *)

Module NavigationTools.

(** The part of [CodebaseIndex] the modelled operations read. *)
Record CodebaseIndex : Type := mkIndex
  { imports : gmap string (list string) }.

Record t : Type := mk
  { repo_path : PosixPath.t;
    index : CodebaseIndex;
    _file_cache : gmap string string;
    debug : bool }.

(** [__init__]. *)
Definition init (repo_path0 : PosixPath.t) (index0 : CodebaseIndex)
    (debug0 : bool) : t :=
  {| repo_path := repo_path0; index := index0; _file_cache := ∅;
     debug := debug0 |}.

Definition cache_put (nav : t) (filepath content : string) : t :=
  {| repo_path := repo_path nav; index := index nav;
     _file_cache := <[filepath := content]> (_file_cache nav);
     debug := debug nav |}.

(** [read_file]: the returned string and the tools afterwards (the cache
    may have grown).  The debug prints have no part in either. *)
Definition read_file (fs : FileSystem.t) (nav : t) (filepath : string)
    : string * t :=
  match _file_cache nav !! filepath with
  | Some content => (content, nav)
  | None =>
      let full_path := PosixPath.div (repo_path nav) filepath in
      match FileSystem.resolve fs full_path,
            FileSystem.resolve fs (repo_path nav) with
      | Some full_path, Some root =>
          if negb (Py.startswith (PosixPath.str full_path)
                                 (PosixPath.str root))
          then ("Error: Access denied - path outside repository: "
                  ++ filepath, nav)
          else if negb (FileSystem.exists_ fs full_path)
          then ("Error: File not found: " ++ filepath, nav)
          else
            match FileSystem.node_at fs (PosixPath.parts full_path) with
            | Some (FileSystem.File (FileSystem.Text content)) =>
                (content, cache_put nav filepath content)
            | Some (FileSystem.File FileSystem.Binary) =>
                ("Error: Cannot read binary file: " ++ filepath, nav)
            | Some (FileSystem.File (FileSystem.Unreadable err)) =>
                ("Error reading file: " ++ err, nav)
            | _ => ("Error: Not a file: " ++ filepath, nav)
            end
      | _, _ => ("Error: Invalid path: " ++ filepath, nav)
      end
  end.

(** [get_imports].  [extract_imports filepath content] stands for the two
    regular-expression scans and the final [list(set(imports))], whose
    order is that of Python's string hashing. *)
Definition get_imports (extract_imports : string -> string -> list string)
    (fs : FileSystem.t) (nav : t) (filepath : string) : list string * t :=
  match imports (index nav) !! filepath with
  | Some l => (l, nav)
  | None =>
      let '(content, nav1) := read_file fs nav filepath in
      if Py.startswith content "Error:" then ([], nav1)
      else (extract_imports filepath content, nav1)
  end.

(** *** Searching with external tools *)

(** How [subprocess.run(cmd, capture_output=True, text=True, timeout=30)]
    ends: the process ran, with its exit status and the lines of what it
    wrote ([result.stdout.splitlines()]); the program does not exist; it
    did not finish in time; or anything else that is raised. *)
Inductive proc_result : Type :=
| Completed (returncode : Z) (stdout_lines : list string)
| FileNotFoundError
| TimeoutExpired
| ProcRaises (e : Py.exn).

(** An exception that leaves a search. *)
Inductive raised : Type :=
| RaisedFileNotFound
| RaisedTimeout
| RaisedOther (e : Py.exn).

(** One entry of a result list: a match, or the error entry. *)
Inductive match_dict : Type :=
| Match (file : string) (line : Z) (content : string)
| SearchError (error : string).

(** The [re.match] of a line against the pattern of grep's output, a
    file, a colon, a line number, a colon and the content, the file matched
    lazily: the shortest non-empty start that is followed by a colon,
    digits and a colon. *)
Fixpoint span_digits (s : string) : string * string :=
  match s with
  | EmptyString => (EmptyString, EmptyString)
  | String c r =>
      if Py.is_digit c
      then let '(d, rest) := span_digits r in (String c d, rest)
      else (EmptyString, s)
  end.

Definition number_then_colon (s : string) : option (string * string) :=
  match span_digits s with
  | (String d ds, String ":" rest) => Some (String d ds, rest)
  | _ => None
  end.

Fixpoint match_from (pre s : string) : option (string * string * string) :=
  match s with
  | EmptyString => None
  | String c r =>
      match
        (if Ascii.eqb c ":" then
           match pre with
           | EmptyString => None
           | _ => number_then_colon r
           end
         else None)
      with
      | Some (ds, rest) => Some (pre, ds, rest)
      | None => match_from (pre ++ String c EmptyString) r
      end
  end.

(** The dot of the pattern matches no line feed, and its end matches at
    the end of the line and before a line feed that ends it. *)
Definition line_feed : ascii := ascii_of_nat 10.

Fixpoint chomp (s : string) : string :=
  match s with
  | EmptyString => EmptyString
  | String c EmptyString =>
      if Ascii.eqb c line_feed then EmptyString else s
  | String c r => String c (chomp r)
  end.

Definition grep_line (line : string) : option (string * string * string) :=
  let body := chomp line in
  if Py.all_chars (fun c => negb (Ascii.eqb c line_feed)) body
  then match_from EmptyString body
  else None.

(** The body of the loop over the output lines: a line that matches and
    whose file lies under [repo_path] gives a match, any other line
    nothing. *)
Definition parse_line (nav : t) (line : string) : option match_dict :=
  match grep_line line with
  | None => None
  | Some (filepath, number, content) =>
      match PosixPath.relative_to (PosixPath.parse filepath) (repo_path nav)
      with
      | Some rel_path =>
          Some (Match (PosixPath.str rel_path)
                  (Py.int_of_digits 0 number) (Py.strip content))
      | None => None
      end
  end.

Fixpoint parse_lines (nav : t) (lines : list string) : list match_dict :=
  match lines with
  | [] => []
  | line :: rest =>
      match parse_line nav line with
      | Some m => m :: parse_lines nav rest
      | None => parse_lines nav rest
      end
  end.

(** How a [try] statement of a search ends: with the result of a process,
    by returning a list at once, or by raising. *)
Inductive attempt : Type :=
| Ran (returncode : Z) (stdout_lines : list string)
| ReturnNow (l : list match_dict)
| Raise (e : raised).

(** A process run inside an [except] clause: nothing there catches what
    it raises. *)
Definition run_in_handler (run : list string -> proc_result)
    (cmd : list string) : attempt :=
  match run cmd with
  | Completed rc out => Ran rc out
  | FileNotFoundError => Raise RaisedFileNotFound
  | TimeoutExpired => Raise RaisedTimeout
  | ProcRaises e => Raise (RaisedOther e)
  end.

(** The [try] statement both searches share: [cmd] is tried first and
    [fallback] is run when [cmd] exits with another status than 0, or
    when its program does not exist. *)
Definition try_search (run : list string -> proc_result)
    (cmd fallback : list string) (timeout_message : string) : attempt :=
  match run cmd with
  | Completed rc out =>
      if negb (Z.eqb rc 0) then
        match run fallback with
        | Completed rc' out' => Ran rc' out'
        | FileNotFoundError => run_in_handler run fallback
        | TimeoutExpired => ReturnNow [SearchError timeout_message]
        | ProcRaises e => Raise (RaisedOther e)
        end
      else Ran rc out
  | FileNotFoundError => run_in_handler run fallback
  | TimeoutExpired => ReturnNow [SearchError timeout_message]
  | ProcRaises e => Raise (RaisedOther e)
  end.

(** The two characters a backslash and [b]. *)
Definition word_boundary : string :=
  String Py.backslash (String "b" EmptyString).

(** [find_usages]. *)
Definition find_usages (run : list string -> proc_result) (nav : t)
    (symbol_name : string) : raised + list match_dict :=
  let cmd :=
    [ "rg"; "-n"; "--no-heading";
      word_boundary ++ Py.re_escape symbol_name ++ word_boundary;
      PosixPath.str (repo_path nav) ] in
  let fallback :=
    [ "grep"; "-rn"; word_boundary ++ symbol_name ++ word_boundary;
      PosixPath.str (repo_path nav) ] in
  match try_search run cmd fallback
          "Search timeout - symbol name too common or codebase too large"
  with
  | Raise e => inl e
  | ReturnNow l => inr l
  | Ran _ lines => inr (List.firstn 100 (parse_lines nav lines))
  end.

(** [search_text]; [file_pattern] is [None] for a missing or empty
    pattern. *)
Definition search_text (run : list string -> proc_result) (nav : t)
    (pattern : string) (file_pattern : option string)
    : raised + list match_dict :=
  let root := PosixPath.str (repo_path nav) in
  let cmd :=
    match file_pattern with
    | Some g => ["rg"; "-n"; "--no-heading"; pattern; "--glob"; g; root]
    | None => ["rg"; "-n"; "--no-heading"; pattern; root]
    end in
  let fallback :=
    match file_pattern with
    | Some g => ["grep"; "-rn"; "--include"; g; pattern; root]
    | None => ["grep"; "-rn"; pattern; root]
    end in
  match try_search run cmd fallback
          "Search timeout - pattern too broad or codebase too large"
  with
  | Raise e => inl e
  | ReturnNow l => inr l
  | Ran _ lines => inr (parse_lines nav (List.firstn 100 lines))
  end.

(** *** The project tree *)

Definition connector (is_last : bool) : string :=
  if is_last then "└── " else "├── ".

Definition extension (is_last : bool) : string :=
  if is_last then "    " else "│   ".

(** [build_tree_string]: the line of the node, then the lines of its
    children, the last child marked as such. *)
Fixpoint build_tree_string (node : CodebaseIndexer.FileNode)
    (prefix : string) (is_last : bool) : list string :=
  match node with
  | CodebaseIndexer.mkNode name _ _ children _ =>
      (prefix ++ connector is_last ++ name)
        :: (fix each (cs : list CodebaseIndexer.FileNode) : list string :=
              match cs with
              | [] => []
              | child :: rest =>
                  (build_tree_string child (prefix ++ extension is_last)
                     (match rest with [] => true | _ => false end)
                   ++ each rest)%list
              end) children
  end.

Fixpoint build_children (cs : list CodebaseIndexer.FileNode)
    (prefix : string) : list string :=
  match cs with
  | [] => []
  | child :: rest =>
      (build_tree_string child prefix
         (match rest with [] => true | _ => false end)
       ++ build_children rest prefix)%list
  end.

(** The lines of [get_file_tree], for the tree [self.index.file_tree]. *)
Definition tree_lines (file_tree : CodebaseIndexer.FileNode) : list string :=
  CodebaseIndexer.node_name file_tree
    :: build_children (CodebaseIndexer.node_children file_tree) EmptyString.

(** [get_file_tree]. *)
Definition get_file_tree (file_tree : CodebaseIndexer.FileNode) : string :=
  String.concat "
" (tree_lines file_tree).

(** The nodes of a tree, a node before its children. *)
Fixpoint preorder (node : CodebaseIndexer.FileNode)
    : list CodebaseIndexer.FileNode :=
  match node with
  | CodebaseIndexer.mkNode _ _ _ children _ =>
      node :: (fix each (cs : list CodebaseIndexer.FileNode) :=
                 match cs with
                 | [] => []
                 | child :: rest => (preorder child ++ each rest)%list
                 end) children
  end.

(** Every entry of the cache is the text of a file of [fs] that passed
    the check of [read_file]. *)
Definition cache_sound (fs : FileSystem.t) (nav : t) : Prop :=
  forall filepath content,
    _file_cache nav !! filepath = Some content ->
    exists full root,
      FileSystem.resolve fs (PosixPath.div (repo_path nav) filepath)
        = Some full
      /\ FileSystem.resolve fs (repo_path nav) = Some root
      /\ Py.startswith (PosixPath.str full) (PosixPath.str root) = true
      /\ FileSystem.node_at fs (PosixPath.parts full)
         = Some (FileSystem.File (FileSystem.Text content)).

End NavigationTools.

(** ** [reviewer/gemini_client.py]: the tool-calling loop *)

Module GeminiClient.

Import Py.

(** *** What the reasoning agent sends and receives *)

Section Types.

(** [Args] is the argument map of a tool call ([fc.args]); [Value] is what
    a navigation tool returns (a string or a list of dicts). *)
Context {Args Value : Type}.

Record function_call : Type := mkCall
  { fc_name : string;
    fc_args : Args }.

(** [response.usage_metadata]. *)
Record usage_metadata : Type := mkUsage
  { prompt_token_count : attr (option Z);
    candidates_token_count : attr (option Z);
    total_token_count : attr (option Z) }.

(** A response of the agent, with the attributes the loop looks at.  A
    candidate is its [content.parts], when [content] has parts; a part is
    its [text], when it has one. *)
Record response : Type := mkResponse
  { function_calls : attr (option (list function_call));
    text : attr (option string);
    candidates : attr (list (attr (list (attr string))));
    usage : attr (option usage_metadata) }.

(** [{'result': result}] or [{'error': str(e)}]. *)
Inductive payload : Type :=
| Result (v : Value)
| Error (msg : string).

Record function_response : Type := mkFR
  { fr_name : string;
    fr_response : payload }.

(** What [chat.send_message] is given: the initial context, or the parts
    that carry the function responses of a turn. *)
Inductive message : Type :=
| InitialContext (s : string)
| FunctionResponses (parts : list function_response).

Record history_entry : Type := mkEntry
  { h_function : string;
    h_args : Args;
    h_result_preview : string }.

Record navigation_summary : Type := mkSummary
  { total_files_explored : nat;
    symbols_searched : nat;
    total_navigation_calls : nat }.

Record token_details : Type := mkTokens
  { input_tokens : Z;
    output_tokens : Z;
    total_tokens : Z }.

(** The dict [review_code] returns.  [review_content] is [None] when
    [response.text] is. *)
Record result : Type := mkResult
  { review_content : option string;
    navigation_history : list history_entry;
    iterations : Z;
    summary : navigation_summary;
    tokens_used : token_details }.

(** The agent behind a chat: what it answers to the last message of a
    conversation, given all messages sent so far (the last one included),
    or the exception [send_message] raises. *)
Definition agent : Type := list message -> exn + response.

(** *** The client *)

(** [N] is the state of the navigation tools, [G] that of the rate
    limiter the client holds. *)
Context {N G : Type}.

(** The six navigation tools as the client calls them, with the map as
    keyword arguments: each binds its arguments from the map (or raises),
    runs, and returns a value or raises; [py_str] is [str(result)], and
    [acquire] is [rate_limiter.acquire(timeout)]. *)
Record Tools : Type := mkTools
  { tool_read_file : Args -> N -> (exn + Value) * N;
    tool_search_symbol : Args -> N -> (exn + Value) * N;
    tool_find_usages : Args -> N -> (exn + Value) * N;
    tool_get_imports : Args -> N -> (exn + Value) * N;
    tool_get_file_tree : Args -> N -> (exn + Value) * N;
    tool_search_text : Args -> N -> (exn + Value) * N;
    py_str : Value -> string;
    acquire : Q -> G -> RateLimiter.acquire_result * G }.

Record client : Type := mkClient
  { model_name : string;
    enable_rate_limiting : bool;
    navigation_tools : option N;
    rate_limiter : G;
    chat : option (list message) }.

Definition set_nav (self : client) (nav : N) : client :=
  {| model_name := model_name self;
     enable_rate_limiting := enable_rate_limiting self;
     navigation_tools := Some nav;
     rate_limiter := rate_limiter self;
     chat := chat self |}.

Definition set_limiter (self : client) (g : G) : client :=
  {| model_name := model_name self;
     enable_rate_limiting := enable_rate_limiting self;
     navigation_tools := navigation_tools self;
     rate_limiter := g;
     chat := chat self |}.

Definition set_chat (self : client) (c : list message) : client :=
  {| model_name := model_name self;
     enable_rate_limiting := enable_rate_limiting self;
     navigation_tools := navigation_tools self;
     rate_limiter := rate_limiter self;
     chat := Some c |}.

(** [setup_navigation_tools] (the tool declarations it also builds are
    constants). *)
Definition setup_navigation_tools (self : client) (nav : N) : client :=
  set_nav self nav.

Variable T : Tools.

(** The [function_map] of [_execute_function]. *)
Definition function_map : list (string * (Args -> N -> (exn + Value) * N)) :=
  [ ("read_file", tool_read_file T);
    ("search_symbol", tool_search_symbol T);
    ("find_usages", tool_find_usages T);
    ("get_imports", tool_get_imports T);
    ("get_file_tree", tool_get_file_tree T);
    ("search_text", tool_search_text T) ].

Fixpoint map_get {A : Type} (k : string) (d : list (string * A)) : option A :=
  match d with
  | [] => None
  | (k', v) :: r => if String.eqb k k' then Some v else map_get k r
  end.

(** [_execute_function]. *)
Definition _execute_function (self : client) (function_name : string)
    (args : Args) : (exn + Value) * client :=
  match navigation_tools self with
  | None => (inl (ValueError "Navigation tools not set up"), self)
  | Some nav =>
      match map_get function_name function_map with
      | None => (inl (ValueError ("Unknown function: " ++ function_name)), self)
      | Some func =>
          let '(r, nav1) := func args nav in
          (r, set_nav self nav1)
      end
  end.

(** [str(result)[:200] + '...' if len(str(result)) > 200 else str(result)]. *)
Definition result_preview (v : Value) : string :=
  let s := py_str T v in
  if Nat.ltb 200 (String.length s) then String.substring 0 200 s ++ "..."
  else s.

(** The [for fc in tool_calls] loop of one turn: every call is tried, a
    call that raises leaves an error response and no history entry. *)
Fixpoint execute_calls (tool_calls : list function_call)
    (navigation_history : list history_entry) (self : client)
    : list function_response * list history_entry * client :=
  match tool_calls with
  | [] => ([], navigation_history, self)
  | fc :: rest =>
      let '(r, self1) := _execute_function self (fc_name fc) (fc_args fc) in
      match r with
      | inr v =>
          let '(frs, h, self2) :=
            execute_calls rest
              (navigation_history
                 ++ [mkEntry (fc_name fc) (fc_args fc) (result_preview v)])%list
              self1 in
          (mkFR (fc_name fc) (Result v) :: frs, h, self2)
      | inl e =>
          let '(frs, h, self2) :=
            execute_calls rest navigation_history self1 in
          (mkFR (fc_name fc) (Error (exn_str e)) :: frs, h, self2)
      end
  end.

(** [not hasattr(response, 'function_calls') or not response.function_calls]
    is false exactly when the list is there and not empty. *)
Definition requested_calls (r : response) : list function_call :=
  match function_calls r with
  | Has (Some l) => l
  | _ => []
  end.

(** The token counts a response adds to the three totals. *)
Definition add_usage (r : response) (tk : token_details) : token_details :=
  match usage r with
  | Missing => tk
  | Has None =>
      (* [getattr(None, name, 0) or 0] *)
      {| input_tokens := input_tokens tk + 0;
         output_tokens := output_tokens tk + 0;
         total_tokens := total_tokens tk + 0 |}
  | Has (Some u) =>
      {| input_tokens := input_tokens tk + getattr_or_0 (prompt_token_count u);
         output_tokens :=
           output_tokens tk + getattr_or_0 (candidates_token_count u);
         total_tokens := total_tokens tk + getattr_or_0 (total_token_count u) |}
  end.

(** The extraction of the final review from the last response. *)
Definition part_text (p : attr string) : string :=
  match p with Has s => s | Missing => EmptyString end.

Definition candidate_text (c : attr (list (attr string))) : string :=
  match c with
  | Has ps => String.concat EmptyString (List.map part_text ps)
  | Missing => EmptyString
  end.

Definition final_review (r : response) : option string :=
  match text r with
  | Has t => t
  | Missing =>
      match candidates r with
      | Has (c :: cs) =>
          Some (String.concat EmptyString
                  (List.map candidate_text (c :: cs)))
      | _ => Some EmptyString
      end
  end.

Definition count_history (names : list string) (h : list history_entry)
    : nat :=
  List.length
    (List.filter
       (fun e => List.existsb (String.eqb (h_function e)) names) h).

Definition make_result (r : response) (h : list history_entry)
    (iterations0 : Z) (tk : token_details) : result :=
  {| review_content := final_review r;
     navigation_history := h;
     iterations := iterations0;
     summary :=
       {| total_files_explored := count_history ["read_file"] h;
          symbols_searched := count_history ["search_symbol"; "find_usages"] h;
          total_navigation_calls := List.length h |};
     tokens_used := tk |}.

(** How a call of [review_code] ends. *)
Inductive outcome : Type :=
| Returned (res : result)
| Raised (e : exn)
| Blocked.   (* still inside [rate_limiter.acquire] *)

Definition rate_limit_timeout (self : client) : exn :=
  RuntimeError
    ("Rate limit timeout for " ++ model_name self
       ++ ". Please try again later.").

(** [if self.enable_rate_limiting: if not self.rate_limiter.acquire(
    timeout=30.0): raise RuntimeError(..)]: [None] when the call may go
    out. *)
Definition admission (self : client) : option outcome * client :=
  if enable_rate_limiting self then
    let '(a, g) := acquire T 30 (rate_limiter self) in
    let self1 := set_limiter self g in
    match a with
    | RateLimiter.Acquired => (None, self1)
    | RateLimiter.TimedOut => (Some (Raised (rate_limit_timeout self)), self1)
    | RateLimiter.ZeroDivisionError =>
        (Some (Raised (OtherError "float division by zero")), self1)
    | RateLimiter.StillWaiting => (Some Blocked, self1)
    end
  else (None, self).

(** [self.chat.send_message(m)]. *)
Definition send_message (a : agent) (self : client) (m : message)
    : (exn + response) * client :=
  let sent := (match chat self with Some c => c | None => [] end ++ [m])%list in
  (a sent, set_chat self sent).

(** The [while iterations < max_iterations] loop; [remaining] is
    [max_iterations - iterations]. *)
Fixpoint tool_loop (a : agent) (remaining : nat) (iterations0 : Z)
    (r : response) (h : list history_entry) (tk : token_details)
    (self : client) : outcome * client :=
  match remaining with
  | O => (Returned (make_result r h iterations0 tk), self)
  | S remaining' =>
      match requested_calls r with
      | [] => (Returned (make_result r h iterations0 tk), self)
      | tool_calls =>
          let '(function_responses, h1, self1) :=
            execute_calls tool_calls h self in
          let response_parts := function_responses in
          match admission self1 with
          | (Some stop, self2) => (stop, self2)
          | (None, self2) =>
              match send_message a self2 (FunctionResponses response_parts) with
              | (inl e, self3) => (Raised e, self3)
              | (inr r1, self3) =>
                  tool_loop a remaining' (iterations0 + 1) r1 h1
                    (add_usage r1 tk) self3
              end
          end
      end
  end.

(** [review_code]; the agent [a] is the one behind the chat that
    [self.client.chats.create] opens. *)
Definition review_code (a : agent) (self : client) (initial_context : string)
    (max_iterations : Z) : outcome * client :=
  match navigation_tools self with
  | None =>
      (Raised (ValueError
         "Navigation tools not set up. Call setup_navigation_tools first."),
       self)
  | Some _ =>
      let self0 := set_chat self [] in
      match admission self0 with
      | (Some stop, self1) => (stop, self1)
      | (None, self1) =>
          match send_message a self1 (InitialContext initial_context) with
          | (inl e, self2) => (Raised e, self2)
          | (inr r, self2) =>
              tool_loop a (Z.to_nat max_iterations) 0 r []
                (add_usage r (mkTokens 0 0 0)) self2
          end
      end
  end.

End Types.

Arguments function_call : clear implicits.
Arguments response : clear implicits.
Arguments payload : clear implicits.
Arguments function_response : clear implicits.
Arguments message : clear implicits.
Arguments history_entry : clear implicits.
Arguments result : clear implicits.
Arguments agent : clear implicits.
Arguments Tools : clear implicits.
Arguments client : clear implicits.
Arguments outcome : clear implicits.

(** A scripted agent: its answer to the [k]-th message is [script k]
    (counting from 0), whatever the message says. *)
Definition scripted {Args Value : Type} (script : nat -> response Args)
    : agent Args Value :=
  fun sent => inr (script (List.length sent - 1)).

(** The turn at which the loop stops when it talks to a scripted agent,
    starts at turn [i] and may go on for [remaining] more turns: the first
    turn whose response asks for no tool, or the last turn allowed. *)
Fixpoint stop_turn {Args : Type} (script : nat -> response Args)
    (remaining i : nat) : nat :=
  match remaining with
  | O => i
  | S k =>
      match requested_calls (script i) with
      | [] => i
      | _ => stop_turn script k (S i)
      end
  end.

(** The input, output and total token counts one response reports; a
    count that is not reported is no count. *)
Definition reported {Args : Type} (r : response Args) : Z * Z * Z :=
  match usage r with
  | Has (Some u) =>
      (getattr_or_0 (prompt_token_count u),
       getattr_or_0 (candidates_token_count u),
       getattr_or_0 (total_token_count u))
  | _ => (0, 0, 0)%Z
  end.

(** The sum of [f 0], ..., [f n]. *)
Fixpoint sum_to (f : nat -> Z) (n : nat) : Z :=
  match n with
  | O => f O
  | S k => (sum_to f k + f n)%Z
  end.

(** The limiter lets the next [n] calls of [acquire(timeout=30.0)]
    through. *)
Fixpoint grants {Args Value N G : Type} (T : Tools Args Value N G) (n : nat)
    (g : G) : Prop :=
  match n with
  | O => True
  | S k =>
      fst (acquire T 30 g) = RateLimiter.Acquired
      /\ grants T k (snd (acquire T 30 g))
  end.

(** Rate limiting is off, or the limiter lets the next [n] calls
    through. *)
Definition admitted {Args Value N G : Type} (T : Tools Args Value N G)
    (n : nat) (self : client Value N G) : Prop :=
  enable_rate_limiting self = false \/ grants T n (rate_limiter self).

(** The rate limiter of [rate_limiter.py] as the limiter of a client: the
    bucket together with the clock it reads. *)
Definition bucket_acquire (fuel : nat) (timeout : Q)
    (g : RateLimiter.t * Clock)
    : RateLimiter.acquire_result * (RateLimiter.t * Clock) :=
  let '(r, tr, c) := RateLimiter.acquire fuel timeout (fst g) (snd g) in
  (r, (RateLimiter.final (fst g) tr, c)).

(** [GeminiClient.__init__] with the module's [_rate_limit_manager]:
    [env_key] is [os.environ.get('GEMINI_API_KEY')], [now] the clock
    reading a new limiter takes.  The limiter of the client is a reference
    into the objects of the manager, and there is none when rate limiting
    is off. *)
Definition init {Value N : Type} (api_key env_key : option string)
    (model_name0 : string) (enable_rate_limiting0 : bool) (now : Q)
    (manager : RateLimitManager.t)
    : (exn + client Value N (option nat)) * RateLimitManager.t :=
  let truthy := fun k : option string =>
    match k with
    | Some EmptyString | None => false
    | Some _ => true
    end in
  if negb (truthy api_key || truthy env_key)
  then (inl (ValueError
          "Gemini API key not provided. Set GEMINI_API_KEY environment variable."),
        manager)
  else
    let fresh := fun g =>
      {| model_name := model_name0;
         enable_rate_limiting := enable_rate_limiting0;
         navigation_tools := None;
         rate_limiter := g;
         chat := None |} in
    if enable_rate_limiting0 then
      match RateLimitManager.get_limiter model_name0 "tier1" now manager with
      | (inl e, manager1) => (inl e, manager1)
      | (inr ref, manager1) => (inr (fresh (Some ref)), manager1)
      end
    else (inr (fresh None), manager).

End GeminiClient.

(** ** [reviewer/service.py]: the session store *)

Module ReviewerService.

Import Py.

(** [ReviewRequest]. *)
Record ReviewRequest : Type := mkRequest
  { session_name : string;
    project_root : string;
    initial_context : string;
    codebase_summary : string;
    changed_files : list (string * list string);
    diffs : list (string * string);
    show_all : bool;
    max_iterations : Z;
    show_progress : bool;
    debug : bool;
    model_name : string;
    ai_generated : bool;
    prototype : bool;
    design_doc : option string;
    story : option string }.

(** [SessionInfo]; the two dates are kept as clock readings instead of
    their ISO strings. *)
Record SessionInfo : Type := mkInfo
  { name : string;
    status : string;
    iteration : Z;
    created_at : Q;
    last_reviewed : Q;
    chat_messages_count : nat;
    previous_issues_count : option Z }.

(** [count_issues_in_review]. *)
Definition count_issues_in_review (review_content : string) : Z :=
  let markers := ["ISSUE:"; "ERROR:"; "WARNING:"; "FILE:"; "Line:"] in
  Z.of_nat
    (List.fold_left (fun count marker => count + Py.count review_content marker)
       markers 0).

Section Service.

Context {Args Value N G : Type}.

(** [ReviewResponse]. *)
Record ReviewResponse : Type := mkReviewResponse
  { session_info : SessionInfo;
    review_result : GeminiClient.result Args }.

(** A session, the dict stored in [active_sessions].  Its [chat] entry is
    the [None] that a new [GeminiClient] has for a chat, so it is never
    asked for a history and [chat_history] stays as created. *)
Record session : Type := mkSession
  { s_client : GeminiClient.client Value N G;
    s_display_name : string;
    s_project_root : string;
    s_created_at : Q;
    s_last_reviewed : Q;
    s_iteration : Z;
    s_model_name : string;
    s_chat_history : list string;
    s_last_issues_count : option Z }.

(** What a request finds outside the service: the file system, the home
    and temporary directories, the wall clock, the constructor of a client
    ([GeminiClient(model_name=.., debug=..)], which raises without an API
    key), the indexer and navigation tools for a project root, the tools
    and the agent of the review, and the two text templates. *)
Record Env : Type := mkEnv
  { env_fs : FileSystem.t;
    env_home : string;
    env_tempdir : string;
    env_now : Q;
    env_new_client : string -> bool -> exn + GeminiClient.client Value N G;
    env_new_nav : PosixPath.t -> exn + N;
    env_tools : GeminiClient.Tools Args Value N G;
    env_agent : GeminiClient.agent Args Value;
    env_format_initial_context : ReviewRequest -> string;
    env_build_continuation_context : session -> string -> Z -> string }.

(** How a request ends. *)
Inductive http_result : Type :=
| OK (resp : ReviewResponse)
| HTTPException (status_code : Z) (detail : string)
| Uncaught (e : exn)    (* an exception no handler of the service catches *)
| Pending.              (* the review is blocked in the rate limiter *)

(** The [try] block that opens [handle_review]: the validated project
    root, or the way the request is refused. *)
Definition validate_project_root (env : Env) (root : string)
    : http_result + PosixPath.t :=
  match FileSystem.resolve_strict (env_fs env) (PosixPath.parse root) with
  | FileSystem.NotFound =>
      inl (HTTPException 400
             "Invalid project_root: [Errno 2] No such file or directory")
  | FileSystem.NotADirectory =>
      inl (Uncaught (OtherError "[Errno 20] Not a directory"))
  | FileSystem.TooManyLinks =>
      inl (Uncaught (RuntimeError "Symlink loop"))
  | FileSystem.Walked ps =>
      let project_root := PosixPath.mk true ps in
      if negb (FileSystem.is_dir (env_fs env) project_root)
      then inl (HTTPException 400
                  "Invalid project_root: Path is not a directory")
      else
        match FileSystem.resolve (env_fs env)
                (PosixPath.parse (env_tempdir env)) with
        | None => inl (Uncaught (RuntimeError "Symlink loop"))
        | Some temp_root =>
            let safe_prefixes :=
              [ env_home env;
                PosixPath.str temp_root;
                "/tmp";
                "/var/folders";
                "/private/var/folders" ] in
            if negb (List.existsb
                       (Py.startswith (PosixPath.str project_root))
                       safe_prefixes)
            then inl (HTTPException 400
                   "Invalid project_root: Project path is outside safe boundaries")
            else inr project_root
        end
  end.

(** [f"{str(project_root)}:{request.session_name}"]. *)
Definition session_key (project_root : PosixPath.t) (session_name0 : string)
    : string :=
  PosixPath.str project_root ++ ":" ++ session_name0.

(** [create_new_session]: the new session, stored under its key. *)
Definition create_new_session (env : Env) (key display_name : string)
    (request : ReviewRequest) (project_root : PosixPath.t)
    (active_sessions : gmap string session)
    : exn + (session * gmap string session) :=
  match env_new_client env (model_name request) (debug request) with
  | inl e => inl e
  | inr gemini_client =>
      let s :=
        {| s_client := gemini_client;
           s_display_name := display_name;
           s_project_root := PosixPath.str project_root;
           s_created_at := env_now env;
           s_last_reviewed := env_now env;
           s_iteration := 1;
           s_model_name := model_name request;
           s_chat_history := [];
           s_last_issues_count := None |} in
      inr (s, <[key := s]> active_sessions)
  end.

(** The three ways [handle_review] writes into a session. *)
Definition continue_session (env : Env) (s : session) : session :=
  {| s_client := s_client s;
     s_display_name := s_display_name s;
     s_project_root := s_project_root s;
     s_created_at := s_created_at s;
     s_last_reviewed := env_now env;
     s_iteration := s_iteration s + 1;
     s_model_name := s_model_name s;
     s_chat_history := s_chat_history s;
     s_last_issues_count := s_last_issues_count s |}.

Definition with_client (s : session) (c : GeminiClient.client Value N G)
    : session :=
  {| s_client := c;
     s_display_name := s_display_name s;
     s_project_root := s_project_root s;
     s_created_at := s_created_at s;
     s_last_reviewed := s_last_reviewed s;
     s_iteration := s_iteration s;
     s_model_name := s_model_name s;
     s_chat_history := s_chat_history s;
     s_last_issues_count := s_last_issues_count s |}.

Definition with_issues (s : session) (n : Z) : session :=
  {| s_client := s_client s;
     s_display_name := s_display_name s;
     s_project_root := s_project_root s;
     s_created_at := s_created_at s;
     s_last_reviewed := s_last_reviewed s;
     s_iteration := s_iteration s;
     s_model_name := s_model_name s;
     s_chat_history := s_chat_history s;
     s_last_issues_count := Some n |}.

(** The part of [handle_review] after the session is found or made.  The
    session is the object stored under [key]: what is written into it is
    written into the map. *)
Definition review_in_session (env : Env) (request : ReviewRequest)
    (project_root : PosixPath.t) (key display_name session_status : string)
    (previous_issues : option Z) (s : session)
    (active_sessions : gmap string session)
    : http_result * gmap string session :=
  match env_new_nav env project_root with
  | inl e => (Uncaught e, active_sessions)
  | inr nav_tools =>
      let c1 := GeminiClient.setup_navigation_tools (s_client s) nav_tools in
      let base_context := env_format_initial_context env request in
      let context :=
        if String.eqb session_status "continued"
        then env_build_continuation_context env (with_client s c1)
               base_context (s_iteration s)
        else base_context in
      match GeminiClient.review_code (env_tools env) (env_agent env) c1
              context (max_iterations request) with
      | (GeminiClient.Blocked, c2) =>
          (Pending, <[key := with_client s c2]> active_sessions)
      | (GeminiClient.Raised e, c2) =>
          (HTTPException 500 ("Review failed: " ++ exn_str e),
           <[key := with_client s c2]> active_sessions)
      | (GeminiClient.Returned res, c2) =>
          match GeminiClient.review_content res with
          | None =>
              (HTTPException 500
                 "Review failed: 'NoneType' object has no attribute 'count'",
               <[key := with_client s c2]> active_sessions)
          | Some review_content =>
              let issues_count := count_issues_in_review review_content in
              let s2 := with_issues (with_client s c2) issues_count in
              (OK {| session_info :=
                       {| name := display_name;
                          status := session_status;
                          iteration := s_iteration s2;
                          created_at := s_created_at s2;
                          last_reviewed := s_last_reviewed s2;
                          chat_messages_count :=
                            List.length (s_chat_history s2);
                          previous_issues_count := previous_issues |};
                     review_result := res |},
               <[key := s2]> active_sessions)
          end
      end
  end.

(** [handle_review]: the answer and the sessions afterwards. *)
Definition handle_review (env : Env) (request : ReviewRequest)
    (active_sessions : gmap string session)
    : http_result * gmap string session :=
  match validate_project_root env (project_root request) with
  | inl refused => (refused, active_sessions)
  | inr project_root =>
      let key := session_key project_root (session_name request) in
      let display_name := session_name request in
      match active_sessions !! key with
      | None =>
          match create_new_session env key display_name request project_root
                  active_sessions with
          | inl e => (Uncaught e, active_sessions)
          | inr (s, sessions1) =>
              review_in_session env request project_root key display_name
                "new" None s sessions1
          end
      | Some s0 =>
          let s := continue_session env s0 in
          review_in_session env request project_root key display_name
            "continued" (s_last_issues_count s) s
            (<[key := s]> active_sessions)
      end
  end.

(** A sequence of requests, each with the environment it meets. *)
Fixpoint handle_all (reqs : list (Env * ReviewRequest))
    (active_sessions : gmap string session) : gmap string session :=
  match reqs with
  | [] => active_sessions
  | (env, request) :: rest =>
      handle_all rest (snd (handle_review env request active_sessions))
  end.

(** *** Looking at sessions and clearing them *)

(** What [get_session] returns for a session. *)
Record session_details : Type := mkDetails
  { d_name : string;
    d_created_at : Q;
    d_last_reviewed : Q;
    d_iteration : Z;
    d_messages : nat;
    d_model : string }.

(** The answer of an endpoint that looks a session up: its value, or the
    404 of [HTTPException(status_code=404, detail=..)]. *)
Inductive found (A : Type) : Type :=
| Found (a : A)
| NotFound404 (detail : string).
Arguments Found {A} a.
Arguments NotFound404 {A} detail.

(** [get_session]; [unquote] is [urllib.parse.unquote]. *)
Definition get_session (unquote : string -> string) (session_name0 : string)
    (active_sessions : gmap string session) : found session_details :=
  let decoded_name := unquote session_name0 in
  match active_sessions !! decoded_name with
  | None => NotFound404 ("Session '" ++ decoded_name ++ "' not found")
  | Some s =>
      Found {| d_name := decoded_name;
               d_created_at := s_created_at s;
               d_last_reviewed := s_last_reviewed s;
               d_iteration := s_iteration s;
               d_messages := List.length (s_chat_history s);
               d_model := s_model_name s |}
  end.

(** [clear_session]: the message and the sessions afterwards. *)
Definition clear_session (unquote : string -> string) (session_name0 : string)
    (active_sessions : gmap string session)
    : found string * gmap string session :=
  let decoded_name := unquote session_name0 in
  match active_sessions !! decoded_name with
  | Some _ =>
      (Found ("Session '" ++ decoded_name ++ "' cleared"),
       delete decoded_name active_sessions)
  | None =>
      (NotFound404 ("Session '" ++ decoded_name ++ "' not found"),
       active_sessions)
  end.

(** *** The continuation preamble *)

(** [' minute' + ('s' if n != 1 else '') + ' ago'] after the number. *)
Definition ago (n : Z) (unit : string) : string :=
  Py.str_of_int n ++ " " ++ unit ++ (if Z.eqb n 1 then EmptyString else "s")
    ++ " ago".

(** [format_time_ago]; [dt] and [now] are clock readings in seconds, [dt]
    is [None] for a missing date. *)
Definition format_time_ago (dt : option Q) (now : Q) : string :=
  match dt with
  | None => "unknown"
  | Some t =>
      let total_seconds := (now - t)%Q in
      if negb (Qle_bool 60 total_seconds) then "just now"
      else if negb (Qle_bool 3600 total_seconds)
      then ago (Py.int_of_Q (total_seconds / 60)) "minute"
      else if negb (Qle_bool 86400 total_seconds)
      then ago (Py.int_of_Q (total_seconds / 3600)) "hour"
      else ago (Py.int_of_Q (total_seconds / 86400)) "day"
  end.

(** [build_continuation_context], at the time [now]. *)
Definition build_continuation_context (now : Q) (s : session)
    (original_context : string) (iteration0 : Z) : string :=
  let parts :=
    [ "ðŸ”„ Continuing review session (iteration "
        ++ Py.str_of_int iteration0 ++ ")";
      "ðŸ“… Last reviewed: "
        ++ format_time_ago (Some (s_last_reviewed s)) now;
      EmptyString ] in
  let parts :=
    match s_last_issues_count s with
    | Some n =>
        if Z.eqb n 0 then parts
        else
          List.app parts
            [ "In our last review, we found " ++ Py.str_of_int n
                ++ " issues.";
              "Let me check what has changed since then.";
              EmptyString ]
    | None => parts
    end in
  String.concat "
" (List.app parts [original_context]).

(** What [handle_review] keeps true of every stored session: it is under
    the key made of its root and its name, and its iteration is at least
    1. *)
Definition session_ok (key : string) (s : session) : Prop :=
  key = s_project_root s ++ ":" ++ s_display_name s
  /\ (1 <= s_iteration s)%Z.

Definition sessions_ok (m : gmap string session) : Prop :=
  forall key s, m !! key = Some s -> session_ok key s.

End Service.

Arguments Found {A} a.
Arguments NotFound404 {A} detail.
Arguments ReviewResponse : clear implicits.
Arguments session : clear implicits.
Arguments Env : clear implicits.
Arguments http_result : clear implicits.

End ReviewerService.

(** ** Concrete inputs *)

Module Examples.

Import FileSystem.



(** A repository at [/tmp/repo], a directory next to it whose name only
    extends the repository's, and two links inside the repository. *)
Definition sample_fs : FileSystem.t :=
  {| nodes := list_to_map
       [ ("/tmp", Dir);
         ("/tmp/repo", Dir);
         ("/tmp/repo/main.py", File (Text "import os"));
         ("/tmp/repo/notes.py", File (Text "Error: see the log
import os"));
         ("/tmp/repo/out", Symlink "/etc");
         ("/tmp/repo/loop", Symlink "loop");
         ("/tmp/repo-evil", Dir);
         ("/tmp/repo-evil/secret.txt", File (Text "SECRET"));
         ("/tmp/a", Dir);
         ("/tmp/a:b", Dir);
         ("/tmp/b", Dir);
         ("/tmp/b/file.txt", File (Text "text"));
         ("/home", Dir);
         ("/home/dev", Dir);
         ("/etc", Dir);
         ("/etc/passwd", File (Text "root:x:0:0")) ];
     cwd := ["tmp"; "repo"] |}.

Definition sample_nav : NavigationTools.t :=
  NavigationTools.init (PosixPath.parse "/tmp/repo")
    (NavigationTools.mkIndex ∅) false.

(** An extraction of imports that finds one import in every file. *)
Definition finds_os (filepath content : string) : list string := ["os"].

(** Tools over [sample_fs]: [read_file] and [get_imports] are those of
    [NavigationTools], the searches find nothing.  The argument map is a
    list of keyword and value; a tool called with other keywords than its
    own raises. *)
Inductive value : Type :=
| VStr (s : string)
| VList (l : list string).

Definition value_str (v : value) : string :=
  match v with
  | VStr s => s
  | VList l => "[" ++ String.concat ", " l ++ "]"
  end.

Definition bad_keywords : Py.exn :=
  Py.OtherError "got an unexpected keyword argument".

Definition demo_tools
    : GeminiClient.Tools (list (string * string)) value NavigationTools.t
        (RateLimiter.t * Clock) :=
  {| GeminiClient.tool_read_file := fun args nav =>
       match args with
       | [("filepath", p)] =>
           let '(s, nav1) := NavigationTools.read_file sample_fs nav p in
           (inr (VStr s), nav1)
       | _ => (inl bad_keywords, nav)
       end;
     GeminiClient.tool_search_symbol := fun args nav =>
       match args with
       | [("symbol_name", _)] => (inr (VList []), nav)
       | _ => (inl bad_keywords, nav)
       end;
     GeminiClient.tool_find_usages := fun args nav =>
       match args with
       | [("symbol_name", _)] => (inr (VList []), nav)
       | _ => (inl bad_keywords, nav)
       end;
     GeminiClient.tool_get_imports := fun args nav =>
       match args with
       | [("filepath", p)] =>
           let '(l, nav1) :=
             NavigationTools.get_imports finds_os sample_fs nav p in
           (inr (VList l), nav1)
       | _ => (inl bad_keywords, nav)
       end;
     GeminiClient.tool_get_file_tree := fun args nav =>
       match args with
       | [] => (inr (VStr "repo"), nav)
       | _ => (inl bad_keywords, nav)
       end;
     GeminiClient.tool_search_text := fun args nav =>
       match args with
       | [("pattern", _)] => (inr (VList []), nav)
       | _ => (inl bad_keywords, nav)
       end;
     GeminiClient.py_str := value_str;
     GeminiClient.acquire := GeminiClient.bucket_acquire 2 |}.

(** A client for gemini-2.5-pro with a full bucket of 150 tokens. *)
Definition demo_client
    : GeminiClient.client value NavigationTools.t (RateLimiter.t * Clock) :=
  {| GeminiClient.model_name := "gemini-2.5-pro";
     GeminiClient.enable_rate_limiting := true;
     GeminiClient.navigation_tools := Some sample_nav;
     GeminiClient.rate_limiter :=
       (RateLimiter.init 150 None 0%Q, mkClock 0%Q []);
     GeminiClient.chat := None |}.

(** A response with the given tool calls and text, reporting 10 input and
    5 output tokens. *)
Definition reply
    (calls : list (GeminiClient.function_call (list (string * string))))
    (t : string) : GeminiClient.response (list (string * string)) :=
  {| GeminiClient.function_calls := Py.Has (Some calls);
     GeminiClient.text := Py.Has (Some t);
     GeminiClient.candidates := Py.Missing;
     GeminiClient.usage :=
       Py.Has (Some (GeminiClient.mkUsage (Py.Has (Some 10%Z))
                       (Py.Has (Some 5%Z)) (Py.Has (Some 15%Z)))) |}.

Definition read_main : GeminiClient.function_call (list (string * string)) :=
  GeminiClient.mkCall "read_file" [("filepath", "main.py")].

(** Three turns of tool calls, then the final answer. *)
Definition three_then_final (k : nat)
    : GeminiClient.response (list (string * string)) :=
  if Nat.ltb k 3 then reply [read_main] EmptyString else reply [] "LGTM".

(** An agent that asks for a tool at every turn. *)
Definition never_stops (k : nat)
    : GeminiClient.response (list (string * string)) :=
  reply [read_main] "so far".

(** An agent that asks for a tool once and then answers. *)
Definition one_then_final (k : nat)
    : GeminiClient.response (list (string * string)) :=
  if Nat.ltb k 1 then reply [read_main] "so far" else reply [] "so far".


(** The service on [sample_fs]: the home directory is [/home/dev], the
    temporary directory [/tmp]; clients are made as [GeminiClient.__init__]
    makes them, and the agent asks for one tool and then answers. *)
Definition fresh_client (model : string) (debug0 : bool)
    : GeminiClient.client value NavigationTools.t (RateLimiter.t * Clock) :=
  {| GeminiClient.model_name := model;
     GeminiClient.enable_rate_limiting := true;
     GeminiClient.navigation_tools := None;
     GeminiClient.rate_limiter :=
       (RateLimiter.init 150 None 0%Q, mkClock 0%Q []);
     GeminiClient.chat := None |}.

Definition demo_env
    : ReviewerService.Env (list (string * string)) value NavigationTools.t
        (RateLimiter.t * Clock) :=
  {| ReviewerService.env_fs := sample_fs;
     ReviewerService.env_home := "/home/dev";
     ReviewerService.env_tempdir := "/tmp";
     ReviewerService.env_now := 0%Q;
     ReviewerService.env_new_client := fun model debug0 =>
       inr (fresh_client model debug0);
     ReviewerService.env_new_nav := fun root =>
       inr (NavigationTools.init root (NavigationTools.mkIndex ∅) false);
     ReviewerService.env_tools := demo_tools;
     ReviewerService.env_agent := GeminiClient.scripted one_then_final;
     ReviewerService.env_format_initial_context := fun request =>
       ReviewerService.initial_context request;
     ReviewerService.env_build_continuation_context := fun _ base _ =>
       "Continuing review session
" ++ base |}.

Definition demo_request (root session_name0 : string)
    : ReviewerService.ReviewRequest :=
  {| ReviewerService.session_name := session_name0;
     ReviewerService.project_root := root;
     ReviewerService.initial_context := "Review";
     ReviewerService.codebase_summary := "Test";
     ReviewerService.changed_files := [];
     ReviewerService.diffs := [];
     ReviewerService.show_all := false;
     ReviewerService.max_iterations := 20;
     ReviewerService.show_progress := false;
     ReviewerService.debug := false;
     ReviewerService.model_name := "gemini-2.5-pro";
     ReviewerService.ai_generated := false;
     ReviewerService.prototype := false;
     ReviewerService.design_doc := None;
     ReviewerService.story := None |}.

End Examples.

(** ** More concrete inputs *)

Module MoreExamples.

(** A machine without ripgrep, on which grep does not finish in time. *)
Definition no_rg_slow_grep (cmd : list string) : NavigationTools.proc_result :=
  match cmd with
  | "rg" :: _ => NavigationTools.FileNotFoundError
  | _ => NavigationTools.TimeoutExpired
  end.

(** A machine on which ripgrep does not finish in time. *)
Definition slow_rg (cmd : list string) : NavigationTools.proc_result :=
  match cmd with
  | "rg" :: _ => NavigationTools.TimeoutExpired
  | _ => NavigationTools.Completed 0 []
  end.

(** A small project tree. *)
Definition sample_tree : CodebaseIndexer.FileNode :=
  CodebaseIndexer.mkNode "repo" EmptyString true
    [ CodebaseIndexer.mkNode "src" "src" true
        [ CodebaseIndexer.mkNode "main.py" "src/main.py" false [] (Some 9%Z);
          CodebaseIndexer.mkNode "util.py" "src/util.py" false [] (Some 0%Z) ]
        None;
      CodebaseIndexer.mkNode "README.md" "README.md" false [] (Some 120%Z) ]
    None.

(** A client made with [enable_rate_limiting=False], tools set up. *)
Definition unlimited_client
    : GeminiClient.client Examples.value NavigationTools.t
        (RateLimiter.t * Clock) :=
  {| GeminiClient.model_name := "gemini-2.5-pro";
     GeminiClient.enable_rate_limiting := false;
     GeminiClient.navigation_tools := Some Examples.sample_nav;
     GeminiClient.rate_limiter :=
       (RateLimiter.init 150 None 0%Q, mkClock 0%Q []);
     GeminiClient.chat := None |}.

(** The service at the time [now], with the agent [a] as the model and
    with the continuation preamble of the service itself, written
    [delay] seconds after the request came in. *)
Definition env_at (now delay : Q)
    (a : GeminiClient.agent (list (string * string)) Examples.value)
    : ReviewerService.Env (list (string * string)) Examples.value
        NavigationTools.t (RateLimiter.t * Clock) :=
  {| ReviewerService.env_fs := Examples.sample_fs;
     ReviewerService.env_home := "/home/dev";
     ReviewerService.env_tempdir := "/tmp";
     ReviewerService.env_now := now;
     ReviewerService.env_new_client := fun model debug0 =>
       inr (Examples.fresh_client model debug0);
     ReviewerService.env_new_nav := fun root =>
       inr (NavigationTools.init root (NavigationTools.mkIndex ∅) false);
     ReviewerService.env_tools := Examples.demo_tools;
     ReviewerService.env_agent := a;
     ReviewerService.env_format_initial_context := fun request =>
       ReviewerService.initial_context request;
     ReviewerService.env_build_continuation_context :=
       ReviewerService.build_continuation_context (now + delay) |}.

(** The service on a day the model API is down: every call of the model
    raises. *)
Definition api_down
    : ReviewerService.Env (list (string * string)) Examples.value
        NavigationTools.t (RateLimiter.t * Clock) :=
  env_at 100 1 (fun _ => inl (Py.OtherError "503 UNAVAILABLE")).

(** A session last reviewed at time 40 that holds the count [n]. *)
Definition session_with (n : option Z)
    : ReviewerService.session Examples.value NavigationTools.t
        (RateLimiter.t * Clock) :=
  {| ReviewerService.s_client := Examples.fresh_client "gemini-2.5-pro" false;
     ReviewerService.s_display_name := "x";
     ReviewerService.s_project_root := "/tmp/repo";
     ReviewerService.s_created_at := 0%Q;
     ReviewerService.s_last_reviewed := 40%Q;
     ReviewerService.s_iteration := 2%Z;
     ReviewerService.s_model_name := "gemini-2.5-pro";
     ReviewerService.s_chat_history := [];
     ReviewerService.s_last_issues_count := n |}.

(** The sessions of a service after one answered review of [/tmp/repo]
    under the name [x]. *)
Definition after_first
    : gmap string
        (ReviewerService.session Examples.value NavigationTools.t
           (RateLimiter.t * Clock)) :=
  snd (ReviewerService.handle_review Examples.demo_env
         (Examples.demo_request "/tmp/repo" "x") ∅).

End MoreExamples.

(** * Properties *)

(** ** The token bucket *)

Section BucketFacts.

Import RateLimiter.

(** A bucket of two tokens that refills at two tokens a second: of three
    calls in a row the third finds the bucket empty, and half a second
    later there is a token again. *)
Example try_acquire_burst :
  let l0 := init 120 (Some 2%Z) 0%Q in
  let '(ok1, l1, c1) := try_acquire l0 (mkClock 0%Q [0; 0; 0; 1#2]%Q) in
  let '(ok2, l2, c2) := try_acquire l1 c1 in
  let '(ok3, l3, c3) := try_acquire l2 c2 in
  let '(ok4, l4, c4) := try_acquire l3 c3 in
  [ok1; ok2; ok3; ok4] = [true; true; false; true].
Proof. reflexivity. Qed.

(** A blocking [acquire] on an empty bucket waits for the missing part of
    a token and then takes it; with too short a timeout it gives up. *)
Example acquire_waits :
  let l0 := set_tokens (init 120 (Some 2%Z) 0%Q) (1#2)%Q 0%Q in
  fst (fst (acquire 2 30 l0 (mkClock 0%Q []))) = Acquired
  /\ fst (fst (acquire 2 (1#10) l0 (mkClock 0%Q []))) = TimedOut.
Proof. split; reflexivity. Qed.

Lemma monotonic_spec c now c1 :
  clock_ok c -> monotonic c = (now, c1) ->
  (clock_now c <= now)%Q /\ clock_now c1 = now /\ clock_ok c1.
Proof.
  unfold monotonic, clock_ok. intros Hc.
  destruct (ticks c) as [|d ds] eqn:E; intros [= <- <-].
  - rewrite E. split; [lra|auto].
  - inversion Hc; subst. simpl. split; [lra|auto].
Qed.

Lemma inject_Z_nonneg z : (0 <= z)%Z -> (0 <= inject_Z z)%Q.
Proof. intros H. change 0%Q with (inject_Z 0). now rewrite <- Zle_Qle. Qed.

Lemma refill_amount_nonneg l now :
  (0 <= rpm l)%Z -> (last_update l <= now)%Q ->
  (0 <= (now - last_update l) * inject_Z (rpm l) / 60)%Q.
Proof.
  intros Hr Hn. apply inject_Z_nonneg in Hr.
  unfold Qdiv. apply Qmult_le_0_compat; [|apply Qinv_le_0_compat; lra].
  apply Qmult_le_0_compat; [lra|exact Hr].
Qed.

Lemma refilled_in_range l now :
  inv l -> (0 <= rpm l)%Z -> (last_update l <= now)%Q ->
  in_range l (refilled l now).
Proof.
  intros [H0 Hb] Hr Hn. pose proof (refill_amount_nonneg l now Hr Hn) as Ha.
  unfold in_range, refilled. split.
  - apply Q.min_glb; lra.
  - apply Q.le_min_l.
Qed.

Lemma refill_and_take_true l now l1 :
  refill_and_take l now = (true, l1) ->
  (1 <= refilled l now)%Q /\ l1 = set_tokens l (refilled l now - 1)%Q now.
Proof.
  unfold refill_and_take.
  destruct (Qle_bool 1 (refilled l now)) eqn:E; intros [= <-].
  split; [now apply Qle_bool_iff | reflexivity].
Qed.

Lemma refill_and_take_false l now l1 :
  refill_and_take l now = (false, l1) ->
  (refilled l now < 1)%Q /\ l1 = set_tokens l (refilled l now) now.
Proof.
  unfold refill_and_take.
  destruct (Qle_bool 1 (refilled l now)) eqn:E; intros [= <-].
  split; [|reflexivity].
  apply Qnot_le_lt. intros H. apply Qle_bool_iff in H. congruence.
Qed.

Lemma refill_and_take_good l now ok l1 c1 :
  inv l -> (0 <= rpm l)%Z -> (last_update l <= now)%Q ->
  clock_now c1 = now -> clock_ok c1 ->
  refill_and_take l now = (ok, l1) ->
  good l1 c1 /\ burst l1 = burst l /\ rpm l1 = rpm l /\ last_update l1 = now.
Proof.
  intros Hi Hr Hn Hc1 Hok E.
  destruct (refilled_in_range l now Hi Hr Hn) as [R0 R1].
  destruct ok.
  - apply refill_and_take_true in E as [H1 ->].
    unfold good, inv, in_range; simpl. rewrite Hc1.
    repeat split; auto; lra.
  - apply refill_and_take_false in E as [H1 ->].
    unfold good, inv, in_range; simpl. rewrite Hc1.
    repeat split; auto; lra.
Qed.









Lemma refilled_after_wait l now' :
  inv l -> (tokens l < 1)%Q -> (0 < rpm l)%Z -> (1 <= burst l)%Z ->
  (last_update l + (1 - tokens l) * 60 / inject_Z (rpm l) <= now')%Q ->
  (1 <= refilled l now')%Q.
Proof.
  intros Hi Ht Hr Hb Hn. unfold refilled.
  assert (0 < inject_Z (rpm l))%Q as Hp.
  { change 0%Q with (inject_Z 0). rewrite <- Zlt_Qlt. lia. }
  assert (1 <= inject_Z (burst l))%Q as Hb'.
  { change 1%Q with (inject_Z 1). rewrite <- Zle_Qle. lia. }
  apply Q.min_glb; [exact Hb'|].
  set (R := inject_Z (rpm l)) in *.
  set (w := ((1 - tokens l) * 60 / R)%Q) in *.
  assert (w * R == (1 - tokens l) * 60)%Q as Hw.
  { unfold w. field. intros H0. rewrite H0 in Hp. lra. }
  assert (w * R <= (now' - last_update l) * R)%Q as Hm.
  { apply Qmult_le_compat_r; lra. }
  assert (forall x, x / 60 == x * (1 # 60))%Q as Hd.
  { intros x. unfold Qdiv. reflexivity. }
  rewrite Hd. lra.
Qed.

Lemma acquire_loop_returns k timeout start l c :
  good l c -> ((1 <= burst l)%Z \/ rpm l = 0%Z) ->
  fst (fst (acquire_loop (S (S k)) timeout start l c)) <> StillWaiting.
Proof.
  intros (Hi & Hr & Hl & Hc) Hb.
  cbn [acquire_loop].
  destruct (monotonic c) as [now c1] eqn:M.
  destruct (monotonic_spec c now c1 Hc M) as (Hn & Hc1 & Hok1).
  destruct (refill_and_take l now) as [ok l1] eqn:RT.
  assert (last_update l <= now)%Q as Hln by lra.
  destruct (refill_and_take_good l now ok l1 c1 Hi Hr Hln Hc1 Hok1 RT)
    as (G1 & Hb1 & Hr1 & Hu1).
  destruct ok; [discriminate|].
  destruct (Z.eqb (rpm l1) 0) eqn:Z0; [discriminate|].
  apply Z.eqb_neq in Z0.
  destruct (monotonic c1) as [t2 c2] eqn:M2.
  destruct (monotonic_spec c1 t2 c2 Hok1 M2) as (Hn2 & Hc2 & Hok2).
  destruct (negb _); [discriminate|].
  apply refill_and_take_false in RT as [Hlt Heq].
  assert (tokens l1 < 1)%Q as Ht1 by (rewrite Heq; simpl; exact Hlt).
  destruct (monotonic (sleep _ c2)) as [now' c3] eqn:M3.
  assert (clock_ok (sleep ((1 - tokens l1) * 60 / inject_Z (rpm l1)) c2))
    as Hoks by exact Hok2.
  destruct (monotonic_spec _ now' c3 Hoks M3) as (Hn3 & Hc3 & Hok3).
  simpl in Hn3.
  assert (1 <= refilled l1 now')%Q as H1.
  { apply refilled_after_wait; try apply G1; auto.
    - lia.
    - destruct Hb as [Hb|Hb]; [lia|congruence].
    - rewrite Hu1. rewrite Hc2 in Hn3. rewrite Hc1 in Hn2. lra. }
  unfold refill_and_take.
  apply Qle_bool_iff in H1. rewrite H1. discriminate.
Qed.

(** With a sensible configuration, [acquire] returns within two rounds. *)
Lemma acquire_returns k timeout l c :
  good l c -> ((1 <= burst l)%Z \/ rpm l = 0%Z) ->
  fst (fst (acquire (S (S k)) timeout l c)) <> StillWaiting.
Proof.
  intros (Hi & Hr & Hl & Hc) Hb. unfold acquire.
  destruct (monotonic c) as [start c0] eqn:M.
  destruct (monotonic_spec c start c0 Hc M) as (Hn & Hc0 & Hok0).
  apply acquire_loop_returns; [|exact Hb].
  repeat split; auto; try apply Hi. rewrite Hc0. lra.
Qed.



End BucketFacts.

(** ** The registry of limiters *)

Section RegistryFacts.

Import RateLimitManager.

Example longest_prefix_first :
  ModelRateLimits.sorted_prefixes ModelRateLimits.TIER_1_LIMITS
  = [ ("gemini-2.0-flash-lite", 4000%Z); ("gemini-2.5-flash", 1000%Z);
      ("gemini-2.0-flash", 2000%Z); ("gemini-2.5-pro", 150%Z) ]
  /\ ModelRateLimits.get_rpm_and_prefix "gemini-2.0-flash-lite-001" "tier1"
     = inr (4000%Z, "gemini-2.0-flash-lite")
  /\ ModelRateLimits.get_rpm_and_prefix "Gemini-2.5-Flash" "tier1"
     = inr (1000%Z, "gemini-2.5-flash")
  /\ ModelRateLimits.get_rpm_and_prefix "gpt-4" "tier1"
     = inr (100%Z, "default_unknown_model")
  /\ ModelRateLimits.get_rpm_and_prefix "gemini-2.5-pro" "tier2"
     = inl (Py.ValueError "Unsupported tier: tier2").
Proof. repeat split; reflexivity. Qed.

Lemma get_limiter_hit model tier now m rpm0 canon ref :
  ModelRateLimits.get_rpm_and_prefix model tier = inr (rpm0, canon) ->
  limiters m !! (tier ++ ":" ++ canon) = Some ref ->
  get_limiter model tier now m = (inr ref, m).
Proof. intros E L. unfold get_limiter. rewrite E, L. reflexivity. Qed.

Lemma get_limiter_stores model tier now m rpm0 canon :
  ModelRateLimits.get_rpm_and_prefix model tier = inr (rpm0, canon) ->
  exists ref,
    fst (get_limiter model tier now m) = inr ref
    /\ limiters (snd (get_limiter model tier now m)) !! (tier ++ ":" ++ canon)
       = Some ref.
Proof.
  intros E. unfold get_limiter. rewrite E.
  destruct (limiters m !! (tier ++ ":" ++ canon)) as [ref|] eqn:L.
  - exists ref. simpl. auto.
  - exists (length (objects m)). cbn [fst snd limiters]. split; [reflexivity|].
    apply lookup_insert_eq.
Qed.


Lemma get_limiter_wf model tier now m :
  wf m -> wf (snd (get_limiter model tier now m)).
Proof.
  intros [W1 W2]. unfold get_limiter.
  destruct (ModelRateLimits.get_rpm_and_prefix model tier) as [e|[rpm0 canon]];
    [split; assumption|].
  destruct (limiters m !! (tier ++ ":" ++ canon)) as [r|] eqn:L;
    [split; assumption|].
  split; cbn [snd limiters objects].
  - intros k ref. rewrite lookup_insert. rewrite length_app. simpl.
    case_decide.
    + intros [= <-]. lia.
    + intros H'. apply W1 in H'. lia.
  - intros k1 k2 ref. rewrite !lookup_insert.
    repeat case_decide; subst.
    + reflexivity.
    + intros [= <-] H'. apply W1 in H'. lia.
    + intros H' [= <-]. apply W1 in H'. lia.
    + apply W2.
Qed.

Lemma init_wf : wf init.
Proof. split; simpl; intros *; rewrite lookup_empty; discriminate. Qed.

Lemma step_wf m m' : step m m' -> wf m -> wf m'.
Proof.
  intros [model tier now m0|ref l m0 Hlt] W.
  - apply get_limiter_wf, W.
  - destruct W as [W1 W2]. split; simpl.
    + intros k r H. rewrite length_insert. eauto.
    + exact W2.
Qed.


Lemma steps_wf m m' : rtc step m m' -> wf m -> wf m'.
Proof. induction 1; eauto using step_wf. Qed.






End RegistryFacts.

(** ** The tool-calling loop *)

Section LoopClaims.

Import Py GeminiClient.

(** Carries what is known about admission over to a client that differs
    in other fields only. *)
Ltac keep_admitted A :=
  destruct A as [A|A]; [left|right]; first [exact A | congruence].

Section LoopFacts.

Context {Args Value N G : Type}.
Variable T : Tools Args Value N G.

(** Running a tool changes the navigation tools of the client and nothing
    else. *)
Lemma execute_function_frame (self : client Value N G) name args :
  let self1 := snd (_execute_function T self name args) in
  model_name self1 = model_name self
  /\ enable_rate_limiting self1 = enable_rate_limiting self
  /\ rate_limiter self1 = rate_limiter self
  /\ chat self1 = chat self.
Proof.
  unfold _execute_function.
  destruct (navigation_tools self) as [nav|]; [|simpl; auto].
  destruct (map_get name (function_map T)) as [func|]; [|simpl; auto].
  destruct (func args nav) as [r nav1]. simpl. auto.
Qed.

Lemma execute_calls_frame calls : forall h (self : client Value N G),
  let self1 := snd (execute_calls T calls h self) in
  model_name self1 = model_name self
  /\ enable_rate_limiting self1 = enable_rate_limiting self
  /\ rate_limiter self1 = rate_limiter self
  /\ chat self1 = chat self.
Proof.
  induction calls as [|fc rest IH]; intros h self; [simpl; auto|].
  cbn [execute_calls].
  pose proof (execute_function_frame self (fc_name fc) (fc_args fc)) as F.
  destruct (_execute_function T self (fc_name fc) (fc_args fc)) as [r self1].
  cbn [snd] in F. destruct F as (F1 & F2 & F3 & F4).
  destruct r as [e|v].
  - specialize (IH h self1).
    destruct (execute_calls T rest h self1) as [[frs h'] self2].
    cbn [snd] in *. destruct IH as (I1 & I2 & I3 & I4).
    repeat split; congruence.
  - specialize
      (IH (h ++ [mkEntry (fc_name fc) (fc_args fc) (result_preview T v)])%list
          self1).
    destruct (execute_calls T rest _ self1) as [[frs h'] self2].
    cbn [snd] in *. destruct IH as (I1 & I2 & I3 & I4).
    repeat split; congruence.
Qed.

Lemma admission_admitted n (self : client Value N G) :
  admitted T (S n) self ->
  exists self1,
    admission T self = (None, self1)
    /\ admitted T n self1
    /\ chat self1 = chat self
    /\ navigation_tools self1 = navigation_tools self
    /\ model_name self1 = model_name self.
Proof.
  intros A. unfold admission.
  destruct (enable_rate_limiting self) eqn:E.
  - destruct A as [A|[A1 A2]]; [congruence|].
    destruct (acquire T 30 (rate_limiter self)) as [a g]. simpl in A1, A2.
    subst a. eexists. split; [reflexivity|].
    split; [right; exact A2|]. simpl. auto.
  - exists self. split; [reflexivity|]. split; [left; exact E|]. auto.
Qed.

Lemma add_usage_reported (r : response Args) tk :
  input_tokens (add_usage r tk) = (input_tokens tk + fst (fst (reported r)))%Z
  /\ output_tokens (add_usage r tk)
     = (output_tokens tk + snd (fst (reported r)))%Z
  /\ total_tokens (add_usage r tk) = (total_tokens tk + snd (reported r))%Z.
Proof.
  unfold add_usage, reported.
  destruct (usage r) as [|[u|]]; simpl; repeat split; lia.
Qed.

Variable script : nat -> response Args.

Lemma stop_turn_ge : forall remaining i, i <= stop_turn script remaining i.
Proof.
  induction remaining as [|k IH]; intros i; simpl; [lia|].
  destruct (requested_calls (script i)); [lia|].
  specialize (IH (S i)). lia.
Qed.

Lemma stop_turn_le : forall remaining i,
  stop_turn script remaining i <= i + remaining.
Proof.
  induction remaining as [|k IH]; intros i; simpl; [lia|].
  destruct (requested_calls (script i)); [lia|].
  specialize (IH (S i)). lia.
Qed.

(** Below the cap the loop stops only at a response without tool calls. *)
Lemma stop_turn_clean : forall remaining i,
  stop_turn script remaining i < i + remaining ->
  requested_calls (script (stop_turn script remaining i)) = [].
Proof.
  induction remaining as [|k IH]; intros i; simpl; [lia|].
  destruct (requested_calls (script i)) eqn:E; [intros _; exact E|].
  intros H. apply IH. lia.
Qed.

(** An agent that asks for tools at every turn up to the cap is stopped
    by the cap. *)
Lemma stop_turn_exhausted : forall remaining i,
  (forall k, i <= k < i + remaining -> requested_calls (script k) <> []) ->
  stop_turn script remaining i = i + remaining.
Proof.
  induction remaining as [|k IH]; intros i H; simpl; [lia|].
  destruct (requested_calls (script i)) eqn:E.
  - exfalso. apply (H i); [lia|exact E].
  - rewrite IH; [lia|]. intros j Hj. apply H. lia.
Qed.

(** The loop stops at the first turn without tool calls. *)
Lemma stop_turn_first : forall remaining i n,
  i <= n <= i + remaining ->
  (forall k, i <= k < n -> requested_calls (script k) <> []) ->
  requested_calls (script n) = [] ->
  stop_turn script remaining i = n.
Proof.
  induction remaining as [|k IH]; intros i n Hn Hc He; simpl; [lia|].
  destruct (requested_calls (script i)) eqn:E.
  - destruct (Nat.eq_dec i n) as [->|Hne]; [reflexivity|].
    exfalso. apply (Hc i); [lia|exact E].
  - destruct (Nat.eq_dec i n) as [->|Hne]; [congruence|].
    apply IH; [lia| |exact He]. intros j Hj. apply Hc. lia.
Qed.

Lemma scripted_loop : forall remaining i h tk (self : client Value N G) c,
  chat self = Some c -> List.length c = S i ->
  admitted T (stop_turn script remaining i - i) self ->
  input_tokens tk = sum_to (fun k => fst (fst (reported (script k)))) i ->
  output_tokens tk = sum_to (fun k => snd (fst (reported (script k)))) i ->
  total_tokens tk = sum_to (fun k => snd (reported (script k))) i ->
  exists res self',
    tool_loop T (scripted script) remaining (Z.of_nat i) (script i) h tk self
      = (Returned res, self')
    /\ iterations res = Z.of_nat (stop_turn script remaining i)
    /\ review_content res = final_review (script (stop_turn script remaining i))
    /\ input_tokens (tokens_used res)
       = sum_to (fun k => fst (fst (reported (script k))))
           (stop_turn script remaining i)
    /\ output_tokens (tokens_used res)
       = sum_to (fun k => snd (fst (reported (script k))))
           (stop_turn script remaining i)
    /\ total_tokens (tokens_used res)
       = sum_to (fun k => snd (reported (script k)))
           (stop_turn script remaining i).
Proof.
  induction remaining as [|k IH]; intros i h tk self c Hc Hl A Ti To Tt.
  - simpl. eexists _, _. split; [reflexivity|]. simpl. auto.
  - cbn [tool_loop stop_turn].
    destruct (requested_calls (script i)) as [|fc l] eqn:RC.
    + eexists _, _. split; [reflexivity|]. simpl. auto.
    + pose proof (execute_calls_frame (fc :: l) h self) as F.
      destruct (execute_calls T (fc :: l) h self) as [[frs h1] self1].
      cbn [snd] in F. destruct F as (F1 & F2 & F3 & F4).
      pose proof (stop_turn_ge k (S i)) as Hge.
      cbn [stop_turn] in A. rewrite RC in A.
      replace (stop_turn script k (S i) - i)
        with (S (stop_turn script k (S i) - S i)) in A by lia.
      assert (admitted T (S (stop_turn script k (S i) - S i)) self1) as A1.
      { keep_admitted A. }
      destruct (admission_admitted _ self1 A1) as (self2 & E2 & A2 & C2 & _).
      rewrite E2.
      unfold send_message. rewrite C2, F4, Hc.
      unfold scripted at 1.
      replace (List.length (c ++ [FunctionResponses frs]) - 1) with (S i)
        by (rewrite length_app; simpl; lia).
      replace (Z.of_nat i + 1)%Z with (Z.of_nat (S i)) by lia.
      destruct (add_usage_reported (script (S i)) tk) as (U1 & U2 & U3).
      eapply IH.
      * reflexivity.
      * rewrite length_app. simpl. lia.
      * keep_admitted A2.
      * rewrite U1, Ti. reflexivity.
      * rewrite U2, To. reflexivity.
      * rewrite U3, Tt. reflexivity.
Qed.

Lemma scripted_review (self : client Value N G) nav ctx max_iterations :
  navigation_tools self = Some nav ->
  admitted T (S (stop_turn script (Z.to_nat max_iterations) 0)) self ->
  let n := stop_turn script (Z.to_nat max_iterations) 0 in
  exists res self',
    review_code T (scripted script) self ctx max_iterations
      = (Returned res, self')
    /\ iterations res = Z.of_nat n
    /\ review_content res = final_review (script n)
    /\ input_tokens (tokens_used res)
       = sum_to (fun k => fst (fst (reported (script k)))) n
    /\ output_tokens (tokens_used res)
       = sum_to (fun k => snd (fst (reported (script k)))) n
    /\ total_tokens (tokens_used res)
       = sum_to (fun k => snd (reported (script k))) n.
Proof.
  intros Hn A n. unfold review_code. rewrite Hn.
  assert (admitted T (S n) (set_chat self [])) as A0.
  { keep_admitted A. }
  destruct (admission_admitted _ _ A0) as (self1 & E1 & A1 & C1 & _).
  rewrite E1. unfold send_message. rewrite C1. cbn [chat set_chat].
  unfold scripted at 1. cbn [List.length app Nat.sub].
  destruct (add_usage_reported (script 0) (mkTokens 0 0 0)) as (U1 & U2 & U3).
  apply (scripted_loop (Z.to_nat max_iterations) 0 []
           (add_usage (script 0) (mkTokens 0 0 0))
           (set_chat self1 [InitialContext ctx]) [InitialContext ctx]);
    try reflexivity.
  - fold n. rewrite Nat.sub_0_r.
    keep_admitted A1.
  - rewrite U1. reflexivity.
  - rewrite U2. reflexivity.
  - rewrite U3. reflexivity.
Qed.

End LoopFacts.

(** C4.  With navigation tools set up and a limiter that lets the calls
    through (or rate limiting off): against a scripted agent that asks for
    tools in its first three responses and then gives a final answer,
    [review_code] with [max_iterations = 10] returns with [iterations = 3]
    and the scripted final text as [review_content]; against a scripted
    agent that asks for tools in every response, [review_code] with
    [max_iterations = 2] returns with [iterations = 2]. *)
Theorem loop_termination :
  forall (Args Value N G : Type) (T : Tools Args Value N G)
         (self : client Value N G) (nav : N) (ctx : string)
         (script : nat -> response Args),
    navigation_tools self = Some nav ->
    (forall final_text,
        admitted T 4 self ->
        requested_calls (script 0) <> [] ->
        requested_calls (script 1) <> [] ->
        requested_calls (script 2) <> [] ->
        requested_calls (script 3) = [] ->
        text (script 3) = Has (Some final_text) ->
        exists res self',
          review_code T (scripted script) self ctx 10 = (Returned res, self')
          /\ iterations res = 3%Z
          /\ review_content res = Some final_text)
    /\ (admitted T 3 self ->
        (forall k, requested_calls (script k) <> []) ->
        exists res self',
          review_code T (scripted script) self ctx 2 = (Returned res, self')
          /\ iterations res = 2%Z).
Proof.
  intros Args Value N G T self nav ctx script Hnav. split.
  - intros final_text A C0 C1 C2 C3 Ht.
    assert (stop_turn script (Z.to_nat 10) 0 = 3) as Hs.
    { apply stop_turn_first; [simpl; lia| |exact C3].
      intros k Hk.
      destruct k as [|[|[|k]]]; [exact C0|exact C1|exact C2|lia]. }
    destruct (scripted_review T script self nav ctx 10 Hnav) as
      (res & self' & E & I & R & _).
    { rewrite Hs. exact A. }
    exists res, self'. rewrite Hs in I, R.
    split; [exact E|]. split; [exact I|].
    rewrite R. unfold final_review. rewrite Ht. reflexivity.
  - intros A C.
    assert (stop_turn script (Z.to_nat 2) 0 = 2) as Hs.
    { apply (stop_turn_exhausted script 2 0). intros k _. apply C. }
    destruct (scripted_review T script self nav ctx 2 Hnav) as
      (res & self' & E & I & _).
    { rewrite Hs. exact A. }
    exists res, self'. rewrite Hs in I. auto.
Qed.

Lemma loop_termination_witness :
  exists res self',
    review_code Examples.demo_tools (scripted Examples.three_then_final)
      Examples.demo_client "ctx" 10 = (Returned res, self')
    /\ iterations res = 3%Z
    /\ review_content res = Some "LGTM".
Proof.
  refine (proj1 (loop_termination _ _ _ _ Examples.demo_tools
                   Examples.demo_client Examples.sample_nav "ctx"
                   Examples.three_then_final eq_refl) "LGTM" _ _ _ _ _ _).
  - right. vm_compute. repeat split.
  - discriminate.
  - discriminate.
  - discriminate.
  - reflexivity.
  - reflexivity.
Defined.

(** C7.  Against any scripted agent, with navigation tools set up and a
    limiter that lets the calls through, [review_code] returns a result
    whose input and output token totals are the sums, over the turns [0]
    to [iterations], of the counts the responses of these turns report.
    A response without usage metadata, or whose metadata is [None],
    reports zero; a count that is missing, [None] or zero counts as zero;
    none of these stops the review. *)
Theorem token_accumulation :
  forall (Args Value N G : Type) (T : Tools Args Value N G)
         (self : client Value N G) (nav : N) (ctx : string)
         (max_iterations : Z) (script : nat -> response Args),
    navigation_tools self = Some nav ->
    admitted T (S (stop_turn script (Z.to_nat max_iterations) 0)) self ->
    (exists res self',
        review_code T (scripted script) self ctx max_iterations
          = (Returned res, self')
        /\ input_tokens (tokens_used res)
           = sum_to (fun i => fst (fst (reported (script i))))
               (Z.to_nat (iterations res))
        /\ output_tokens (tokens_used res)
           = sum_to (fun i => snd (fst (reported (script i))))
               (Z.to_nat (iterations res)))
    /\ (forall r : response Args,
          usage r = Missing \/ usage r = Has None -> reported r = (0, 0, 0)%Z)
    /\ (forall (r : response Args) u,
          usage r = Has (Some u) ->
          reported r = (getattr_or_0 (prompt_token_count u),
                        getattr_or_0 (candidates_token_count u),
                        getattr_or_0 (total_token_count u)))
    /\ getattr_or_0 Missing = 0%Z
    /\ getattr_or_0 (Has None) = 0%Z
    /\ (forall n, getattr_or_0 (Has (Some n)) = n).
Proof.
  intros Args Value N G T self nav ctx max_iterations script Hnav A.
  split; [|split; [|split; [|repeat split]]].
  - destruct (scripted_review T script self nav ctx max_iterations Hnav A)
      as (res & self' & E & I & _ & Ti & To & _).
    exists res, self'. rewrite I, Nat2Z.id. auto.
  - intros r [H|H]; unfold reported; rewrite H; reflexivity.
  - intros r u H. unfold reported. rewrite H. reflexivity.
Qed.

Lemma token_accumulation_witness :
  exists res self',
    review_code Examples.demo_tools (scripted Examples.three_then_final)
      Examples.demo_client "ctx" 10 = (Returned res, self')
    /\ input_tokens (tokens_used res)
       = sum_to (fun i => fst (fst (reported (Examples.three_then_final i))))
           (Z.to_nat (iterations res))
    /\ output_tokens (tokens_used res)
       = sum_to (fun i => snd (fst (reported (Examples.three_then_final i))))
           (Z.to_nat (iterations res)).
Proof.
  refine (proj1 (token_accumulation _ _ _ _ Examples.demo_tools
                   Examples.demo_client Examples.sample_nav "ctx" 10
                   Examples.three_then_final eq_refl _)).
  right. vm_compute. repeat split.
Defined.

(** C3, as the code has it.  Against any scripted agent, with navigation
    tools set up and a limiter that lets the calls through, [review_code]
    returns a result with [iterations] between 0 and [max_iterations] and
    the text of the last response as [review_content].  If the agent asks
    for tools in every response below the cap, [iterations] is
    [max_iterations]; and a result with [iterations < max_iterations]
    comes from a last response that asked for no tool.  The result has no
    field that tells the two endings apart when [iterations] equals the
    cap. *)
Theorem budget_exhaustion_unmarked :
  forall (Args Value N G : Type) (T : Tools Args Value N G)
         (self : client Value N G) (nav : N) (ctx : string)
         (max_iterations : Z) (script : nat -> response Args),
    navigation_tools self = Some nav ->
    admitted T (S (stop_turn script (Z.to_nat max_iterations) 0)) self ->
    exists res self',
      review_code T (scripted script) self ctx max_iterations
        = (Returned res, self')
      /\ (0 <= iterations res <= Z.max 0 max_iterations)%Z
      /\ review_content res
         = final_review (script (Z.to_nat (iterations res)))
      /\ ((forall k, k < Z.to_nat max_iterations ->
                     requested_calls (script k) <> []) ->
          iterations res = Z.max 0 max_iterations)
      /\ ((iterations res < max_iterations)%Z ->
          requested_calls (script (Z.to_nat (iterations res))) = []).
Proof.
  intros Args Value N G T self nav ctx max_iterations script Hnav A.
  destruct (scripted_review T script self nav ctx max_iterations Hnav A)
    as (res & self' & E & I & R & _).
  pose proof (stop_turn_le script (Z.to_nat max_iterations) 0) as Hle.
  exists res, self'. split; [exact E|].
  rewrite I, Nat2Z.id. split; [lia|]. split; [exact R|]. split.
  - intros H. rewrite (stop_turn_exhausted script (Z.to_nat max_iterations) 0).
    + lia.
    + intros k Hk. apply H. lia.
  - intros H. apply stop_turn_clean. lia.
Qed.

Lemma budget_exhaustion_unmarked_witness :
  exists res self',
    review_code Examples.demo_tools (scripted Examples.never_stops)
      Examples.demo_client "ctx" 1 = (Returned res, self')
    /\ (0 <= iterations res <= Z.max 0 1)%Z
    /\ review_content res
       = final_review (Examples.never_stops (Z.to_nat (iterations res)))
    /\ ((forall k, k < Z.to_nat 1 ->
                   requested_calls (Examples.never_stops k) <> []) ->
        iterations res = Z.max 0 1)
    /\ ((iterations res < 1)%Z ->
        requested_calls (Examples.never_stops (Z.to_nat (iterations res)))
        = []).
Proof.
  refine (budget_exhaustion_unmarked _ _ _ _ Examples.demo_tools
            Examples.demo_client Examples.sample_nav "ctx" 1
            Examples.never_stops eq_refl _).
  right. vm_compute. repeat split.
Defined.

(** C3, as the claim states it.  No function of the returned result tells
    whether the last response still asked for tools: with
    [max_iterations = 1], the agent that always asks and the agent that
    asks once and then answers get the same result. *)
Lemma no_exhaustion_marker :
  ~ (exists marker : result (list (string * string)) -> bool,
        forall script res self',
          review_code Examples.demo_tools (scripted script)
            Examples.demo_client "ctx" 1 = (Returned res, self') ->
          (marker res = true <->
           requested_calls (script (Z.to_nat (iterations res))) <> [])).
Proof.
  intros [marker H].
  destruct (review_code Examples.demo_tools (scripted Examples.never_stops)
              Examples.demo_client "ctx" 1) as [oA sA] eqn:EA.
  destruct (review_code Examples.demo_tools (scripted Examples.one_then_final)
              Examples.demo_client "ctx" 1) as [oB sB] eqn:EB.
  assert (oA = oB) as Heq.
  { apply (f_equal fst) in EA, EB. simpl in EA, EB. subst oA oB.
    vm_compute. reflexivity. }
  assert (exists res, oA = Returned res /\ iterations res = 1%Z)
    as (res & HA & Hit).
  { apply (f_equal fst) in EA. simpl in EA. subst oA.
    vm_compute. eexists. split; reflexivity. }
  rewrite <- Heq in EB. rewrite HA in EA, EB.
  pose proof (H _ _ _ EA) as [_ HA2].
  pose proof (H _ _ _ EB) as [HB1 _].
  rewrite Hit in *.
  apply HB1; [|reflexivity].
  apply HA2. discriminate.
Qed.






End LoopClaims.

(** ** The navigation tools and the session store *)

Section StoreClaims.

Import Py.

(** *** Reading files *)

(** What [read_file] answers on [sample_fs]: a file of the repository; a
    climb out of it; an absolute path; a link that leaves it; a link onto
    itself; a file that is not there; the root itself. *)
Example read_file_answers :
  let read := fun p =>
    fst (NavigationTools.read_file Examples.sample_fs Examples.sample_nav p) in
  read "main.py" = "import os"
  /\ read "../../etc/passwd"
     = "Error: Access denied - path outside repository: ../../etc/passwd"
  /\ read "/etc/passwd"
     = "Error: Access denied - path outside repository: /etc/passwd"
  /\ read "out/passwd"
     = "Error: Access denied - path outside repository: out/passwd"
  /\ read "loop" = "Error: Invalid path: loop"
  /\ read "nothere.py" = "Error: File not found: nothere.py"
  /\ read EmptyString = "Error: Not a file: ".
Proof. vm_compute. repeat split. Qed.

(** A second read of a file is answered from the cache. *)
Example read_file_cached :
  let '(_, nav1) :=
    NavigationTools.read_file Examples.sample_fs Examples.sample_nav
      "main.py" in
  NavigationTools._file_cache nav1 !! "main.py" = Some "import os"
  /\ NavigationTools.read_file
       (FileSystem.mk ∅ []) nav1 "main.py" = ("import os", nav1).
Proof. vm_compute. split; reflexivity. Qed.

Section Sandbox.

Import FileSystem NavigationTools.

(** The check [read_file] makes: a resolved path whose text does not start
    with the text of the resolved root is refused, and the cache is left
    alone. *)
Lemma read_file_refuses fs nav filepath full root :
  _file_cache nav !! filepath = None ->
  resolve fs (PosixPath.div (repo_path nav) filepath) = Some full ->
  resolve fs (repo_path nav) = Some root ->
  startswith (PosixPath.str full) (PosixPath.str root) = false ->
  read_file fs nav filepath
  = ("Error: Access denied - path outside repository: " ++ filepath, nav).
Proof.
  intros Hc Hf Hr Hs. unfold read_file. rewrite Hc, Hf, Hr, Hs. reflexivity.
Qed.

(** A file is cached only by a read that returned its text. *)
Lemma read_file_text fs nav filepath full root content :
  _file_cache nav !! filepath = None ->
  resolve fs (PosixPath.div (repo_path nav) filepath) = Some full ->
  resolve fs (repo_path nav) = Some root ->
  startswith (PosixPath.str full) (PosixPath.str root) = true ->
  node_at fs (PosixPath.parts full) = Some (File (Text content)) ->
  read_file fs nav filepath = (content, cache_put nav filepath content).
Proof.
  intros Hc Hf Hr Hs Hn. unfold read_file, exists_.
  rewrite Hc, Hf, Hr, Hs, Hn. reflexivity.
Qed.

End Sandbox.

(** C1.  The containment check of [read_file] compares the texts of the
    two paths, not their components.  With the repository at [/tmp/repo]
    and a directory [/tmp/repo-evil] next to it, the path
    [../repo-evil/secret.txt] resolves to [/tmp/repo-evil/secret.txt],
    which is not under the root, and [read_file] returns the content of
    that file; [../../etc/passwd] is refused. *)
Theorem read_file_sibling_escape :
  let full :=
    FileSystem.resolve Examples.sample_fs
      (PosixPath.div (NavigationTools.repo_path Examples.sample_nav)
         "../repo-evil/secret.txt") in
  let root :=
    FileSystem.resolve Examples.sample_fs
      (NavigationTools.repo_path Examples.sample_nav) in
  full = Some (PosixPath.mk true ["tmp"; "repo-evil"; "secret.txt"])
  /\ root = Some (PosixPath.mk true ["tmp"; "repo"])
  /\ FileSystem.is_within (PosixPath.mk true ["tmp"; "repo"])
       (PosixPath.mk true ["tmp"; "repo-evil"; "secret.txt"]) = false
  /\ fst (NavigationTools.read_file Examples.sample_fs Examples.sample_nav
            "../repo-evil/secret.txt") = "SECRET"
  /\ fst (NavigationTools.read_file Examples.sample_fs Examples.sample_nav
            "../../etc/passwd")
     = "Error: Access denied - path outside repository: ../../etc/passwd".
Proof. vm_compute. repeat split. Qed.

(** C10.  For a file path that the import index does not have,
    [get_imports] returns the empty list whenever what [read_file]
    returns starts with "Error:".  This includes a readable text file
    under the root whose own content starts with "Error:": [read_file]
    returns that content, and [get_imports] returns no imports, whatever
    the extraction would find in it. *)
Theorem get_imports_error_prefix :
  forall (extract_imports : string -> string -> list string)
         (fs : FileSystem.t) (nav : NavigationTools.t) (filepath : string),
    NavigationTools.imports (NavigationTools.index nav) !! filepath = None ->
    (startswith (fst (NavigationTools.read_file fs nav filepath)) "Error:"
       = true ->
     fst (NavigationTools.get_imports extract_imports fs nav filepath) = [])
    /\ (forall full root content,
          NavigationTools._file_cache nav !! filepath = None ->
          FileSystem.resolve fs
            (PosixPath.div (NavigationTools.repo_path nav) filepath)
            = Some full ->
          FileSystem.resolve fs (NavigationTools.repo_path nav) = Some root ->
          FileSystem.is_within root full = true ->
          startswith (PosixPath.str full) (PosixPath.str root) = true ->
          FileSystem.node_at fs (PosixPath.parts full)
            = Some (FileSystem.File (FileSystem.Text content)) ->
          startswith content "Error:" = true ->
          fst (NavigationTools.read_file fs nav filepath) = content
          /\ fst (NavigationTools.get_imports extract_imports fs nav filepath)
             = []).
Proof.
  intros extract_imports fs nav filepath Hi.
  assert (startswith (fst (NavigationTools.read_file fs nav filepath)) "Error:"
            = true ->
          fst (NavigationTools.get_imports extract_imports fs nav filepath)
          = []) as H.
  { intros Hs. unfold NavigationTools.get_imports. rewrite Hi.
    destruct (NavigationTools.read_file fs nav filepath) as [content nav1].
    simpl in Hs. rewrite Hs. reflexivity. }
  split; [exact H|].
  intros full root content Hc Hf Hr _ Hs Hn He.
  pose proof (read_file_text fs nav filepath full root content Hc Hf Hr Hs Hn)
    as E.
  split; [rewrite E; reflexivity|].
  apply H. rewrite E. exact He.
Qed.

Lemma get_imports_error_prefix_witness :
  fst (NavigationTools.read_file Examples.sample_fs Examples.sample_nav
         "notes.py")
  = "Error: see the log
import os"
  /\ fst (NavigationTools.get_imports Examples.finds_os Examples.sample_fs
            Examples.sample_nav "notes.py") = [].
Proof.
  refine (proj2 (get_imports_error_prefix Examples.finds_os Examples.sample_fs
                   Examples.sample_nav "notes.py" _)
            (PosixPath.mk true ["tmp"; "repo"; "notes.py"])
            (PosixPath.mk true ["tmp"; "repo"])
            _ _ _ _ _ _ _ _);
    vm_compute; reflexivity.
Defined.

(** *** The session store *)

Section Sessions.

Import ReviewerService.

Example count_issues_example :
  count_issues_in_review "FILE: a.py
LINE: 3
ISSUE: unused import
FIX: remove it
FILE: b.py
ISSUE: typo" = 4%Z.
Proof. reflexivity. Qed.

(** What the service answers to roots it does not accept, on
    [sample_fs]. *)
Example refused_roots :
  let answer := fun root =>
    fst (handle_review Examples.demo_env (Examples.demo_request root "x") ∅) in
  answer "/etc"
  = HTTPException 400
      "Invalid project_root: Project path is outside safe boundaries"
  /\ answer "/tmp/nothere"
     = HTTPException 400
         "Invalid project_root: [Errno 2] No such file or directory"
  /\ answer "/tmp/b/file.txt"
     = HTTPException 400 "Invalid project_root: Path is not a directory"
  /\ answer "/tmp/repo/loop" = Uncaught (Py.RuntimeError "Symlink loop").
Proof. vm_compute. repeat split. Qed.

Context {Args Value N G : Type}.

Local Abbreviation sessions := (gmap string (session Value N G)).

Lemma review_in_session_frame (env : Env Args Value N G) request root key
    display status0 previous s (m : sessions) k :
  k <> key ->
  snd (review_in_session env request root key display status0 previous s m)
    !! k = m !! k.
Proof.
  intros Hk. unfold review_in_session.
  destruct (env_new_nav env root) as [e|nav]; [reflexivity|].
  destruct (GeminiClient.review_code _ _ _ _ _) as [[res|e|] c2];
    cbn [snd]; try (rewrite lookup_insert_ne; [reflexivity|congruence]).
  destruct (GeminiClient.review_content res);
    cbn [snd]; rewrite lookup_insert_ne; auto.
Qed.

(** A request writes only under the key of its own root and name. *)
Lemma handle_review_frame (env : Env Args Value N G) request (m : sessions)
    k :
  (forall root,
      validate_project_root env (project_root request) = inr root ->
      k <> session_key root (session_name request)) ->
  snd (handle_review env request m) !! k = m !! k.
Proof.
  intros Hk. unfold handle_review.
  destruct (validate_project_root env (project_root request))
    as [refused|root]; [reflexivity|].
  specialize (Hk root eq_refl).
  destruct (m !! session_key root (session_name request)) as [s0|] eqn:L.
  - rewrite review_in_session_frame by exact Hk.
    rewrite lookup_insert_ne; [reflexivity|congruence].
  - unfold create_new_session.
    destruct (env_new_client env _ _) as [e|c]; [reflexivity|].
    rewrite review_in_session_frame by exact Hk.
    rewrite lookup_insert_ne; [reflexivity|congruence].
Qed.

Lemma handle_all_frame reqs : forall (m : sessions) k,
  (forall (env : Env Args Value N G) request root,
      In (env, request) reqs ->
      validate_project_root env (project_root request) = inr root ->
      k <> session_key root (session_name request)) ->
  handle_all reqs m !! k = m !! k.
Proof.
  induction reqs as [|[env request] rest IH]; intros m k Hk; [reflexivity|].
  cbn [handle_all]. rewrite IH.
  - apply handle_review_frame. intros root Hv.
    apply (Hk env request root); [left; reflexivity|exact Hv].
  - intros env' request' root Hin Hv.
    apply (Hk env' request' root); [right; exact Hin|exact Hv].
Qed.

Lemma length_append (a b : string) :
  String.length (a ++ b) = String.length a + String.length b.
Proof. induction a as [|x a IH]; simpl; [reflexivity|]. now rewrite IH. Qed.

Lemma append_cancel_r (a b c : string) : a ++ c = b ++ c -> a = b.
Proof.
  intros H.
  assert (String.length a = String.length b) as Hl.
  { apply (f_equal String.length) in H.
    rewrite !length_append in H. lia. }
  revert b H Hl. induction a as [|x a IH]; intros [|y b] H Hl;
    try discriminate; [reflexivity|].
  simpl in H. injection H as -> H. f_equal. apply IH; [exact H|].
  simpl in Hl. lia.
Qed.

(** With one session name, the keys of two roots differ. *)
Lemma session_key_same_name rootA rootB x :
  PosixPath.str rootA <> PosixPath.str rootB ->
  session_key rootA x <> session_key rootB x.
Proof.
  intros Hne H. apply Hne. unfold session_key in H.
  apply (append_cancel_r _ _ (":" ++ x)). exact H.
Qed.


End Sessions.

Section SessionClaims.

Import ReviewerService.

Context {Args Value N G : Type}.

Local Abbreviation sessions := (gmap string (session Value N G)).

Lemma review_in_session_ok (env : Env Args Value N G) request root key
    display status0 previous s (m : sessions) r :
  fst (review_in_session env request root key display status0 previous s m)
  = OK r ->
  status (session_info r) = status0
  /\ iteration (session_info r) = s_iteration s
  /\ exists s',
       snd (review_in_session env request root key display status0 previous
              s m) !! key = Some s'
       /\ s_iteration s' = s_iteration s
       /\ s_project_root s' = s_project_root s.
Proof.
  unfold review_in_session.
  destruct (env_new_nav env root) as [e|nav]; [discriminate|].
  destruct (GeminiClient.review_code _ _ _ _ _) as [[res|e|] c2];
    try discriminate.
  destruct (GeminiClient.review_content res) as [content|]; [|discriminate].
  cbn [fst snd]. intros [= <-]. cbn.
  split; [reflexivity|]. split; [reflexivity|].
  eexists. rewrite lookup_insert_eq. split; [reflexivity|]. auto.
Qed.

(** The first request under a key reports a new session, iteration 1. *)
Lemma first_request_is_new (env : Env Args Value N G) request root
    (m : sessions) r :
  validate_project_root env (project_root request) = inr root ->
  m !! session_key root (session_name request) = None ->
  fst (handle_review env request m) = OK r ->
  status (session_info r) = "new"
  /\ iteration (session_info r) = 1%Z
  /\ exists s,
       snd (handle_review env request m)
         !! session_key root (session_name request) = Some s
       /\ s_iteration s = 1%Z
       /\ s_project_root s = PosixPath.str root.
Proof.
  intros Hv Hm. unfold handle_review. rewrite Hv, Hm.
  unfold create_new_session.
  destruct (env_new_client env _ _) as [e|c]; [discriminate|].
  intros H. apply review_in_session_ok in H. exact H.
Qed.

(** A later request under the same key continues it, one iteration on. *)
Lemma later_request_continues (env : Env Args Value N G) request root
    (m : sessions) s0 r :
  validate_project_root env (project_root request) = inr root ->
  m !! session_key root (session_name request) = Some s0 ->
  fst (handle_review env request m) = OK r ->
  status (session_info r) = "continued"
  /\ iteration (session_info r) = (s_iteration s0 + 1)%Z.
Proof.
  intros Hv Hm. unfold handle_review. rewrite Hv, Hm.
  intros H. apply review_in_session_ok in H.
  destruct H as (H1 & H2 & _). auto.
Qed.

(** Requests for one root under a name never touch the session another
    root has under that same name. *)
Lemma same_name_other_root_untouched reqs (m : sessions) rootA rootB x :
  PosixPath.str rootA <> PosixPath.str rootB ->
  (forall (env : Env Args Value N G) request,
      In (env, request) reqs ->
      validate_project_root env (project_root request) = inr rootA
      /\ session_name request = x) ->
  handle_all reqs m !! session_key rootB x = m !! session_key rootB x.
Proof.
  intros Hne Hall. apply handle_all_frame.
  intros env request root Hin Hv.
  destruct (Hall env request Hin) as [Hv' ->].
  rewrite Hv in Hv'. injection Hv' as ->.
  intros H. symmetry in H. revert H. apply session_key_same_name, Hne.
Qed.

End SessionClaims.



(** C2.  The session key is the root, a colon and the session name, so
    the root [/tmp/a:b] with the name [x] and the root [/tmp/a] with the
    name [b:x] have one key.  A first request for [/tmp/a:b] and [x]
    creates a session; a request for the other root, [/tmp/a], with the
    name [b:x] is then answered as "continued", iteration 2, and the
    session that belongs to [/tmp/a:b] is the one it has changed. *)
Theorem session_key_collision :
  let first :=
    ReviewerService.handle_review Examples.demo_env
      (Examples.demo_request "/tmp/a:b" "x") ∅ in
  let second :=
    ReviewerService.handle_review Examples.demo_env
      (Examples.demo_request "/tmp/a" "b:x") (snd first) in
  ReviewerService.validate_project_root Examples.demo_env "/tmp/a:b"
    = inr (PosixPath.mk true ["tmp"; "a:b"])
  /\ ReviewerService.validate_project_root Examples.demo_env "/tmp/a"
     = inr (PosixPath.mk true ["tmp"; "a"])
  /\ (exists r,
        fst first = ReviewerService.OK r
        /\ ReviewerService.status (ReviewerService.session_info r) = "new"
        /\ ReviewerService.iteration (ReviewerService.session_info r) = 1%Z)
  /\ (exists r,
        fst second = ReviewerService.OK r
        /\ ReviewerService.status (ReviewerService.session_info r)
           = "continued"
        /\ ReviewerService.iteration (ReviewerService.session_info r) = 2%Z)
  /\ (exists s1 s2,
        snd first
          !! ReviewerService.session_key (PosixPath.mk true ["tmp"; "a:b"]) "x"
        = Some s1
        /\ snd second
             !! ReviewerService.session_key (PosixPath.mk true ["tmp"; "a:b"])
                  "x"
           = Some s2
        /\ ReviewerService.s_project_root s1 = "/tmp/a:b"
        /\ ReviewerService.s_iteration s1 = 1%Z
        /\ ReviewerService.s_project_root s2 = "/tmp/a:b"
        /\ ReviewerService.s_iteration s2 = 2%Z).
Proof.
  vm_compute.
  split; [reflexivity|]. split; [reflexivity|].
  split; [eexists; split; [reflexivity|]; split; reflexivity|].
  split; [eexists; split; [reflexivity|]; split; reflexivity|].
  eexists _, _. repeat split; reflexivity.
Qed.

End StoreClaims.

(** * More properties *)

(** ** The token bucket, continued *)

Section BucketMore.

Import RateLimiter.

Lemma monotonic_still c : ticks c = [] -> monotonic c = (clock_now c, c).
Proof. intros H. unfold monotonic. rewrite H. reflexivity. Qed.

Lemma no_time_no_refill l :
  ((last_update l - last_update l) * inject_Z (rpm l) / 60 == 0)%Q.
Proof. unfold Qdiv. ring. Qed.




(** X2.  When no time passes, [acquire] with a timeout of zero does what
    [try_acquire] does: it goes through the lock once, takes a token if
    there is one and returns [True], and otherwise returns [False]
    without sleeping. *)
Theorem acquire_zero_timeout :
  forall (fuel : nat) (l : t) (c : Clock),
    good l c -> ticks c = [] -> (0 < rpm l)%Z ->
    acquire (S fuel) 0 l c
    = (if fst (fst (try_acquire l c)) then Acquired else TimedOut,
       [snd (fst (try_acquire l c))], c).
Proof.
  intros fuel l c (Hi & Hr & Hl & Hc) Ht Hpos.
  unfold acquire, try_acquire. rewrite (monotonic_still c Ht).
  cbn [acquire_loop]. rewrite (monotonic_still c Ht).
  destruct (refill_and_take l (clock_now c)) as [ok l1] eqn:RT.
  destruct ok; [reflexivity|].
  assert (rpm l1 = rpm l /\ (tokens l1 < 1)%Q) as [Hr1 Ht1].
  { apply refill_and_take_false in RT as [Hlt ->]. split; [reflexivity|].
    exact Hlt. }
  destruct (Z.eqb (rpm l1) 0) eqn:Z0; [apply Z.eqb_eq in Z0; lia|].
  rewrite (monotonic_still c Ht).
  assert (0 < (1 - tokens l1) * 60 / inject_Z (rpm l1))%Q as Hw.
  { assert (0 < inject_Z (rpm l1))%Q as Hp.
    { change 0%Q with (inject_Z 0). rewrite <- Zlt_Qlt. lia. }
    unfold Qdiv. apply Qmult_lt_0_compat; [lra|].
    apply Qinv_lt_0_compat, Hp. }
  assert (Qle_bool
            (clock_now c - clock_now c
             + (1 - tokens l1) * 60 / inject_Z (rpm l1)) 0 = false) as ->.
  { apply not_true_is_false. intros H. apply Qle_bool_iff in H. lra. }
  reflexivity.
Qed.

Lemma acquire_zero_timeout_witness :
  acquire 1 0 (init 120 (Some 2%Z) 0%Q) (mkClock 0%Q [])
  = (Acquired,
     [snd (fst (try_acquire (init 120 (Some 2%Z) 0%Q) (mkClock 0%Q [])))],
     mkClock 0%Q []).
Proof.
  apply (acquire_zero_timeout 0 (init 120 (Some 2%Z) 0%Q) (mkClock 0%Q [])).
  - unfold good, inv, in_range, clock_ok. simpl.
    repeat split; try (unfold Qle; simpl; lia). constructor.
  - reflexivity.
  - simpl. lia.
Defined.

(** X3.  When no time passes and the bucket, refilled to now, holds
    exactly [k] tokens, the next [k] calls of [try_acquire] return [True]
    and the one after them returns [False]: no call is let through beyond
    the tokens that are there. *)
Theorem burst_then_refused :
  forall (k : nat) (l : t) (c : Clock),
    ticks c = [] ->
    (refilled l (clock_now c) == inject_Z (Z.of_nat k))%Q ->
    fst (fst (try_acquire_n (S k) l c)) = (repeat true k ++ [false])%list.
Proof.
  induction k as [|k IH]; intros l c Ht HR.
  - cbn [try_acquire_n]. unfold try_acquire.
    rewrite (monotonic_still c Ht). unfold refill_and_take.
    assert (Qle_bool 1 (refilled l (clock_now c)) = false) as ->.
    { apply not_true_is_false. intros H. apply Qle_bool_iff in H.
      rewrite HR in H. unfold Qle in H. simpl in H. lia. }
    reflexivity.
  - change (try_acquire_n (S (S k)) l c)
      with (let '(ok, l1, c1) := try_acquire l c in
            let '(oks, l2, c2) := try_acquire_n (S k) l1 c1 in
            (ok :: oks, l2, c2)).
    unfold try_acquire at 1.
    rewrite (monotonic_still c Ht). unfold refill_and_take.
    assert (inject_Z (Z.of_nat (S k)) == inject_Z (Z.of_nat k) + 1)%Q as HS.
    { rewrite Nat2Z.inj_succ. unfold Z.succ. rewrite inject_Z_plus.
      reflexivity. }
    assert (0 <= inject_Z (Z.of_nat k))%Q as Hk.
    { change 0%Q with (inject_Z 0). rewrite <- Zle_Qle. lia. }
    assert (Qle_bool 1 (refilled l (clock_now c)) = true) as ->.
    { apply Qle_bool_iff. rewrite HR, HS. lra. }
    set (l1 := set_tokens l (refilled l (clock_now c) - 1) (clock_now c)).
    specialize (IH l1 c Ht).
    destruct (try_acquire_n (S k) l1 c) as [[oks l2] c2].
    cbn [fst] in *. cbn [repeat app]. f_equal. apply IH.
    unfold refilled, l1. cbn [set_tokens burst tokens last_update rpm].
    fold (refilled l (clock_now c)).
    assert ((clock_now c - clock_now c) * inject_Z (rpm l) / 60 == 0)%Q as H0.
    { unfold Qdiv. ring. }
    pose proof (Q.le_min_l (inject_Z (burst l))
                  (tokens l + (clock_now c - last_update l)
                              * inject_Z (rpm l) / 60)) as Hle.
    fold (refilled l (clock_now c)) in Hle.
    rewrite Q.min_r; [rewrite H0, HR, HS; ring|].
    rewrite H0. lra.
Qed.

Lemma burst_then_refused_witness :
  fst (fst (try_acquire_n 3 (init 120 (Some 2%Z) 0%Q) (mkClock 0%Q [])))
  = [true; true; false].
Proof.
  apply (burst_then_refused 2 (init 120 (Some 2%Z) 0%Q) (mkClock 0%Q [])).
  - reflexivity.
  - reflexivity.
Defined.



End BucketMore.

(** ** The limits per model and the registry, continued *)

Section RegistryMore.

Import RateLimitManager.

(** The cases of [get_rpm_and_prefix] for the supported tier. *)
Lemma get_rpm_and_prefix_cases :
  forall (model_name : string),
    exists rpm canon,
      ModelRateLimits.get_rpm_and_prefix model_name "tier1"
        = inr (rpm, canon)
      /\ (100 <= rpm)%Z
      /\ ((In (canon, rpm) ModelRateLimits.TIER_1_LIMITS
           /\ Py.startswith (Py.lower model_name) canon = true
           /\ forall k v,
                In (k, v) ModelRateLimits.TIER_1_LIMITS ->
                Py.startswith (Py.lower model_name) k = true ->
                String.length k <= String.length canon)
          \/ (canon = ModelRateLimits.DEFAULT_CANONICAL_KEY
              /\ rpm = ModelRateLimits.DEFAULT_LIMIT
              /\ forall k v,
                   In (k, v) ModelRateLimits.TIER_1_LIMITS ->
                   Py.startswith (Py.lower model_name) k = false)).
Proof.
  intros model_name.
  unfold ModelRateLimits.get_rpm_and_prefix. cbn [String.eqb Ascii.eqb negb].
  change (("tier1" =? "tier1")%string) with true. cbn [negb].
  set (s := Py.lower model_name).
  unfold ModelRateLimits.TIER_1_LIMITS at 1.
  cbn [ModelRateLimits.dict_get].
  destruct (String.eqb_spec s "gemini-2.5-pro") as [->|_].
  { eexists _, _. split; [reflexivity|]. split; [lia|]. left.
    split; [simpl; tauto|]. split; [reflexivity|].
    intros k v Hin Hp. simpl in Hin.
    repeat (destruct Hin as [[= <- <-]|Hin];
            [first [simpl; lia|discriminate]|]).
    destruct Hin. }
  destruct (String.eqb_spec s "gemini-2.5-flash") as [->|_].
  { eexists _, _. split; [reflexivity|]. split; [lia|]. left.
    split; [simpl; tauto|]. split; [reflexivity|].
    intros k v Hin Hp. simpl in Hin.
    repeat (destruct Hin as [[= <- <-]|Hin];
            [first [simpl; lia|discriminate]|]).
    destruct Hin. }
  destruct (String.eqb_spec s "gemini-2.0-flash") as [->|_].
  { eexists _, _. split; [reflexivity|]. split; [lia|]. left.
    split; [simpl; tauto|]. split; [reflexivity|].
    intros k v Hin Hp. simpl in Hin.
    repeat (destruct Hin as [[= <- <-]|Hin];
            [first [simpl; lia|discriminate]|]).
    destruct Hin. }
  destruct (String.eqb_spec s "gemini-2.0-flash-lite") as [->|_].
  { eexists _, _. split; [reflexivity|]. split; [lia|]. left.
    split; [simpl; tauto|]. split; [reflexivity|].
    intros k v Hin Hp. simpl in Hin.
    repeat (destruct Hin as [[= <- <-]|Hin];
            [first [simpl; lia|discriminate]|]).
    destruct Hin. }
  change (ModelRateLimits.sorted_prefixes ModelRateLimits.TIER_1_LIMITS)
    with [ ("gemini-2.0-flash-lite", 4000%Z); ("gemini-2.5-flash", 1000%Z);
           ("gemini-2.0-flash", 2000%Z); ("gemini-2.5-pro", 150%Z) ].
  cbn [ModelRateLimits.first_prefix].
  destruct (Py.startswith s "gemini-2.0-flash-lite") eqn:P1.
  { eexists _, _. split; [reflexivity|]. split; [lia|]. left.
    split; [simpl; tauto|]. split; [exact P1|].
    intros k v Hin Hp. simpl in Hin.
    repeat (destruct Hin as [[= <- <-]|Hin]; [simpl; lia|]).
    destruct Hin. }
  destruct (Py.startswith s "gemini-2.5-flash") eqn:P2.
  { eexists _, _. split; [reflexivity|]. split; [lia|]. left.
    split; [simpl; tauto|]. split; [exact P2|].
    intros k v Hin Hp. simpl in Hin.
    repeat (destruct Hin as [[= <- <-]|Hin];
            [first [simpl; lia|congruence]|]).
    destruct Hin. }
  destruct (Py.startswith s "gemini-2.0-flash") eqn:P3.
  { eexists _, _. split; [reflexivity|]. split; [lia|]. left.
    split; [simpl; tauto|]. split; [exact P3|].
    intros k v Hin Hp. simpl in Hin.
    repeat (destruct Hin as [[= <- <-]|Hin];
            [first [simpl; lia|congruence]|]).
    destruct Hin. }
  destruct (Py.startswith s "gemini-2.5-pro") eqn:P4.
  { eexists _, _. split; [reflexivity|]. split; [lia|]. left.
    split; [simpl; tauto|]. split; [exact P4|].
    intros k v Hin Hp. simpl in Hin.
    repeat (destruct Hin as [[= <- <-]|Hin];
            [first [simpl; lia|congruence]|]).
    destruct Hin. }
  eexists _, _. split; [reflexivity|].
  split; [unfold ModelRateLimits.DEFAULT_LIMIT; lia|]. right.
  split; [reflexivity|]. split; [reflexivity|].
  intros k v Hin. simpl in Hin.
  repeat (destruct Hin as [[= <- <-]|Hin]; [assumption|]).
  destruct Hin.
Qed.

(** X5.  For the supported tier, [get_rpm_and_prefix] is a longest-prefix
    match on the lower-cased model name: it returns a key of
    [TIER_1_LIMITS] with its limit, that key starts the name, and no key
    that starts the name is longer; or, when no key starts the name, it
    returns the default limit and the default key.  The limit is at least
    100 either way. *)
Theorem longest_prefix_match :
  forall (model_name : string),
    exists rpm canon,
      ModelRateLimits.get_rpm_and_prefix model_name "tier1"
        = inr (rpm, canon)
      /\ (100 <= rpm)%Z
      /\ ((In (canon, rpm) ModelRateLimits.TIER_1_LIMITS
           /\ Py.startswith (Py.lower model_name) canon = true
           /\ forall k v,
                In (k, v) ModelRateLimits.TIER_1_LIMITS ->
                Py.startswith (Py.lower model_name) k = true ->
                String.length k <= String.length canon)
          \/ (canon = ModelRateLimits.DEFAULT_CANONICAL_KEY
              /\ rpm = ModelRateLimits.DEFAULT_LIMIT
              /\ forall k v,
                   In (k, v) ModelRateLimits.TIER_1_LIMITS ->
                   Py.startswith (Py.lower model_name) k = false)).
Proof.
  exact get_rpm_and_prefix_cases.
Qed.

(** X6.  Asking the manager twice for the same name changes nothing the
    second time: the second call returns what the first returned and
    leaves the manager as the first left it, whatever the clock reads. *)
Theorem get_limiter_twice :
  forall (m : t) (model_name tier : string) (now1 now2 : Q),
    get_limiter model_name tier now2
      (snd (get_limiter model_name tier now1 m))
    = get_limiter model_name tier now1 m.
Proof.
  intros m model_name tier now1 now2. unfold get_limiter.
  destruct (ModelRateLimits.get_rpm_and_prefix model_name tier)
    as [e|[rpm canon]]; cbn [snd]; [reflexivity|].
  destruct (limiters m !! (tier ++ ":" ++ canon)) as [ref|] eqn:L;
    cbn [snd limiters].
  - rewrite L. reflexivity.
  - rewrite lookup_insert_eq. reflexivity.
Qed.

Lemma step_count m m' :
  step m m' ->
  size (limiters m) = List.length (objects m) ->
  size (limiters m') = List.length (objects m').
Proof.
  intros [model tier now m0|ref l m0 Hlt] H.
  - unfold get_limiter.
    destruct (ModelRateLimits.get_rpm_and_prefix model tier)
      as [e|[rpm canon]]; [exact H|].
    destruct (limiters m0 !! (tier ++ ":" ++ canon)) as [r|] eqn:L;
      [exact H|].
    cbn [snd limiters objects].
    rewrite map_size_insert_None by exact L.
    rewrite length_app. simpl. lia.
  - cbn [limiters objects]. rewrite length_insert. exact H.
Qed.

(** X7.  However a manager is used, it holds exactly one limiter object
    for each key of its dict: no limiter is made that no key names, and no
    key is without its limiter. *)
Theorem one_limiter_per_key :
  forall (m : t),
    rtc step init m ->
    size (limiters m) = List.length (objects m)
    /\ (forall k ref, limiters m !! k = Some ref ->
                      is_Some (objects m !! ref)).
Proof.
  intros m R. split.
  - assert (forall a b, rtc step a b ->
              size (limiters a) = List.length (objects a) ->
              size (limiters b) = List.length (objects b)) as H.
    { induction 1; eauto using step_count. }
    apply (H init m R). reflexivity.
  - intros k ref L. apply lookup_lt_is_Some.
    destruct (steps_wf _ _ R init_wf) as [W _]. eapply W, L.
Qed.

Lemma one_limiter_per_key_witness :
  size (limiters (snd (get_limiter "gpt-4" "tier1" 0%Q init)))
  = List.length (objects (snd (get_limiter "gpt-4" "tier1" 0%Q init))).
Proof.
  apply (one_limiter_per_key (snd (get_limiter "gpt-4" "tier1" 0%Q init))).
  apply rtc_once. apply step_get.
Defined.

(** X8.  The first request for a key makes a limiter with a full bucket:
    its rate and its capacity are the limit [get_rpm_limit] gives for the
    model, and it holds that many tokens. *)
Theorem new_limiter_is_full :
  forall (m : t) (model_name : string) (now : Q) (rpm : Z) (canon : string),
    ModelRateLimits.get_rpm_and_prefix model_name "tier1" = inr (rpm, canon) ->
    limiters m !! ("tier1" ++ ":" ++ canon) = None ->
    exists ref l,
      fst (get_limiter model_name "tier1" now m) = inr ref
      /\ objects (snd (get_limiter model_name "tier1" now m)) !! ref = Some l
      /\ ModelRateLimits.get_rpm_limit model_name "tier1"
         = inr (RateLimiter.rpm l)
      /\ RateLimiter.burst l = RateLimiter.rpm l
      /\ RateLimiter.tokens l = inject_Z (RateLimiter.burst l)
      /\ RateLimiter.last_update l = now
      /\ RateLimiter.inv l.
Proof.
  intros m model_name now rpm canon E L.
  destruct (get_rpm_and_prefix_cases model_name)
    as (rpm' & canon' & E' & Hr & _).
  rewrite E in E'. injection E' as <- <-.
  unfold get_limiter, ModelRateLimits.get_rpm_limit. rewrite E, L.
  cbn [fst snd objects].
  exists (List.length (objects m)), (RateLimiter.init rpm None now).
  split; [reflexivity|].
  split; [rewrite lookup_app_r by lia; rewrite Nat.sub_diag; reflexivity|].
  unfold RateLimiter.inv, RateLimiter.in_range, RateLimiter.init.
  cbn [RateLimiter.rpm RateLimiter.burst RateLimiter.tokens
       RateLimiter.last_update].
  repeat split; try reflexivity.
  - apply inject_Z_nonneg. lia.
  - apply Qle_refl.
Qed.

Lemma new_limiter_is_full_witness :
  exists ref l,
    fst (get_limiter "gemini-2.5-flash-latest" "tier1" 7%Q init) = inr ref
    /\ objects (snd (get_limiter "gemini-2.5-flash-latest" "tier1" 7%Q init))
         !! ref = Some l
    /\ ModelRateLimits.get_rpm_limit "gemini-2.5-flash-latest" "tier1"
       = inr (RateLimiter.rpm l)
    /\ RateLimiter.burst l = RateLimiter.rpm l
    /\ RateLimiter.tokens l = inject_Z (RateLimiter.burst l)
    /\ RateLimiter.last_update l = 7%Q
    /\ RateLimiter.inv l.
Proof.
  apply (new_limiter_is_full init "gemini-2.5-flash-latest" 7%Q 1000%Z
           "gemini-2.5-flash").
  - reflexivity.
  - reflexivity.
Defined.

End RegistryMore.

(** ** The navigation tools, continued *)

Section NavigationMore.

Import Py FileSystem NavigationTools.

Lemma cache_put_lookup nav filepath content k :
  _file_cache (cache_put nav filepath content) !! k
  = if decide (filepath = k) then Some content else _file_cache nav !! k.
Proof. unfold cache_put. cbn [_file_cache]. apply lookup_insert. Qed.

(** What [read_file] answers, case by case. *)
Lemma read_file_cases fs nav filepath :
  (exists content,
      _file_cache nav !! filepath = Some content
      /\ read_file fs nav filepath = (content, nav))
  \/ (_file_cache nav !! filepath = None
      /\ exists full root content,
           resolve fs (PosixPath.div (repo_path nav) filepath) = Some full
           /\ resolve fs (repo_path nav) = Some root
           /\ startswith (PosixPath.str full) (PosixPath.str root) = true
           /\ node_at fs (PosixPath.parts full) = Some (File (Text content))
           /\ read_file fs nav filepath
              = (content, cache_put nav filepath content))
  \/ (_file_cache nav !! filepath = None
      /\ snd (read_file fs nav filepath) = nav
      /\ (fst (read_file fs nav filepath)
            = "Error: Access denied - path outside repository: " ++ filepath
          \/ fst (read_file fs nav filepath)
             = "Error: Invalid path: " ++ filepath
          \/ fst (read_file fs nav filepath)
             = "Error: File not found: " ++ filepath
          \/ fst (read_file fs nav filepath)
             = "Error: Not a file: " ++ filepath
          \/ fst (read_file fs nav filepath)
             = "Error: Cannot read binary file: " ++ filepath
          \/ exists err,
               fst (read_file fs nav filepath)
               = "Error reading file: " ++ err)).
Proof.
  unfold read_file.
  destruct (_file_cache nav !! filepath) as [content|] eqn:C.
  { left. eauto. }
  right.
  destruct (resolve fs (PosixPath.div (repo_path nav) filepath))
    as [full|] eqn:F;
    [|right; split; [reflexivity|]; split; [reflexivity|];
      cbn [fst]; tauto].
  destruct (resolve fs (repo_path nav)) as [root|] eqn:R;
    [|right; split; [reflexivity|]; split; [reflexivity|];
      cbn [fst]; tauto].
  destruct (startswith (PosixPath.str full) (PosixPath.str root)) eqn:S;
    cbn [negb];
    [|right; split; [reflexivity|]; split; [reflexivity|];
      cbn [fst]; tauto].
  unfold exists_.
  destruct (node_at fs (PosixPath.parts full)) as [[|[content| |err]|target]|]
    eqn:Nd; cbn [negb];
    try (right; split; [reflexivity|]; split; [reflexivity|];
         cbn [fst]; eauto 10).
  left. split; [reflexivity|]. exists full, root, content. auto.
Qed.

(** X9.  [read_file] only ever adds to the cache, and what it adds is
    the text it has just returned, under the path it was asked for: an
    entry that is there stays as it is, and an answer that is an error is
    never stored. *)
Theorem cache_only_grows :
  forall (fs : FileSystem.t) (nav : NavigationTools.t) (filepath : string),
    let answer := fst (read_file fs nav filepath) in
    let nav1 := snd (read_file fs nav filepath) in
    (forall k v, _file_cache nav !! k = Some v ->
                 _file_cache nav1 !! k = Some v)
    /\ (forall k v, _file_cache nav1 !! k = Some v ->
                    _file_cache nav !! k = Some v
                    \/ (k = filepath /\ v = answer
                        /\ exists full,
                             resolve fs
                               (PosixPath.div (repo_path nav) filepath)
                             = Some full
                             /\ node_at fs (PosixPath.parts full)
                                = Some (File (Text v))))
    /\ repo_path nav1 = repo_path nav
    /\ index nav1 = index nav.
Proof.
  intros fs nav filepath answer nav1. subst answer nav1.
  destruct (read_file_cases fs nav filepath)
    as [(content & C & E)|[(C & full & root & content & F & R & S & Nd & E)
                           |(C & E & _)]].
  - rewrite E. cbn [fst snd]. auto.
  - rewrite E. cbn [fst snd]. split; [|split; [|split; reflexivity]].
    + intros k v H. rewrite cache_put_lookup. case_decide; [congruence|done].
    + intros k v. rewrite cache_put_lookup. case_decide.
      * intros [= <-]. right. subst k. eauto.
      * auto.
  - rewrite E. auto.
Qed.

(** X10.  Once [read_file] has returned the text of a file, it returns
    that same text for that path ever after, without looking at the file
    system again: whatever the file system has become, the answer and the
    tools stay the same. *)
Theorem cached_read_is_stale :
  forall (fs fs_later : FileSystem.t) (nav : NavigationTools.t)
         (filepath : string) (full root : PosixPath.t) (content : string),
    _file_cache nav !! filepath = None ->
    resolve fs (PosixPath.div (repo_path nav) filepath) = Some full ->
    resolve fs (repo_path nav) = Some root ->
    startswith (PosixPath.str full) (PosixPath.str root) = true ->
    node_at fs (PosixPath.parts full) = Some (File (Text content)) ->
    let nav1 := snd (read_file fs nav filepath) in
    fst (read_file fs nav filepath) = content
    /\ read_file fs_later nav1 filepath = (content, nav1).
Proof.
  intros fs fs_later nav filepath full root content C F R S Nd nav1.
  subst nav1.
  rewrite (read_file_text fs nav filepath full root content C F R S Nd).
  cbn [fst snd]. split; [reflexivity|].
  unfold read_file. rewrite cache_put_lookup.
  case_decide; [reflexivity|congruence].
Qed.

Lemma cached_read_is_stale_witness :
  fst (read_file Examples.sample_fs Examples.sample_nav "main.py")
  = "import os"
  /\ read_file (FileSystem.mk ∅ [])
       (snd (read_file Examples.sample_fs Examples.sample_nav "main.py"))
       "main.py"
     = ("import os",
        snd (read_file Examples.sample_fs Examples.sample_nav "main.py")).
Proof.
  apply (cached_read_is_stale Examples.sample_fs (FileSystem.mk ∅ [])
           Examples.sample_nav "main.py"
           (PosixPath.mk true ["tmp"; "repo"; "main.py"])
           (PosixPath.mk true ["tmp"; "repo"]) "import os");
    vm_compute; reflexivity.
Defined.

(** X11.  On a file system that does not change, every answer of
    [read_file] is one of its error messages, or the text of a regular
    file whose resolved path, written out, starts with the resolved
    repository root, written out; answers from the cache included, as the
    cache holds such texts only and [read_file] keeps it so. *)
Theorem read_file_answers_only_checked_files :
  forall (fs : FileSystem.t) (nav : NavigationTools.t) (filepath : string),
    cache_sound fs nav ->
    let answer := fst (read_file fs nav filepath) in
    cache_sound fs (snd (read_file fs nav filepath))
    /\ ((exists full root,
            resolve fs (PosixPath.div (repo_path nav) filepath) = Some full
            /\ resolve fs (repo_path nav) = Some root
            /\ startswith (PosixPath.str full) (PosixPath.str root) = true
            /\ node_at fs (PosixPath.parts full) = Some (File (Text answer)))
        \/ answer
           = "Error: Access denied - path outside repository: " ++ filepath
        \/ answer = "Error: Invalid path: " ++ filepath
        \/ answer = "Error: File not found: " ++ filepath
        \/ answer = "Error: Not a file: " ++ filepath
        \/ answer = "Error: Cannot read binary file: " ++ filepath
        \/ exists err, answer = "Error reading file: " ++ err).
Proof.
  intros fs nav filepath Hs answer. subst answer.
  destruct (read_file_cases fs nav filepath)
    as [(content & C & E)|[(C & full & root & content & F & R & S & Nd & E)
                           |(C & E & Herr)]].
  - rewrite E. cbn [fst snd]. split; [exact Hs|]. left.
    destruct (Hs filepath content C) as (full & root & H). eauto.
  - rewrite E. cbn [fst snd]. split; [|left; eauto 10].
    intros k v. rewrite cache_put_lookup. cbn [repo_path cache_put].
    case_decide.
    + intros [= <-]. subst k. eauto 10.
    + apply Hs.
  - rewrite E. split; [exact Hs|]. right. exact Herr.
Qed.

Lemma read_file_answers_only_checked_files_witness :
  cache_sound Examples.sample_fs
    (snd (read_file Examples.sample_fs Examples.sample_nav "main.py")).
Proof.
  apply (read_file_answers_only_checked_files Examples.sample_fs
           Examples.sample_nav "main.py").
  intros filepath content H. vm_compute in H. discriminate.
Defined.

Lemma parse_lines_length nav lines :
  List.length (parse_lines nav lines) <= List.length lines.
Proof.
  induction lines as [|line rest IH]; simpl; [lia|].
  destruct (parse_line nav line); simpl; lia.
Qed.

(** X12.  A search never returns more than 100 entries: [find_usages]
    cuts its list of matches at 100, and [search_text] reads no more than
    the first 100 lines of output. *)
Theorem searches_are_capped :
  forall (run : list string -> proc_result) (nav : NavigationTools.t)
         (symbol_name pattern : string) (file_pattern : option string),
    match find_usages run nav symbol_name with
    | inr l => List.length l <= 100
    | inl _ => True
    end
    /\ match search_text run nav pattern file_pattern with
       | inr l => List.length l <= 100
       | inl _ => True
       end.
Proof.
  intros run nav symbol_name pattern file_pattern. split.
  - unfold find_usages.
    destruct (try_search run _ _ _) as [rc lines|l|e] eqn:E; [| |exact I].
    + rewrite length_firstn. lia.
    + unfold try_search, run_in_handler in E.
      repeat match type of E with
      | context [match ?x with _ => _ end] => destruct x
      | context [if ?x then _ else _] => destruct x
      end; try discriminate; injection E as <-; simpl; lia.
  - unfold search_text.
    destruct (try_search run _ _ _) as [rc lines|l|e] eqn:E; [| |exact I].
    + etransitivity; [apply parse_lines_length|].
      rewrite length_firstn. lia.
    + unfold try_search, run_in_handler in E.
      repeat match type of E with
      | context [match ?x with _ => _ end] => destruct x
      | context [if ?x then _ else _] => destruct x
      end; try discriminate; injection E as <-; simpl; lia.
Qed.

(** X13.  How a search timeout comes out depends on where it happens.
    When ripgrep runs out of time, [find_usages] and [search_text] return
    a list with one error entry.  When ripgrep is not installed and grep
    runs out of time, the timeout is raised out of both, because grep is
    then run inside the handler of the first failure. *)
Theorem search_timeouts :
  forall (run : list string -> proc_result) (nav : NavigationTools.t)
         (symbol_name pattern : string) (file_pattern : option string),
    ((forall args, run ("rg" :: args) = TimeoutExpired) ->
     find_usages run nav symbol_name
     = inr [SearchError
              "Search timeout - symbol name too common or codebase too large"]
     /\ search_text run nav pattern file_pattern
        = inr [SearchError
                 "Search timeout - pattern too broad or codebase too large"])
    /\ ((forall args, run ("rg" :: args) = FileNotFoundError) ->
        (forall args, run ("grep" :: args) = TimeoutExpired) ->
        find_usages run nav symbol_name = inl RaisedTimeout
        /\ search_text run nav pattern file_pattern = inl RaisedTimeout).
Proof.
  intros run nav symbol_name pattern file_pattern. split.
  - intros Hrg. unfold find_usages, search_text, try_search.
    destruct file_pattern; rewrite !Hrg; auto.
  - intros Hrg Hgrep.
    unfold find_usages, search_text, try_search, run_in_handler.
    destruct file_pattern; rewrite !Hrg, !Hgrep; auto.
Qed.

Lemma search_timeouts_witness :
  find_usages MoreExamples.no_rg_slow_grep Examples.sample_nav "parse"
  = inl RaisedTimeout
  /\ search_text MoreExamples.no_rg_slow_grep Examples.sample_nav "TODO" None
     = inl RaisedTimeout.
Proof.
  apply (proj2 (search_timeouts MoreExamples.no_rg_slow_grep
                  Examples.sample_nav "parse" "TODO" None)).
  - reflexivity.
  - reflexivity.
Defined.

End NavigationMore.

Section SearchOutput.

Import Py NavigationTools.

Lemma append_cons (c : ascii) (s t : string) :
  String c s ++ t = String c (s ++ t).
Proof. reflexivity. Qed.

Lemma append_nil_r (s : string) : s ++ EmptyString = s.
Proof.
  induction s as [|c s IH]; [reflexivity|]. now rewrite append_cons, IH.
Qed.

Lemma append_assoc (a b c : string) : (a ++ b) ++ c = a ++ (b ++ c).
Proof.
  induction a as [|x a IH]; [reflexivity|]. now rewrite !append_cons, IH.
Qed.

Lemma span_digits_stops ds rest :
  all_chars is_digit ds = true ->
  span_digits (ds ++ String ":" rest) = (ds, String ":" rest).
Proof.
  induction ds as [|d ds IH]; intros H; [reflexivity|].
  simpl in H. apply andb_prop in H as [Hd Hds].
  rewrite append_cons. cbn [span_digits]. rewrite Hd, (IH Hds). reflexivity.
Qed.

Lemma match_from_found file : forall pre ds content,
  all_chars (fun c => negb (Ascii.eqb c ":")) file = true ->
  pre ++ file <> EmptyString ->
  ds <> EmptyString ->
  all_chars is_digit ds = true ->
  match_from pre (file ++ ":" ++ ds ++ ":" ++ content)
  = Some (pre ++ file, ds, content).
Proof.
  induction file as [|c file IH]; intros pre ds content Hf Hne Hd Hds.
  - rewrite (append_nil_r pre) in *.
    change (EmptyString ++ ":" ++ ds ++ ":" ++ content)
      with (String ":" (ds ++ String ":" content)).
    cbn [match_from].
    change (Ascii.eqb ":" ":") with true. cbv iota.
    destruct pre as [|p pre]; [congruence|].
    unfold number_then_colon.
    rewrite span_digits_stops by exact Hds.
    destruct ds as [|d ds]; [congruence|]. reflexivity.
  - simpl in Hf. apply andb_prop in Hf as [Hc Hf].
    rewrite append_cons. cbn [match_from].
    destruct (Ascii.eqb c ":"); [discriminate|].
    rewrite IH; try assumption.
    + rewrite append_assoc. reflexivity.
    + destruct pre; discriminate.
Qed.

Lemma all_chars_append p (a b : string) :
  all_chars p (a ++ b) = (all_chars p a && all_chars p b)%bool.
Proof.
  induction a as [|c a IH]; [reflexivity|].
  rewrite append_cons. cbn [all_chars]. rewrite IH, andb_assoc. reflexivity.
Qed.

Lemma all_chars_impl (p q : ascii -> bool) (s : string) :
  (forall c, p c = true -> q c = true) ->
  all_chars p s = true -> all_chars q s = true.
Proof.
  intros Hpq. induction s as [|c s IH]; [reflexivity|].
  cbn [all_chars]. intros H. apply andb_prop in H as [H1 H2].
  rewrite (Hpq c H1), (IH H2). reflexivity.
Qed.

Lemma digit_is_no_line_feed (c : ascii) :
  is_digit c = true -> negb (Ascii.eqb c line_feed) = true.
Proof.
  destruct (Ascii.eqb_spec c line_feed) as [->|_]; [discriminate|reflexivity].
Qed.

Lemma chomp_id (s : string) :
  all_chars (fun c => negb (Ascii.eqb c line_feed)) s = true -> chomp s = s.
Proof.
  induction s as [|c s IH]; [reflexivity|].
  cbn [all_chars]. intros H. apply andb_prop in H as [H1 H2].
  cbn [chomp]. destruct s as [|d s].
  - destruct (Ascii.eqb c line_feed); [discriminate|reflexivity].
  - rewrite (IH H2). reflexivity.
Qed.

(** X14.  A line of grep output, a file name, a colon, a line number, a
    colon and the matched text, is taken apart as it was put together,
    provided the file name is not empty and has no colon in it, and
    neither it nor the text holds a line feed; the text may hold anything
    else, colons and numbers included. *)
Theorem grep_line_round_trip :
  forall (file number content : string),
    file <> EmptyString ->
    all_chars (fun c => negb (Ascii.eqb c ":")) file = true ->
    all_chars (fun c => negb (Ascii.eqb c line_feed)) file = true ->
    number <> EmptyString ->
    all_chars is_digit number = true ->
    all_chars (fun c => negb (Ascii.eqb c line_feed)) content = true ->
    grep_line (file ++ ":" ++ number ++ ":" ++ content)
    = Some (file, number, content).
Proof.
  intros file number content Hne Hf Hfl Hn Hd Hcl. unfold grep_line.
  assert (Hl : all_chars (fun c => negb (Ascii.eqb c line_feed))
                 (file ++ ":" ++ number ++ ":" ++ content) = true).
  { rewrite !all_chars_append, Hfl, Hcl.
    rewrite (all_chars_impl _ _ number digit_is_no_line_feed Hd).
    reflexivity. }
  rewrite (chomp_id _ Hl), Hl.
  rewrite match_from_found; auto.
Qed.

Lemma grep_line_round_trip_witness :
  grep_line ("src/main.py" ++ ":" ++ "12" ++ ":" ++ "x = 1:2:3")
  = Some ("src/main.py", "12", "x = 1:2:3").
Proof.
  apply (grep_line_round_trip "src/main.py" "12" "x = 1:2:3").
  - discriminate.
  - reflexivity.
  - reflexivity.
  - discriminate.
  - reflexivity.
  - reflexivity.
Defined.

End SearchOutput.

Section Tree.

Import NavigationTools CodebaseIndexer.

(** Induction over a tree, with the property known of all children. *)
Lemma FileNode_forall_ind (P : FileNode -> Prop) :
  (forall name path is_dir children size,
      Forall P children -> P (mkNode name path is_dir children size)) ->
  forall node, P node.
Proof.
  intros H. fix IH 1. intros [name path is_dir children size].
  apply H. induction children as [|child rest IHc]; constructor.
  - apply IH.
  - exact IHc.
Qed.

Lemma build_tree_string_unfold name path is_dir children size prefix is_last :
  build_tree_string (mkNode name path is_dir children size) prefix is_last
  = (prefix ++ connector is_last ++ name)
      :: build_children children (prefix ++ extension is_last).
Proof.
  cbn [build_tree_string]. f_equal.
  induction children as [|child rest IH]; [reflexivity|].
  cbn [build_children]. rewrite <- IH. reflexivity.
Qed.

Lemma preorder_unfold name path is_dir children size :
  preorder (mkNode name path is_dir children size)
  = mkNode name path is_dir children size :: flat_map preorder children.
Proof.
  reflexivity.
Qed.

Lemma build_tree_string_lines node : forall prefix is_last,
  Forall2 (fun line n => exists lead, line = lead ++ node_name n)
    (build_tree_string node prefix is_last) (preorder node).
Proof.
  induction node as [name path is_dir children size IH]
    using FileNode_forall_ind.
  intros prefix is_last.
  rewrite build_tree_string_unfold, preorder_unfold.
  constructor.
  - exists (prefix ++ connector is_last). cbn [node_name].
    rewrite append_assoc. reflexivity.
  - generalize (prefix ++ extension is_last). intros pre.
    induction IH as [|child rest Hc _ IHrest]; [constructor|].
    cbn [build_children flat_map]. apply Forall2_app; [apply Hc|exact IHrest].
Qed.

(** X15.  The project tree is drawn with one line for every file and
    directory, the root first and each directory before what it holds,
    in the order of the index; every line ends with the name of its
    node. *)
Theorem tree_has_a_line_per_node :
  forall (file_tree : FileNode),
    Forall2 (fun line n => exists lead, line = lead ++ node_name n)
      (tree_lines file_tree) (preorder file_tree)
    /\ List.length (tree_lines file_tree) = List.length (preorder file_tree).
Proof.
  intros file_tree.
  assert (Forall2 (fun line n => exists lead, line = lead ++ node_name n)
            (tree_lines file_tree) (preorder file_tree)) as H.
  { destruct file_tree as [name path is_dir children size].
    unfold tree_lines. rewrite preorder_unfold. cbn [node_name node_children].
    constructor; [exists EmptyString; reflexivity|].
    induction children as [|child rest IH]; [constructor|].
    cbn [build_children flat_map].
    apply Forall2_app; [apply build_tree_string_lines|exact IH]. }
  split; [exact H|]. eapply Forall2_length, H.
Qed.

End Tree.

(** ** The tool-calling loop, with any agent *)

Section LoopMore.

Import Py GeminiClient.

Context {Args Value N G : Type}.
Variable T : Tools Args Value N G.
Variable a : agent Args Value.

Local Abbreviation six_tools :=
  ["read_file"; "search_symbol"; "find_usages"; "get_imports";
   "get_file_tree"; "search_text"].

Lemma map_get_known name f :
  map_get name (function_map T) = Some f -> In name six_tools.
Proof.
  unfold function_map. cbn [map_get].
  repeat match goal with
  | |- context [String.eqb name ?s] =>
      destruct (String.eqb_spec name s) as [->|_]; [intros _; simpl; tauto|]
  end.
  discriminate.
Qed.

Lemma execute_function_known (self : client Value N G) name args v self1 :
  _execute_function T self name args = (inr v, self1) -> In name six_tools.
Proof.
  unfold _execute_function.
  destruct (navigation_tools self) as [nav|]; [|discriminate].
  destruct (map_get name (function_map T)) as [f|] eqn:M; [|discriminate].
  intros _. eapply map_get_known, M.
Qed.

(** One turn of tool calls: a response for each call, and a history entry
    for each call that returned, all of them calls of one of the six
    tools. *)
Lemma execute_calls_history calls : forall h (self : client Value N G),
  exists hmore,
    snd (fst (execute_calls T calls h self)) = (h ++ hmore)%list
    /\ Forall (fun e => In (h_function e) six_tools) hmore
    /\ List.length hmore <= List.length calls
    /\ List.length (fst (fst (execute_calls T calls h self)))
       = List.length calls.
Proof.
  induction calls as [|fc rest IH]; intros h self.
  - exists []. cbn. rewrite app_nil_r. auto.
  - cbn [execute_calls].
    destruct (_execute_function T self (fc_name fc) (fc_args fc))
      as [[e|v] self1] eqn:E.
    + destruct (IH h self1) as (hmore & H1 & H2 & H3 & H4).
      destruct (execute_calls T rest h self1) as [[frs h'] self2].
      cbn [fst snd] in *. exists hmore. cbn [List.length].
      repeat split; auto; lia.
    + destruct (IH (h ++ [mkEntry (fc_name fc) (fc_args fc)
                            (result_preview T v)])%list self1)
        as (hmore & H1 & H2 & H3 & H4).
      destruct (execute_calls T rest _ self1) as [[frs h'] self2].
      cbn [fst snd] in *.
      exists (mkEntry (fc_name fc) (fc_args fc) (result_preview T v) :: hmore).
      rewrite H1, <- app_assoc. cbn [List.length app].
      repeat split; auto; try lia.
      constructor; [|exact H2]. cbn [h_function].
      eapply execute_function_known, E.
Qed.

Lemma admission_chat (self : client Value N G) :
  chat (snd (admission T self)) = chat self
  /\ (forall stop res,
        fst (admission T self) = Some stop -> stop <> Returned res).
Proof.
  unfold admission. destruct (enable_rate_limiting self).
  - destruct (acquire T 30 (rate_limiter self)) as [[| | |] g];
      cbn; (split; [reflexivity|]); intros stop res E;
      try discriminate; injection E as <-; discriminate.
  - cbn. split; [reflexivity|discriminate].
Qed.

Lemma tool_loop_shape : forall remaining iterations0 r h tk
    (self : client Value N G) c0 res self',
  chat self = Some c0 ->
  tool_loop T a remaining iterations0 r h tk self = (Returned res, self') ->
  (iterations0 <= iterations res <= iterations0 + Z.of_nat remaining)%Z
  /\ (exists more,
         chat self' = Some (c0 ++ more)%list
         /\ List.length more = Z.to_nat (iterations res - iterations0)
         /\ Forall (fun m => exists parts,
                       m = FunctionResponses parts /\ parts <> []) more)
  /\ (exists hmore rlast tk',
         res = make_result rlast (h ++ hmore)%list (iterations res) tk'
         /\ Forall (fun e => In (h_function e) six_tools) hmore
         /\ (iterations res = iterations0 -> hmore = [])).
Proof.
  induction remaining as [|k IH];
    intros iterations0 r h tk self c0 res self' Hc E.
  - cbn [tool_loop] in E. injection E as <- <-. cbn [iterations make_result].
    split; [lia|]. split.
    + exists []. rewrite app_nil_r, Z.sub_diag. auto.
    + exists [], r, tk. rewrite app_nil_r. auto.
  - cbn [tool_loop] in E.
    destruct (requested_calls r) as [|fc l] eqn:RC.
    + injection E as <- <-. cbn [iterations make_result].
      split; [lia|]. split.
      * exists []. rewrite app_nil_r, Z.sub_diag. auto.
      * exists [], r, tk. rewrite app_nil_r. auto.
    + pose proof (execute_calls_frame T (fc :: l) h self) as F.
      pose proof (execute_calls_history (fc :: l) h self)
        as (hmore & H1 & H2 & _ & H4).
      destruct (execute_calls T (fc :: l) h self) as [[frs h1] self1].
      cbn [fst snd] in F, H1, H4. destruct F as (_ & _ & _ & F4).
      pose proof (admission_chat self1) as [AC AS].
      destruct (admission T self1) as [[stop|] self2];
        [injection E as -> <-; destruct (AS _ res eq_refl); reflexivity|].
      cbn [snd] in AC.
      unfold send_message in E. rewrite AC, F4, Hc in E.
      destruct (a (c0 ++ [FunctionResponses frs])%list) as [e|r1];
        [discriminate|].
      apply (IH _ _ _ _ _ (c0 ++ [FunctionResponses frs])%list) in E;
        [|reflexivity].
      destruct E
        as (Hit & (more & M1 & M2 & M3) & (hm & rl & tk' & R1 & R2 & _)).
      split; [lia|]. split.
      * exists (FunctionResponses frs :: more).
        rewrite M1, <- app_assoc. split; [reflexivity|].
        split; [cbn [List.length]; lia|].
        constructor; [|exact M3]. exists frs. split; [reflexivity|].
        destruct frs; [discriminate|discriminate].
      * exists (hmore ++ hm)%list, rl, tk'. subst h1.
        rewrite app_assoc. split; [exact R1|].
        split; [apply Forall_app; auto|]. intros H0. lia.
Qed.

(** A review that returns has sent the initial context first. *)
Lemma review_code_shape (self self' : client Value N G) ctx max_iterations
    res :
  review_code T a self ctx max_iterations = (Returned res, self') ->
  (0 <= iterations res <= 0 + Z.of_nat (Z.to_nat max_iterations))%Z
  /\ (exists more,
         chat self' = Some ([InitialContext ctx] ++ more)%list
         /\ List.length more = Z.to_nat (iterations res - 0)
         /\ Forall (fun m => exists parts,
                       m = FunctionResponses parts /\ parts <> []) more)
  /\ (exists hmore rlast tk',
         res = make_result rlast ([] ++ hmore)%list (iterations res) tk'
         /\ Forall (fun e => In (h_function e) six_tools) hmore
         /\ (iterations res = 0%Z -> hmore = [])).
Proof.
  intros E. unfold review_code in E.
  destruct (navigation_tools self) as [nav|]; [|discriminate].
  pose proof (admission_chat (set_chat self [])) as [AC AS].
  destruct (admission T (set_chat self [])) as [[stop|] self1];
    [injection E as -> <-; destruct (AS _ res eq_refl); reflexivity|].
  cbn [snd chat set_chat] in AC.
  unfold send_message in E. rewrite AC in E. cbn [app] in E.
  destruct (a [InitialContext ctx]) as [e|r]; [discriminate|].
  apply (tool_loop_shape _ _ _ _ _ _ [InitialContext ctx]) in E;
    [exact E|reflexivity].
Qed.

Lemma count_history_disjoint (h : list (history_entry Args)) :
  count_history ["read_file"] h
  + count_history ["search_symbol"; "find_usages"] h
  <= List.length h.
Proof.
  unfold count_history. induction h as [|e h IH]; [simpl; lia|].
  cbn [List.filter List.existsb List.length] in IH |- *.
  destruct (String.eqb_spec (h_function e) "read_file") as [E|_].
  - rewrite E.
    change ("read_file" =? "search_symbol")%string with false.
    change ("read_file" =? "find_usages")%string with false.
    cbn [orb List.length]. lia.
  - destruct (String.eqb (h_function e) "search_symbol"),
             (String.eqb (h_function e) "find_usages");
      cbn [orb List.length]; lia.
Qed.

End LoopMore.

(** X16.  Whatever the agent answers, a review that returns has made
    between 0 and [max_iterations] tool turns, and it has sent the
    initial context followed by one message of function responses for
    each turn, none of them empty.  With [max_iterations] at 0 or below,
    no tool is run at all: the first response is the review, even when it
    asks for tools. *)
Theorem review_shape :
  forall (Args Value N G : Type) (T : GeminiClient.Tools Args Value N G)
         (a : GeminiClient.agent Args Value)
         (self self' : GeminiClient.client Value N G) (ctx : string)
         (max_iterations : Z) (res : GeminiClient.result Args),
    GeminiClient.review_code T a self ctx max_iterations
      = (GeminiClient.Returned res, self') ->
    (0 <= GeminiClient.iterations res <= Z.max 0 max_iterations)%Z
    /\ (exists more,
           GeminiClient.chat self'
             = Some (GeminiClient.InitialContext ctx :: more)
           /\ List.length more = Z.to_nat (GeminiClient.iterations res)
           /\ Forall (fun m => exists parts,
                         m = GeminiClient.FunctionResponses parts
                         /\ parts <> []) more)
    /\ ((max_iterations <= 0)%Z ->
        GeminiClient.iterations res = 0%Z
        /\ GeminiClient.navigation_history res = []).
Proof.
  intros Args Value N G T a self self' ctx max_iterations res E.
  destruct (review_code_shape T a self self' ctx max_iterations res E)
    as (Hit & (more & M1 & M2 & M3) & (hmore & rlast & tk' & R1 & _ & R3)).
  split; [lia|]. split.
  - exists more. rewrite Z.sub_0_r in M2. auto.
  - intros Hmax.
    assert (H0 : GeminiClient.iterations res = 0%Z) by lia.
    split; [exact H0|]. rewrite R1, (R3 H0). reflexivity.
Qed.

Lemma review_shape_witness :
  (0 <= 1 <= Z.max 0 1)%Z
  /\ (exists more,
         GeminiClient.chat
           (snd (GeminiClient.review_code Examples.demo_tools
                   (GeminiClient.scripted Examples.never_stops)
                   Examples.demo_client "ctx" 1))
         = Some (GeminiClient.InitialContext "ctx" :: more)
         /\ List.length more = Z.to_nat 1
         /\ Forall (fun m => exists parts,
                       m = GeminiClient.FunctionResponses parts
                       /\ parts <> []) more)
  /\ ((1 <= 0)%Z ->
      1%Z = 0%Z
      /\ GeminiClient.navigation_history
           (GeminiClient.make_result
              (Examples.never_stops 1)
              [GeminiClient.mkEntry "read_file" [("filepath", "main.py")]
                 "import os"] 1 (GeminiClient.mkTokens 20 10 30)) = []).
Proof.
  refine (review_shape _ _ _ _ Examples.demo_tools
            (GeminiClient.scripted Examples.never_stops)
            Examples.demo_client _ "ctx" 1
            (GeminiClient.make_result
               (Examples.never_stops 1)
               [GeminiClient.mkEntry "read_file" [("filepath", "main.py")]
                  "import os"] 1 (GeminiClient.mkTokens 20 10 30)) _).
  vm_compute. reflexivity.
Defined.

(** X17.  The navigation history of a review that returns holds only
    calls of the six navigation tools, since a call of any other name
    fails and leaves no entry; and the summary adds up: the calls counted
    are all the entries of the history, and the files explored and the
    symbols searched are among them, none counted twice. *)
Theorem history_and_summary :
  forall (Args Value N G : Type) (T : GeminiClient.Tools Args Value N G)
         (a : GeminiClient.agent Args Value)
         (self self' : GeminiClient.client Value N G) (ctx : string)
         (max_iterations : Z) (res : GeminiClient.result Args),
    GeminiClient.review_code T a self ctx max_iterations
      = (GeminiClient.Returned res, self') ->
    Forall (fun e =>
              In (GeminiClient.h_function e)
                ["read_file"; "search_symbol"; "find_usages"; "get_imports";
                 "get_file_tree"; "search_text"])
      (GeminiClient.navigation_history res)
    /\ GeminiClient.total_navigation_calls (GeminiClient.summary res)
       = List.length (GeminiClient.navigation_history res)
    /\ GeminiClient.total_files_explored (GeminiClient.summary res)
       + GeminiClient.symbols_searched (GeminiClient.summary res)
       <= GeminiClient.total_navigation_calls (GeminiClient.summary res).
Proof.
  intros Args Value N G T a self self' ctx max_iterations res E.
  destruct (review_code_shape T a self self' ctx max_iterations res E)
    as (_ & _ & (hmore & rlast & tk' & R1 & R2 & _)).
  rewrite R1. cbn [app GeminiClient.navigation_history
                   GeminiClient.make_result GeminiClient.summary
                   GeminiClient.total_navigation_calls
                   GeminiClient.total_files_explored
                   GeminiClient.symbols_searched].
  split; [exact R2|]. split; [reflexivity|].
  apply count_history_disjoint.
Qed.

Lemma history_and_summary_witness :
  Forall (fun e =>
            In (GeminiClient.h_function e)
              ["read_file"; "search_symbol"; "find_usages"; "get_imports";
               "get_file_tree"; "search_text"])
    [GeminiClient.mkEntry "read_file" [("filepath", "main.py")] "import os"].
Proof.
  refine (proj1 (history_and_summary _ _ _ _ Examples.demo_tools
                   (GeminiClient.scripted Examples.never_stops)
                   Examples.demo_client _ "ctx" 1
                   (GeminiClient.make_result
                      (Examples.never_stops 1)
                      [GeminiClient.mkEntry "read_file"
                         [("filepath", "main.py")] "import os"]
                      1 (GeminiClient.mkTokens 20 10 30)) _)).
  vm_compute. reflexivity.
Defined.

(** ** Clients and the limiter registry *)

Section ClientMore.

Import Py GeminiClient.

Context {Args Value N G : Type}.
Variable T : Tools Args Value N G.
Variable a : agent Args Value.

(** With rate limiting off, the loop leaves the limiter alone and stops
    only by returning or on an exception of the agent. *)
Lemma tool_loop_unlimited : forall remaining iterations0 r h tk
    (self : client Value N G) o self',
  enable_rate_limiting self = false ->
  tool_loop T a remaining iterations0 r h tk self = (o, self') ->
  rate_limiter self' = rate_limiter self
  /\ match o with
     | Returned _ => True
     | Raised e => exists sent, a sent = inl e
     | Blocked => False
     end.
Proof.
  induction remaining as [|k IH]; intros iterations0 r h tk self o self' Hoff E.
  - cbn [tool_loop] in E. injection E as <- <-. auto.
  - cbn [tool_loop] in E.
    destruct (requested_calls r) as [|fc l]; [injection E as <- <-; auto|].
    pose proof (execute_calls_frame T (fc :: l) h self) as F.
    destruct (execute_calls T (fc :: l) h self) as [[frs h1] self1].
    cbn [fst snd] in F. destruct F as (_ & F2 & F3 & _).
    unfold admission in E. rewrite F2, Hoff in E.
    unfold send_message in E.
    destruct (a _) as [e|r1] eqn:A.
    + injection E as <- <-. cbn [rate_limiter set_chat].
      split; [exact F3|]. eexists. exact A.
    + apply IH in E; [|cbn [enable_rate_limiting set_chat]; congruence].
      cbn [rate_limiter set_chat] in E. rewrite F3 in E. exact E.
Qed.

End ClientMore.

(** X18.  A client made with rate limiting off never asks the limiter:
    a review leaves the limiter as it was and never waits for it, and it
    ends by returning, by the error of missing navigation tools, or by an
    exception that the model call raised. *)
Theorem unlimited_review :
  forall (Args Value N G : Type) (T : GeminiClient.Tools Args Value N G)
         (a : GeminiClient.agent Args Value)
         (self self' : GeminiClient.client Value N G) (ctx : string)
         (max_iterations : Z) (o : GeminiClient.outcome Args),
    GeminiClient.enable_rate_limiting self = false ->
    GeminiClient.review_code T a self ctx max_iterations = (o, self') ->
    GeminiClient.rate_limiter self' = GeminiClient.rate_limiter self
    /\ match o with
       | GeminiClient.Returned _ => True
       | GeminiClient.Raised e =>
           GeminiClient.navigation_tools self = None
           \/ exists sent, a sent = inl e
       | GeminiClient.Blocked => False
       end.
Proof.
  intros Args Value N G T a self self' ctx max_iterations o Hoff E.
  unfold GeminiClient.review_code in E.
  destruct (GeminiClient.navigation_tools self) as [nav|];
    [|injection E as <- <-; auto].
  unfold GeminiClient.admission in E.
  cbn [GeminiClient.enable_rate_limiting GeminiClient.set_chat] in E.
  rewrite Hoff in E. unfold GeminiClient.send_message in E.
  destruct (a _) as [e|r] eqn:A.
  - injection E as <- <-. split; [reflexivity|]. right. eexists. exact A.
  - apply tool_loop_unlimited in E; [|exact Hoff].
    destruct E as [E1 E2]. split; [exact E1|].
    destruct o; auto.
Qed.

Lemma unlimited_review_witness :
  GeminiClient.rate_limiter
    (snd (GeminiClient.review_code Examples.demo_tools
            (GeminiClient.scripted Examples.three_then_final)
            MoreExamples.unlimited_client "ctx" 20))
  = GeminiClient.rate_limiter MoreExamples.unlimited_client.
Proof.
  refine (proj1 (unlimited_review _ _ _ _ Examples.demo_tools
                   (GeminiClient.scripted Examples.three_then_final)
                   MoreExamples.unlimited_client _ "ctx" 20
                   (fst (GeminiClient.review_code Examples.demo_tools
                           (GeminiClient.scripted Examples.three_then_final)
                           MoreExamples.unlimited_client "ctx" 20))
                   _ _)).
  - reflexivity.
  - apply surjective_pairing.
Defined.

(** X19.  Two clients made one after the other for model names of one
    canonical key hold the same limiter object: the second constructor
    finds the limiter of the first in the registry and leaves the registry
    as it was, so the reviews of both draw on one bucket. *)
Theorem clients_share_limiter :
  forall (Value N : Type) (api_key1 env_key1 api_key2 env_key2 : option string)
         (model_name1 model_name2 : string) (now1 now2 : Q)
         (manager manager1 manager2 : RateLimitManager.t)
         (c1 c2 : GeminiClient.client Value N (option nat)),
    RateLimitManager.wf manager ->
    ModelRateLimits.get_rpm_and_prefix model_name1 "tier1"
      = ModelRateLimits.get_rpm_and_prefix model_name2 "tier1" ->
    GeminiClient.init api_key1 env_key1 model_name1 true now1 manager
      = (inr c1, manager1) ->
    GeminiClient.init api_key2 env_key2 model_name2 true now2 manager1
      = (inr c2, manager2) ->
    manager2 = manager1
    /\ GeminiClient.rate_limiter c2 = GeminiClient.rate_limiter c1
    /\ exists ref l,
         GeminiClient.rate_limiter c1 = Some ref
         /\ RateLimitManager.objects manager1 !! ref = Some l.
Proof.
  intros Value N k1 e1 k2 e2 m1 m2 now1 now2 mgr mgr1 mgr2 c1 c2 W0 Hsame
    I1 I2.
  unfold GeminiClient.init in I1, I2.
  destruct (negb _) in I1; [discriminate|].
  destruct (negb _) in I2; [discriminate|].
  destruct (ModelRateLimits.get_rpm_and_prefix m1 "tier1")
    as [e|[rpm canon]] eqn:P1.
  { unfold RateLimitManager.get_limiter in I1. rewrite P1 in I1.
    discriminate. }
  symmetry in Hsame.
  destruct (get_limiter_stores m1 "tier1" now1 mgr rpm canon P1)
    as (ref & G1 & G2).
  destruct (RateLimitManager.get_limiter m1 "tier1" now1 mgr)
    as [[e|ref1] mgr1'] eqn:GL1; [discriminate|].
  cbn [fst snd] in G1, G2. injection G1 as ->. injection I1 as <- <-.
  rewrite (get_limiter_hit m2 "tier1" now2 mgr1' rpm canon ref Hsame G2)
    in I2.
  injection I2 as <- <-. cbn [GeminiClient.rate_limiter].
  split; [reflexivity|]. split; [reflexivity|].
  assert (W : RateLimitManager.wf mgr1').
  { replace mgr1' with
      (snd (RateLimitManager.get_limiter m1 "tier1" now1 mgr))
      by (rewrite GL1; reflexivity).
    apply get_limiter_wf, W0. }
  destruct W as [W1 _]. apply W1 in G2.
  apply lookup_lt_is_Some in G2. destruct G2 as [l Hl].
  exists ref, l. auto.
Qed.

Lemma clients_share_limiter_witness :
  snd (GeminiClient.init (Value := unit) (N := unit) None (Some "key")
         "Gemini-2.5-Pro" true 5%Q
         (snd (GeminiClient.init (Value := unit) (N := unit) (Some "key") None
                 "gemini-2.5-pro-001" true 0%Q RateLimitManager.init)))
  = snd (GeminiClient.init (Value := unit) (N := unit) (Some "key") None
           "gemini-2.5-pro-001" true 0%Q RateLimitManager.init).
Proof.
  refine (proj1 (clients_share_limiter unit unit (Some "key") None
                   None (Some "key") "gemini-2.5-pro-001" "Gemini-2.5-Pro"
                   0%Q 5%Q RateLimitManager.init _ _
                   {| GeminiClient.model_name := "gemini-2.5-pro-001";
                      GeminiClient.enable_rate_limiting := true;
                      GeminiClient.navigation_tools := None;
                      GeminiClient.rate_limiter := Some 0;
                      GeminiClient.chat := None |}
                   {| GeminiClient.model_name := "Gemini-2.5-Pro";
                      GeminiClient.enable_rate_limiting := true;
                      GeminiClient.navigation_tools := None;
                      GeminiClient.rate_limiter := Some 0;
                      GeminiClient.chat := None |} _ _ _ _)).
  - split; intros *; cbn; rewrite lookup_empty; discriminate.
  - vm_compute. reflexivity.
  - vm_compute. reflexivity.
  - vm_compute. reflexivity.
Defined.

(** ** Sessions over their life *)

Section SessionsMore.

Import Py ReviewerService.

Context {Args Value N G : Type}.

Local Abbreviation sessions := (gmap string (session Value N G)).

(** What [review_in_session] leaves under its key: the session it was
    given, but for the client and, after a review that is answered, the
    count of issues. *)
Lemma review_in_session_stored (env : Env Args Value N G) request root key
    display status0 previous s (m : sessions) :
  m !! key = Some s ->
  exists s',
    snd (review_in_session env request root key display status0 previous s m)
      !! key = Some s'
    /\ s_display_name s' = s_display_name s
    /\ s_project_root s' = s_project_root s
    /\ s_iteration s' = s_iteration s
    /\ s_created_at s' = s_created_at s
    /\ s_last_reviewed s' = s_last_reviewed s
    /\ match
         fst (review_in_session env request root key display status0
                previous s m)
       with
       | OK r =>
           exists content,
             GeminiClient.review_content (review_result r) = Some content
             /\ s_last_issues_count s'
                = Some (count_issues_in_review content)
       | _ => s_last_issues_count s' = s_last_issues_count s
       end.
Proof.
  intros Hm. unfold review_in_session.
  destruct (env_new_nav env root) as [e|nav];
    [exists s; cbn [fst snd]; repeat split; auto|].
  destruct (GeminiClient.review_code _ _ _ _ _) as [[res|e|] c2];
    cbn [fst snd]; try rewrite lookup_insert_eq;
    try (eexists; split; [reflexivity|]; cbn; repeat split; reflexivity).
  destruct (GeminiClient.review_content res) as [content|] eqn:C;
    cbn [fst snd]; rewrite lookup_insert_eq;
    (eexists; split; [reflexivity|]); cbn; repeat split; try reflexivity.
  exists content. auto.
Qed.

(** The answer of [review_in_session], when there is one, reports the
    session it was given. *)
Lemma review_in_session_info (env : Env Args Value N G) request root key
    display status0 previous s (m : sessions) r :
  fst (review_in_session env request root key display status0 previous s m)
  = OK r ->
  name (session_info r) = display
  /\ status (session_info r) = status0
  /\ iteration (session_info r) = s_iteration s
  /\ previous_issues_count (session_info r) = previous.
Proof.
  unfold review_in_session.
  destruct (env_new_nav env root) as [e|nav]; [discriminate|].
  destruct (GeminiClient.review_code _ _ _ _ _) as [[res|e|] c2];
    try discriminate.
  destruct (GeminiClient.review_content res) as [content|]; [|discriminate].
  cbn [fst]. intros [= <-]. cbn. auto.
Qed.

(** The session a request with an accepted root works on, once it has
    one: the stored one moved on, or a new one. *)
Lemma handle_review_stored (env : Env Args Value N G) request root
    (m : sessions) c :
  validate_project_root env (project_root request) = inr root ->
  let key := session_key root (session_name request) in
  (m !! key = None ->
   env_new_client env (model_name request) (debug request) = inr c) ->
  let s :=
    match m !! key with
    | Some s0 => continue_session env s0
    | None =>
        {| s_client := c;
           s_display_name := session_name request;
           s_project_root := PosixPath.str root;
           s_created_at := env_now env;
           s_last_reviewed := env_now env;
           s_iteration := 1;
           s_model_name := model_name request;
           s_chat_history := [];
           s_last_issues_count := None |}
    end in
  exists s',
    snd (handle_review env request m) !! key = Some s'
    /\ s_display_name s' = s_display_name s
    /\ s_project_root s' = s_project_root s
    /\ s_iteration s' = s_iteration s
    /\ s_created_at s' = s_created_at s
    /\ s_last_reviewed s' = s_last_reviewed s
    /\ match fst (handle_review env request m) with
       | OK r =>
           exists content,
             GeminiClient.review_content (review_result r) = Some content
             /\ s_last_issues_count s'
                = Some (count_issues_in_review content)
       | _ => s_last_issues_count s' = s_last_issues_count s
       end.
Proof.
  intros Hv key Hc s. unfold handle_review. rewrite Hv. fold key.
  subst s. destruct (m !! key) as [s0|] eqn:L.
  - apply review_in_session_stored. apply lookup_insert_eq.
  - unfold create_new_session. rewrite (Hc eq_refl).
    apply review_in_session_stored. apply lookup_insert_eq.
Qed.

(** What an answered request reports, and what it leaves for the next
    one. *)
Lemma handle_review_answered (env : Env Args Value N G) request root
    (m : sessions) r :
  validate_project_root env (project_root request) = inr root ->
  fst (handle_review env request m) = OK r ->
  let key := session_key root (session_name request) in
  previous_issues_count (session_info r)
  = match m !! key with
    | Some s0 => s_last_issues_count s0
    | None => None
    end
  /\ status (session_info r)
     = match m !! key with Some _ => "continued" | None => "new" end
  /\ iteration (session_info r)
     = match m !! key with Some s0 => (s_iteration s0 + 1)%Z | None => 1%Z end
  /\ exists s' content,
       snd (handle_review env request m) !! key = Some s'
       /\ s_iteration s' = iteration (session_info r)
       /\ GeminiClient.review_content (review_result r) = Some content
       /\ s_last_issues_count s' = Some (count_issues_in_review content).
Proof.
  intros Hv Hr key. revert Hr. unfold handle_review. rewrite Hv. fold key.
  destruct (m !! key) as [s0|] eqn:L.
  - intros Hr.
    pose proof (review_in_session_info _ _ _ _ _ _ _ _ _ _ Hr)
      as (_ & I2 & I3 & I4).
    match type of Hr with
    | fst (review_in_session ?e ?rq ?rt ?ky ?d ?st ?pv ?s1 ?m0) = _ =>
        destruct (review_in_session_stored e rq rt ky d st pv s1 m0
                    (lookup_insert_eq _ _ _))
          as (s' & H1 & _ & _ & H4 & _ & _ & H7)
    end.
    rewrite Hr in H7. destruct H7 as (content & C1 & C2).
    repeat split; auto.
    exists s', content. rewrite I3. auto.
  - unfold create_new_session.
    destruct (env_new_client env _ _) as [e|c]; [discriminate|].
    intros Hr.
    pose proof (review_in_session_info _ _ _ _ _ _ _ _ _ _ Hr)
      as (_ & I2 & I3 & I4).
    match type of Hr with
    | fst (review_in_session ?e ?rq ?rt ?ky ?d ?st ?pv ?s1 ?m0) = _ =>
        destruct (review_in_session_stored e rq rt ky d st pv s1 m0
                    (lookup_insert_eq _ _ _))
          as (s' & H1 & _ & _ & H4 & _ & _ & H7)
    end.
    rewrite Hr in H7. destruct H7 as (content & C1 & C2).
    repeat split; auto.
    exists s', content. rewrite I3. auto.
Qed.

Lemma handle_review_ok (env : Env Args Value N G) request (m : sessions) :
  sessions_ok m -> sessions_ok (snd (handle_review env request m)).
Proof.
  intros Hok k s Hk.
  destruct (validate_project_root env (project_root request))
    as [refused|root] eqn:Hv.
  { unfold handle_review in Hk. rewrite Hv in Hk. apply Hok, Hk. }
  destruct (decide (k = session_key root (session_name request)))
    as [->|Hne].
  - destruct (m !! session_key root (session_name request)) as [s0|] eqn:L.
    + unfold handle_review in Hk. rewrite Hv, L in Hk.
      destruct (review_in_session_stored env request root
                  (session_key root (session_name request))
                  (session_name request) "continued"
                  (s_last_issues_count (continue_session env s0))
                  (continue_session env s0)
                  (<[session_key root (session_name request)
                     := continue_session env s0]> m)
                  (lookup_insert_eq _ _ _))
        as (s' & H1 & H2 & H3 & H4 & _).
      rewrite H1 in Hk. injection Hk as <-.
      destruct (Hok _ _ L) as [K1 K2].
      split; [rewrite H2, H3; exact K1|].
      rewrite H4. cbn [s_iteration continue_session]. lia.
    + unfold handle_review in Hk. rewrite Hv, L in Hk.
      unfold create_new_session in Hk.
      destruct (env_new_client env _ _) as [e|c];
        [cbn [snd] in Hk; rewrite L in Hk; discriminate|].
      match type of Hk with
      | snd (review_in_session ?e ?rq ?rt ?ky ?d ?st ?pv ?s0 ?m0) !! _ = _ =>
          destruct (review_in_session_stored e rq rt ky d st pv s0 m0
                      (lookup_insert_eq _ _ _))
            as (s' & H1 & H2 & H3 & H4 & _)
      end.
      rewrite H1 in Hk. injection Hk as <-.
      split; [rewrite H2, H3; reflexivity|]. rewrite H4. cbn. lia.
  - rewrite handle_review_frame in Hk; [apply Hok, Hk|].
    intros root' Hv'. rewrite Hv in Hv'. injection Hv' as <-. exact Hne.
Qed.

Lemma handle_all_ok reqs : forall (m : sessions),
  sessions_ok m -> sessions_ok (handle_all (Args := Args) reqs m).
Proof.
  induction reqs as [|[env request] rest IH]; intros m Hok; [exact Hok|].
  cbn [handle_all]. apply IH, handle_review_ok, Hok.
Qed.

Lemma empty_ok : sessions_ok (∅ : sessions).
Proof. intros k s H. rewrite lookup_empty in H. discriminate. Qed.

Lemma key_is_not_name (root display_name : string) :
  root ++ ":" ++ display_name <> display_name.
Proof.
  intros E. apply (f_equal String.length) in E.
  rewrite !length_append in E. cbn in E. lia.
Qed.

End SessionsMore.

(** X20.  However many requests a service has answered since it started,
    every session it holds is stored under the key made of its own
    project root, a colon and its own display name, and its iteration is
    at least 1. *)
Theorem sessions_stay_keyed :
  forall (Args Value N G : Type)
         (reqs : list (ReviewerService.Env Args Value N G
                       * ReviewerService.ReviewRequest))
         (key : string) (s : ReviewerService.session Value N G),
    ReviewerService.handle_all reqs ∅ !! key = Some s ->
    key = ReviewerService.s_project_root s ++ ":"
            ++ ReviewerService.s_display_name s
    /\ (1 <= ReviewerService.s_iteration s)%Z.
Proof.
  intros Args Value N G reqs key s H.
  exact (handle_all_ok reqs ∅ empty_ok key s H).
Qed.

Lemma sessions_stay_keyed_witness :
  exists s,
    ReviewerService.handle_all
      [(Examples.demo_env, Examples.demo_request "/tmp/repo" "x");
       (Examples.demo_env, Examples.demo_request "/tmp/repo" "x")] ∅
      !! "/tmp/repo:x" = Some s
    /\ "/tmp/repo:x"
       = ReviewerService.s_project_root s ++ ":"
           ++ ReviewerService.s_display_name s
    /\ (1 <= ReviewerService.s_iteration s)%Z.
Proof.
  eexists. split; [vm_compute; reflexivity|].
  apply (sessions_stay_keyed _ _ _ _
           [(Examples.demo_env, Examples.demo_request "/tmp/repo" "x");
            (Examples.demo_env, Examples.demo_request "/tmp/repo" "x")]).
  vm_compute. reflexivity.
Defined.

(** X21.  A session can be looked up only by its composite key: the name
    [get_session] answers with is the key it was asked for, and that is
    never the display name of the session it describes, the name the
    client gave when it asked for the review. *)
Theorem get_session_by_key_only :
  forall (Args Value N G : Type)
         (reqs : list (ReviewerService.Env Args Value N G
                       * ReviewerService.ReviewRequest))
         (unquote : string -> string) (session_name : string)
         (d : ReviewerService.session_details),
    ReviewerService.get_session unquote session_name
      (ReviewerService.handle_all reqs ∅) = ReviewerService.Found d ->
    exists s,
      ReviewerService.handle_all reqs ∅ !! unquote session_name = Some s
      /\ ReviewerService.d_name d = unquote session_name
      /\ ReviewerService.d_name d <> ReviewerService.s_display_name s
      /\ ReviewerService.d_iteration d = ReviewerService.s_iteration s
      /\ (1 <= ReviewerService.d_iteration d)%Z.
Proof.
  intros Args Value N G reqs unquote session_name d.
  unfold ReviewerService.get_session.
  destruct (ReviewerService.handle_all reqs ∅ !! unquote session_name)
    as [s|] eqn:L; [|discriminate].
  intros [= <-]. exists s. cbn.
  destruct (handle_all_ok reqs ∅ empty_ok _ _ L) as [K1 K2].
  repeat split; auto.
  rewrite K1 at 1. apply key_is_not_name.
Qed.

Lemma get_session_by_key_only_witness :
  ReviewerService.get_session (fun s => s) "x"
    (ReviewerService.handle_all
       [(Examples.demo_env, Examples.demo_request "/tmp/repo" "x")] ∅)
  = ReviewerService.NotFound404 "Session 'x' not found"
  /\ exists d s,
       ReviewerService.get_session (fun s => s) "/tmp/repo:x"
         (ReviewerService.handle_all
            [(Examples.demo_env, Examples.demo_request "/tmp/repo" "x")] ∅)
       = ReviewerService.Found d
       /\ ReviewerService.handle_all
            [(Examples.demo_env, Examples.demo_request "/tmp/repo" "x")] ∅
            !! "/tmp/repo:x" = Some s
       /\ ReviewerService.d_name d <> ReviewerService.s_display_name s.
Proof.
  split; [vm_compute; reflexivity|].
  eexists.
  destruct (get_session_by_key_only _ _ _ _
              [(Examples.demo_env, Examples.demo_request "/tmp/repo" "x")]
              (fun s => s) "/tmp/repo:x" _ ltac:(vm_compute; reflexivity))
    as (s & H1 & H2 & H3 & _).
  exists s. split; [vm_compute; reflexivity|]. split; [exact H1|exact H3].
Defined.

(** X22.  The iteration of a session counts requests, not reviews: a
    request with an accepted root leaves its session stored with the
    iteration one higher than before (1 for a new session) and the time of
    the request as the last review, also when the review fails; a request
    that is not answered leaves the count of issues as it was. *)
Theorem every_request_counts :
  forall (Args Value N G : Type) (env : ReviewerService.Env Args Value N G)
         (request : ReviewerService.ReviewRequest) (root : PosixPath.t)
         (m : gmap string (ReviewerService.session Value N G))
         (c : GeminiClient.client Value N G),
    ReviewerService.validate_project_root env
      (ReviewerService.project_root request) = inr root ->
    (m !! ReviewerService.session_key root
            (ReviewerService.session_name request) = None ->
     ReviewerService.env_new_client env (ReviewerService.model_name request)
       (ReviewerService.debug request) = inr c) ->
    exists s',
      snd (ReviewerService.handle_review env request m)
        !! ReviewerService.session_key root
             (ReviewerService.session_name request) = Some s'
      /\ ReviewerService.s_iteration s'
         = match m !! ReviewerService.session_key root
                        (ReviewerService.session_name request) with
           | Some s0 => (ReviewerService.s_iteration s0 + 1)%Z
           | None => 1%Z
           end
      /\ ReviewerService.s_last_reviewed s' = ReviewerService.env_now env
      /\ ((forall r, fst (ReviewerService.handle_review env request m)
                     <> ReviewerService.OK r) ->
          ReviewerService.s_last_issues_count s'
          = match m !! ReviewerService.session_key root
                         (ReviewerService.session_name request) with
            | Some s0 => ReviewerService.s_last_issues_count s0
            | None => None
            end).
Proof.
  intros Args Value N G env request root m c Hv Hc.
  destruct (handle_review_stored env request root m c Hv Hc)
    as (s' & H1 & _ & _ & H4 & _ & H6 & H7).
  exists s'. split; [exact H1|].
  destruct (m !! _) as [s0|]; cbn in H4, H6, H7 |- *;
    (repeat split; auto); intros Hno;
    destruct (fst (ReviewerService.handle_review env request m));
    auto; destruct (Hno _ eq_refl).
Qed.

Lemma every_request_counts_witness :
  exists s',
    ReviewerService.handle_all
      [(MoreExamples.api_down, Examples.demo_request "/tmp/repo" "x");
       (MoreExamples.api_down, Examples.demo_request "/tmp/repo" "x")] ∅
      !! "/tmp/repo:x" = Some s'
    /\ ReviewerService.s_iteration s' = 2%Z.
Proof.
  destruct (every_request_counts _ _ _ _ MoreExamples.api_down
              (Examples.demo_request "/tmp/repo" "x")
              (PosixPath.mk true ["tmp"; "repo"])
              (snd (ReviewerService.handle_review MoreExamples.api_down
                      (Examples.demo_request "/tmp/repo" "x") ∅))
              (Examples.fresh_client "gemini-2.5-pro" false))
    as (s' & H1 & H2 & _).
  - vm_compute. reflexivity.
  - intros _. reflexivity.
  - exists s'. split; [exact H1|]. rewrite H2. vm_compute. reflexivity.
Defined.

(** X23.  The count of previous issues a continued request reports is the
    count of issue markers in the review that answered the request before
    it: of two answered requests in a row for one root and one name, the
    second is continued, has the next iteration, and reports the count of
    the first one's review. *)
Theorem previous_issues_is_last_count :
  forall (Args Value N G : Type)
         (env1 env2 : ReviewerService.Env Args Value N G)
         (request1 request2 : ReviewerService.ReviewRequest)
         (root : PosixPath.t)
         (m : gmap string (ReviewerService.session Value N G))
         (r1 r2 : ReviewerService.ReviewResponse Args),
    ReviewerService.validate_project_root env1
      (ReviewerService.project_root request1) = inr root ->
    ReviewerService.validate_project_root env2
      (ReviewerService.project_root request2) = inr root ->
    ReviewerService.session_name request1
      = ReviewerService.session_name request2 ->
    fst (ReviewerService.handle_review env1 request1 m)
      = ReviewerService.OK r1 ->
    fst (ReviewerService.handle_review env2 request2
           (snd (ReviewerService.handle_review env1 request1 m)))
      = ReviewerService.OK r2 ->
    ReviewerService.status (ReviewerService.session_info r2) = "continued"
    /\ ReviewerService.iteration (ReviewerService.session_info r2)
       = (ReviewerService.iteration (ReviewerService.session_info r1) + 1)%Z
    /\ exists content,
         GeminiClient.review_content (ReviewerService.review_result r1)
           = Some content
         /\ ReviewerService.previous_issues_count
              (ReviewerService.session_info r2)
            = Some (ReviewerService.count_issues_in_review content).
Proof.
  intros Args Value N G env1 env2 request1 request2 root m r1 r2
    Hv1 Hv2 Hn Hr1 Hr2.
  destruct (handle_review_answered env1 request1 root m r1 Hv1 Hr1)
    as (_ & _ & _ & s' & content & S1 & S2 & S3 & S4).
  destruct (handle_review_answered env2 request2 root _ r2 Hv2 Hr2)
    as (P1 & P2 & P3 & _).
  rewrite <- Hn, S1 in P1, P2, P3.
  split; [exact P2|]. split; [rewrite P3, S2; reflexivity|].
  exists content. split; [exact S3|]. rewrite P1. exact S4.
Qed.

Lemma previous_issues_is_last_count_witness :
  exists r2,
    fst (ReviewerService.handle_review Examples.demo_env
           (Examples.demo_request "/tmp/repo" "x")
           (snd (ReviewerService.handle_review Examples.demo_env
                   (Examples.demo_request "/tmp/repo" "x") ∅)))
    = ReviewerService.OK r2
    /\ ReviewerService.status (ReviewerService.session_info r2) = "continued".
Proof.
  eexists. split; [vm_compute; reflexivity|].
  refine (proj1 (previous_issues_is_last_count _ _ _ _
                   Examples.demo_env Examples.demo_env
                   (Examples.demo_request "/tmp/repo" "x")
                   (Examples.demo_request "/tmp/repo" "x")
                   (PosixPath.mk true ["tmp"; "repo"]) ∅ _ _ _ _ _ _ _)).
  - vm_compute. reflexivity.
  - vm_compute. reflexivity.
  - reflexivity.
  - vm_compute. reflexivity.
  - vm_compute. reflexivity.
Defined.

(** X24.  Clearing a session removes that session and no other, a second
    clear of the same name is answered 404, and the next answered review
    for the cleared root and name starts over: it is new, has iteration 1
    and reports no previous issues. *)
Theorem cleared_session_starts_over :
  forall (Args Value N G : Type) (env : ReviewerService.Env Args Value N G)
         (request : ReviewerService.ReviewRequest) (root : PosixPath.t)
         (unquote : string -> string) (session_name : string)
         (m m' : gmap string (ReviewerService.session Value N G))
         (message : string),
    ReviewerService.clear_session unquote session_name m
      = (ReviewerService.Found message, m') ->
    (forall k, k <> unquote session_name -> m' !! k = m !! k)
    /\ size m = S (size m')
    /\ ReviewerService.clear_session unquote session_name m'
       = (ReviewerService.NotFound404
            ("Session '" ++ unquote session_name ++ "' not found"), m')
    /\ (ReviewerService.validate_project_root env
          (ReviewerService.project_root request) = inr root ->
        unquote session_name
          = ReviewerService.session_key root
              (ReviewerService.session_name request) ->
        forall r,
          fst (ReviewerService.handle_review env request m')
            = ReviewerService.OK r ->
          ReviewerService.status (ReviewerService.session_info r) = "new"
          /\ ReviewerService.iteration (ReviewerService.session_info r) = 1%Z
          /\ ReviewerService.previous_issues_count
               (ReviewerService.session_info r) = None).
Proof.
  intros Args Value N G env request root unquote session_name m m' message.
  unfold ReviewerService.clear_session.
  destruct (m !! unquote session_name) as [s|] eqn:L; [|discriminate].
  intros [= _ <-].
  split; [intros k Hk; apply lookup_delete_ne; congruence|].
  split.
  { rewrite <- (insert_delete_id m (unquote session_name) s L) at 1.
    rewrite map_size_insert_None; [reflexivity|apply lookup_delete_eq]. }
  split; [rewrite lookup_delete_eq; reflexivity|].
  intros Hv Hk r Hr.
  destruct (handle_review_answered env request root _ r Hv Hr)
    as (P1 & P2 & P3 & _).
  rewrite <- Hk, lookup_delete_eq in P1, P2, P3. auto.
Qed.

Lemma cleared_session_starts_over_witness :
  size (snd (ReviewerService.handle_review Examples.demo_env
               (Examples.demo_request "/tmp/repo" "x") ∅))
  = S (size (∅ : gmap string
                   (ReviewerService.session Examples.value NavigationTools.t
                      (RateLimiter.t * Clock)))).
Proof.
  refine (proj1 (proj2 (cleared_session_starts_over _ _ _ _
                          Examples.demo_env
                          (Examples.demo_request "/tmp/repo" "x")
                          (PosixPath.mk true ["tmp"; "repo"])
                          (fun s => s) "/tmp/repo:x" _ ∅
                          "Session '/tmp/repo:x' cleared" _))).
  vm_compute. reflexivity.
Defined.

(** ** The continuation preamble *)

Section Preamble.

Import Py ReviewerService.

(** [int(d / u)] for [d] at least [u]: the number of whole units in
    [d]. *)
Lemma whole_units (d : Q) (u : Z) :
  (0 < u)%Z ->
  (inject_Z u <= d)%Q ->
  let n := int_of_Q (d / inject_Z u) in
  (1 <= n)%Z
  /\ (inject_Z n * inject_Z u <= d)%Q
  /\ (d < (inject_Z n + 1) * inject_Z u)%Q.
Proof.
  intros Hu Hd n.
  assert (Hu' : (0 < inject_Z u)%Q)
    by (change 0%Q with (inject_Z 0); rewrite <- Zlt_Qlt; exact Hu).
  assert (Hq : (1 <= d / inject_Z u)%Q).
  { apply Qle_shift_div_l; [exact Hu'|]. lra. }
  assert (Hq0 : (0 <= d / inject_Z u)%Q)
    by (apply Qle_trans with 1%Q; [discriminate|exact Hq]).
  assert (Hn : n = Qfloor (d / inject_Z u)).
  { subst n. unfold int_of_Q.
    apply Qle_bool_iff in Hq0. rewrite Hq0. reflexivity. }
  pose proof (Qfloor_le (d / inject_Z u)) as F1.
  pose proof (Qlt_floor (d / inject_Z u)) as F2.
  rewrite <- Hn in F1, F2.
  assert (E : (d / inject_Z u * inject_Z u == d)%Q)
    by (field; intros Z0; rewrite Z0 in Hu'; discriminate).
  split; [|split].
  - assert (H : (1 < n + 1)%Z); [|lia].
    rewrite (Zlt_Qlt 1 (n + 1)).
    apply Qle_lt_trans with (d / inject_Z u)%Q; [exact Hq|exact F2].
  - apply (Qmult_le_r _ _ (inject_Z u) Hu') in F1.
    rewrite E in F1. exact F1.
  - rewrite inject_Z_plus in F2.
    apply (Qmult_lt_r _ _ (inject_Z u) Hu') in F2.
    rewrite E in F2. exact F2.
Qed.

Lemma Qle_bool_false (x y : Q) : Qle_bool x y = false <-> (y < x)%Q.
Proof.
  split; intros H.
  - apply Qnot_le_lt. intros L. apply Qle_bool_iff in L. congruence.
  - destruct (Qle_bool x y) eqn:B; [|reflexivity].
    apply Qle_bool_iff in B. lra.
Qed.

End Preamble.

(** X25.  [format_time_ago] of a date: less than a minute ago, also a date
    that is still to come, reads "just now"; from there on it counts whole
    minutes from 1 to 59, then whole hours from 1 to 23, then whole days
    from 1 on, each number rounded down and written by [ago]. *)
Theorem format_time_ago_ranges :
  forall (t now : Q),
    ((now - t < 60)%Q /\ ReviewerService.format_time_ago (Some t) now
                         = "just now")
    \/ exists (n u : Z) (unit : string),
         ReviewerService.format_time_ago (Some t) now
           = ReviewerService.ago n unit
         /\ ((unit = "minute" /\ u = 60%Z /\ (n <= 59)%Z)
             \/ (unit = "hour" /\ u = 3600%Z /\ (n <= 23)%Z)
             \/ (unit = "day" /\ u = 86400%Z))
         /\ (1 <= n)%Z
         /\ (inject_Z n * inject_Z u <= now - t)%Q
         /\ (now - t < (inject_Z n + 1) * inject_Z u)%Q.
Proof.
  intros t now. unfold ReviewerService.format_time_ago.
  set (d := (now - t)%Q).
  destruct (Qle_bool 60 d) eqn:B1; cbn [negb].
  2:{ left. split; [apply Qle_bool_false, B1|reflexivity]. }
  right. apply Qle_bool_iff in B1.
  destruct (Qle_bool 3600 d) eqn:B2; cbn [negb].
  2:{ apply Qle_bool_false in B2.
      destruct (whole_units d 60 ltac:(lia) B1) as (N1 & N2 & N3).
      exists (Py.int_of_Q (d / 60)), 60%Z, "minute".
      split; [reflexivity|]. split; [|auto].
      left. repeat split.
      assert (H : (Py.int_of_Q (d / 60) < 60)%Z); [|lia].
      rewrite Zlt_Qlt.
      apply (Qmult_lt_r _ _ (inject_Z 60)); [reflexivity|].
      apply Qle_lt_trans with d; [exact N2|exact B2]. }
  apply Qle_bool_iff in B2.
  destruct (Qle_bool 86400 d) eqn:B3; cbn [negb].
  2:{ apply Qle_bool_false in B3.
      assert (B2' : (inject_Z 3600 <= d)%Q) by exact B2.
      destruct (whole_units d 3600 ltac:(lia) B2') as (N1 & N2 & N3).
      exists (Py.int_of_Q (d / 3600)), 3600%Z, "hour".
      split; [reflexivity|]. split; [|auto].
      right. left. repeat split.
      assert (H : (Py.int_of_Q (d / 3600) < 24)%Z); [|lia].
      rewrite Zlt_Qlt.
      apply (Qmult_lt_r _ _ (inject_Z 3600)); [reflexivity|].
      apply Qle_lt_trans with d; [exact N2|exact B3]. }
  apply Qle_bool_iff in B3.
  assert (B3' : (inject_Z 86400 <= d)%Q) by exact B3.
  destruct (whole_units d 86400 ltac:(lia) B3') as (N1 & N2 & N3).
  exists (Py.int_of_Q (d / 86400)), 86400%Z, "day".
  split; [reflexivity|]. split; [|auto].
  right. right. auto.
Qed.

Section PreambleText.

Import Py ReviewerService.

Context {Value N G : Type}.

(** The preamble, by the count of issues of the session. *)
Lemma build_continuation_context_unfold now (s : session Value N G) ctx
    iteration0 :
  build_continuation_context now s ctx iteration0
  = ("ðŸ”„ Continuing review session (iteration "
       ++ str_of_int iteration0 ++ ")")
    ++ "
" ++ ("ðŸ“… Last reviewed: "
        ++ format_time_ago (Some (s_last_reviewed s)) now)
    ++ "
" ++ "
" ++ match s_last_issues_count s with
     | Some n =>
         if Z.eqb n 0 then ctx
         else ("In our last review, we found " ++ str_of_int n ++ " issues.")
              ++ "
" ++ "Let me check what has changed since then." ++ "
" ++ "
" ++ ctx
     | None => ctx
     end.
Proof.
  unfold build_continuation_context.
  destruct (s_last_issues_count s) as [n|]; [destruct (Z.eqb n 0)|];
    reflexivity.
Qed.

End PreambleText.

(** X26.  The continuation context is a preamble followed by the original
    context, whole and last.  The preamble depends on the iteration, on
    the time since the last review and on the count of issues of the last
    review only, and a count of 0 gives the preamble of a session with no
    count at all. *)
Theorem continuation_preamble :
  forall (Value N G : Type) (now : Q)
         (s1 s2 : ReviewerService.session Value N G) (iteration0 : Z),
    let seen := fun s : ReviewerService.session Value N G =>
      match ReviewerService.s_last_issues_count s with
      | Some n => if Z.eqb n 0 then None else Some n
      | None => None
      end in
    ReviewerService.s_last_reviewed s1 = ReviewerService.s_last_reviewed s2 ->
    seen s1 = seen s2 ->
    exists preamble,
      forall ctx,
        ReviewerService.build_continuation_context now s1 ctx iteration0
          = preamble ++ ctx
        /\ ReviewerService.build_continuation_context now s2 ctx iteration0
           = preamble ++ ctx.
Proof.
  intros Value N G now s1 s2 iteration0 seen Ht Hseen. subst seen.
  cbv beta in Hseen.
  destruct (ReviewerService.s_last_issues_count s1) as [n1|] eqn:E1,
           (ReviewerService.s_last_issues_count s2) as [n2|] eqn:E2;
    try destruct (Z.eqb n1 0) eqn:Z1; try destruct (Z.eqb n2 0) eqn:Z2;
    try discriminate Hseen; try (injection Hseen as <-).
  all: eexists; intros ctx.
  all: rewrite !build_continuation_context_unfold, <- Ht, E1, E2, ?Z1, ?Z2.
  all: rewrite <- ?append_assoc.
  all: split; reflexivity.
Qed.

Lemma continuation_preamble_witness :
  exists preamble,
    forall ctx,
      ReviewerService.build_continuation_context 100
        (MoreExamples.session_with (Some 0%Z)) ctx 3 = preamble ++ ctx
      /\ ReviewerService.build_continuation_context 100
           (MoreExamples.session_with None) ctx 3 = preamble ++ ctx.
Proof.
  apply (continuation_preamble _ _ _ 100
           (MoreExamples.session_with (Some 0%Z))
           (MoreExamples.session_with None) 3); reflexivity.
Defined.

(** X27.  A continued review is always told that the last review was
    just now: [handle_review] writes the time of the request into the
    session before it builds the continuation context, so the context the
    model receives opens with the new iteration and with that line,
    whenever the context is built less than a minute after the request
    came in, however long ago the review before it was. *)
Theorem continued_review_says_just_now :
  forall (Args Value N G : Type) (env : ReviewerService.Env Args Value N G)
         (request : ReviewerService.ReviewRequest) (root : PosixPath.t)
         (m : gmap string (ReviewerService.session Value N G))
         (s0 : ReviewerService.session Value N G) (now : Q)
         (r : ReviewerService.ReviewResponse Args),
    ReviewerService.validate_project_root env
      (ReviewerService.project_root request) = inr root ->
    m !! ReviewerService.session_key root
           (ReviewerService.session_name request) = Some s0 ->
    ReviewerService.env_build_continuation_context env
      = ReviewerService.build_continuation_context now ->
    (now - ReviewerService.env_now env < 60)%Q ->
    fst (ReviewerService.handle_review env request m)
      = ReviewerService.OK r ->
    exists s' rest more,
      snd (ReviewerService.handle_review env request m)
        !! ReviewerService.session_key root
             (ReviewerService.session_name request) = Some s'
      /\ GeminiClient.chat (ReviewerService.s_client s')
         = Some
             (GeminiClient.InitialContext
                (("ðŸ”„ Continuing review session (iteration "
                    ++ Py.str_of_int (ReviewerService.s_iteration s0 + 1)
                    ++ ")")
                 ++ "
" ++ "ðŸ“… Last reviewed: just now" ++ "
" ++ rest) :: more).
Proof.
  intros Args Value N G env request root m s0 now r Hv L Hb Hnow.
  unfold ReviewerService.handle_review. rewrite Hv, L.
  unfold ReviewerService.review_in_session.
  destruct (ReviewerService.env_new_nav env root) as [e|nav];
    [discriminate|].
  change (String.eqb "continued" "continued") with true. cbv iota.
  destruct (GeminiClient.review_code _ _ _ _ _) as [[res|e|] c2] eqn:RC;
    try discriminate.
  destruct (GeminiClient.review_content res) as [content|];
    [|discriminate].
  cbn [fst snd]. intros _.
  apply review_code_shape in RC.
  destruct RC as (_ & (more & M1 & _) & _).
  eexists. eexists. exists more. rewrite lookup_insert_eq.
  split; [reflexivity|].
  cbn [ReviewerService.s_client ReviewerService.with_issues
       ReviewerService.with_client].
  rewrite M1. cbn [app]. do 3 f_equal.
  rewrite Hb, build_continuation_context_unfold.
  cbn [ReviewerService.s_last_reviewed ReviewerService.with_client
       ReviewerService.continue_session ReviewerService.s_iteration].
  unfold ReviewerService.format_time_ago.
  apply Qle_bool_false in Hnow. rewrite Hnow. cbn [negb].
  reflexivity.
Qed.

Lemma continued_review_says_just_now_witness :
  exists s' rest more,
    snd (ReviewerService.handle_review
           (MoreExamples.env_at 100000 1
              (GeminiClient.scripted Examples.one_then_final))
           (Examples.demo_request "/tmp/repo" "x") MoreExamples.after_first)
      !! "/tmp/repo:x" = Some s'
    /\ GeminiClient.chat (ReviewerService.s_client s')
       = Some
           (GeminiClient.InitialContext
              (("ðŸ”„ Continuing review session (iteration "
                  ++ Py.str_of_int
                       (ReviewerService.s_iteration
                          (default (MoreExamples.session_with None)
                             (MoreExamples.after_first !! "/tmp/repo:x"))
                        + 1)
                  ++ ")")
               ++ "
" ++ "ðŸ“… Last reviewed: just now" ++ "
" ++ rest) :: more).
Proof.
  refine (continued_review_says_just_now _ _ _ _
            (MoreExamples.env_at 100000 1
               (GeminiClient.scripted Examples.one_then_final))
            (Examples.demo_request "/tmp/repo" "x")
            (PosixPath.mk true ["tmp"; "repo"])
            MoreExamples.after_first
            (default (MoreExamples.session_with None)
               (MoreExamples.after_first !! "/tmp/repo:x"))
            (100000 + 1)%Q _ _ _ _ _ _).
  - vm_compute. reflexivity.
  - vm_compute. reflexivity.
  - reflexivity.
  - reflexivity.
  - vm_compute. reflexivity.
Defined.
